(** * Mamlibrary: the section editor of [app.ts], embedded and verified

    The component [App] of [src/app/app.ts] keeps a list of [BookSection]
    records in a signal, builds prompts from the reactive form by template
    literals, drives the generation calls section by section, mirrors the
    list to [localStorage] and to a remote table, and exports it as LaTeX
    or Word-compatible HTML.

    Conventions of the embedding.
    - A JavaScript string is the sequence of bytes of its UTF-8 encoding
      ([String.string]); literals are copied from the source.
    - A JavaScript number is a decimal numeral [JsNumber] (sign, integer
      part, fraction digits): the numbers the program handles (section
      ids, page counts, the temperature) print without exponent, and a
      number is identified with the text JavaScript prints for it.
    - The value of the reactive form is an ordered list of (control name,
      value) pairs, as [FormGroup.value] is an object whose keys keep the
      order of declaration.
    - Signals and component fields become the fields of [State]; every
      method is a function on [State].  The external services (the
      generative model, the remote table) are oracles passed as
      arguments: a run is taken for an arbitrary sequence of answers.
    - The [effect] registered in the constructor is [autosave_effect]; it
      is scheduled by every write of the [sections] signal
      ([effectPending]) and run by [flush].
    - The tests [form.customSources?.trim()] and
      [form.customOutline?.trim()] are embedded where they return: on a
      control that holds text, [null] or nothing.  [sources_throw] and
      [outline_throws] name the forms on which they throw, and the
      theorems on the runs of the generation methods are stated for the
      other forms.
    - [JSON_parse] reads the texts [JSON_stringify] writes; it refuses
      number literals with an exponent and escapes in the surrogate
      range, which [JSON.parse] reads.  Where a theorem is about a text
      that is refused, the text is one that [JSON.parse] refuses as well
      ([not_json]). *)

From Stdlib Require Import ZArith NArith String Ascii List Lia Bool.
From Stdlib Require Import DecimalString DecimalN DecimalFacts.
From Stdlib Require Import QArith Qround Lqa.
From stdpp Require Import base list.
Import ListNotations.
Open Scope string_scope.

#[local] Set Warnings "-register-all,-abstract-large-number".

(* ================================================================== *)
(** * Part I: definitions *)
(* ================================================================== *)

(** ** Strings *)

Definition dquote : ascii := "034"%char.
Definition backslash : ascii := "092"%char.
Definition LF : ascii := "010"%char.

Definition str1 (c : ascii) : string := String c "".

Fixpoint str_rev_onto (s acc : string) : string :=
  match s with
  | "" => acc
  | String c r => str_rev_onto r (String c acc)
  end.

Definition str_rev (s : string) : string := str_rev_onto s "".

Definition is_digit (c : ascii) : bool :=
  let n := nat_of_ascii c in (48 <=? n)%nat && (n <=? 57)%nat.

(** [String.prototype.split('\n')]: the pieces between line feeds; the
    empty string splits into one empty piece. *)
Fixpoint split_lines (s : string) : list string :=
  match s with
  | "" => [""]
  | String c r =>
      if Ascii.eqb c LF then "" :: split_lines r
      else match split_lines r with
           | l :: ls => String c l :: ls
           | [] => [str1 c]
           end
  end.

(** White space of [String.prototype.trim]: the ASCII white space and line
    terminators, and the UTF-8 encodings of U+00A0, U+1680, U+2000..U+200A,
    U+2028, U+2029, U+202F, U+205F, U+3000 and U+FEFF. *)
Definition is_ascii_space (c : ascii) : bool :=
  let n := nat_of_ascii c in
  (n =? 32)%nat || ((9 <=? n)%nat && (n <=? 13)%nat).

Fixpoint trimStart (s : string) : string :=
  match s with
  | String c r =>
      if is_ascii_space c then trimStart r
      else match nat_of_ascii c, r with
           | 194, String d r1 =>
               if (nat_of_ascii d =? 160)%nat then trimStart r1 else s
           | 225, String d (String e r2) =>
               if ((nat_of_ascii d =? 154) && (nat_of_ascii e =? 128))%nat
               then trimStart r2 else s
           | 226, String d (String e r2) =>
               let x := nat_of_ascii d in
               let y := nat_of_ascii e in
               if ((x =? 128) && (((128 <=? y) && (y <=? 138)) ||
                                  (y =? 168) || (y =? 169) || (y =? 175)))%nat
                  || ((x =? 129) && (y =? 159))%nat
               then trimStart r2 else s
           | 227, String d (String e r2) =>
               if ((nat_of_ascii d =? 128) && (nat_of_ascii e =? 128))%nat
               then trimStart r2 else s
           | 239, String d (String e r2) =>
               if ((nat_of_ascii d =? 187) && (nat_of_ascii e =? 191))%nat
               then trimStart r2 else s
           | _, _ => s
           end
  | "" => ""
  end.

(** The same classes read from the end, on the reversed string. *)
Fixpoint trimStart_rev (s : string) : string :=
  match s with
  | String c r =>
      if is_ascii_space c then trimStart_rev r
      else match r with
           | String d r1 =>
               let z := nat_of_ascii c in
               let y := nat_of_ascii d in
               if ((y =? 194) && (z =? 160))%nat then trimStart_rev r1
               else match r1 with
                    | String e r2 =>
                        let x := nat_of_ascii e in
                        if ((x =? 225) && (y =? 154) && (z =? 128))%nat
                           || ((x =? 226) && (y =? 128) &&
                               (((128 <=? z) && (z <=? 138)) ||
                                (z =? 168) || (z =? 169) || (z =? 175)))%nat
                           || ((x =? 226) && (y =? 129) && (z =? 159))%nat
                           || ((x =? 227) && (y =? 128) && (z =? 128))%nat
                           || ((x =? 239) && (y =? 187) && (z =? 191))%nat
                        then trimStart_rev r2 else s
                    | "" => s
                    end
           | "" => s
           end
  | "" => ""
  end.

Definition trim (s : string) : string :=
  str_rev (trimStart_rev (str_rev (trimStart s))).

Definition nonempty (s : string) : bool :=
  match s with "" => false | _ => true end.

(** [s.slice(-n)]: the last [n] characters.  A character is a UTF-8 lead
    byte with its continuation bytes (JavaScript counts UTF-16 units, which
    differs for characters outside the basic plane only). *)
Definition is_continuation (c : ascii) : bool :=
  let n := nat_of_ascii c in (128 <=? n)%nat && (n <=? 191)%nat.

Fixpoint take_chars_rev (n : nat) (s : string) (acc : string) : string :=
  match n, s with
  | O, _ => acc
  | _, "" => acc
  | S n', String c r =>
      if is_continuation c then take_chars_rev n r (String c acc)
      else take_chars_rev n' r (String c acc)
  end.

Definition slice_last (n : nat) (s : string) : string :=
  take_chars_rev n (str_rev s) "".

(** Whether [needle] starts at the head of [s], and the number of
    positions of [s] at which it starts. *)
Fixpoint starts_with (needle s : string) : bool :=
  match needle, s with
  | "", _ => true
  | String a n', String b s' => Ascii.eqb a b && starts_with n' s'
  | String _ _, "" => false
  end.

Fixpoint occurrences (needle s : string) : nat :=
  match s with
  | "" => if starts_with needle "" then 1 else 0
  | String _ r => (if starts_with needle s then 1 else 0) + occurrences needle r
  end%nat.

Definition occurs (needle s : string) : bool :=
  negb (occurrences needle s =? 0)%nat.

Definition join (sep : string) (l : list string) : string := String.concat sep l.

(** ** Numbers *)

Record JsNumber := mkNum {
  num_neg : bool;
  num_int : N;
  num_frac : Decimal.uint    (* fraction digits, most significant first *)
}.

Definition Number_of_Z (z : Z) : JsNumber :=
  mkNum (z <? 0)%Z (Z.abs_N z) Decimal.Nil.

Definition frac_is_zero (f : Decimal.uint) : bool :=
  match Decimal.nzhead f with Decimal.Nil => true | _ => false end.

(** The integer a number denotes, when it is one. *)
Definition Number_to_Z (n : JsNumber) : option Z :=
  if frac_is_zero (num_frac n)
  then Some (if num_neg n then - Z.of_N (num_int n) else Z.of_N (num_int n))%Z
  else None.

Definition Number_is_zero (n : JsNumber) : bool :=
  (num_int n =? 0)%N && frac_is_zero (num_frac n).

(** [Number::toString] for numbers printed without exponent. *)
Definition fraction_text (f : Decimal.uint) : string :=
  match f with
  | Decimal.Nil => ""
  | _ => "." ++ NilEmpty.string_of_uint f
  end.

Definition Number_toString (n : JsNumber) : string :=
  (if num_neg n && negb (Number_is_zero n) then "-" else "") ++
  NilEmpty.string_of_uint (N.to_uint (num_int n)) ++
  fraction_text (num_frac n).

(** [k <= n] and [n <= k] for a natural constant [k]. *)
Definition Number_ge (n : JsNumber) (k : N) : bool :=
  if num_neg n then (k =? 0)%N && Number_is_zero n
  else (k <=? num_int n)%N.

Definition Number_le (n : JsNumber) (k : N) : bool :=
  if num_neg n then true
  else (num_int n <? k)%N || ((num_int n =? k)%N && frac_is_zero (num_frac n)).

(** [Math.ceil(n / 5)]. *)
Definition Math_ceil_div5 (n : JsNumber) : Z :=
  let q := Z.of_N (num_int n / 5) in
  let r := (num_int n mod 5)%N in
  if num_neg n then (- q)%Z
  else if (r =? 0)%N && frac_is_zero (num_frac n) then q else (q + 1)%Z.

(** A number is in printed form when its fraction has no trailing zero and
    it is not a negative zero. *)
Definition Number_canonical (n : JsNumber) : bool :=
  match Decimal.uint_eq_dec (nztail (num_frac n)) (num_frac n) with
  | left _ => negb (num_neg n && Number_is_zero n)
  | right _ => false
  end.

(** ** JSON *)

Inductive json :=
| JNull
| JBool (b : bool)
| JNum (n : JsNumber)
| JStr (s : string)
| JArr (l : list json)
| JObj (m : list (string * json)).

Definition hex_digit (n : nat) : ascii :=
  ascii_of_nat (if (n <? 10)%nat then 48 + n else 87 + n).

(** [QuoteJSONString]: the two-character escapes, [\u00xx] for the other
    control characters, every other character as it is. *)
Definition quote_char (c : ascii) : string :=
  let n := nat_of_ascii c in
  if (n =? 8)%nat then "\b"
  else if (n =? 9)%nat then "\t"
  else if (n =? 10)%nat then "\n"
  else if (n =? 12)%nat then "\f"
  else if (n =? 13)%nat then "\r"
  else if (n =? 34)%nat then String backslash (str1 dquote)
  else if (n =? 92)%nat then "\\"
  else if (n <? 32)%nat
       then "\u00" ++ String (hex_digit (n / 16)) (str1 (hex_digit (n mod 16)))
  else str1 c.

Fixpoint quote_body (s : string) : string :=
  match s with
  | "" => ""
  | String c r => quote_char c ++ quote_body r
  end.

Definition QuoteJSONString (s : string) : string :=
  String dquote (quote_body s ++ str1 dquote).

Fixpoint JSON_stringify (v : json) : string :=
  match v with
  | JNull => "null"
  | JBool true => "true"
  | JBool false => "false"
  | JNum n => Number_toString n
  | JStr s => QuoteJSONString s
  | JArr l => "[" ++ join "," (map JSON_stringify l) ++ "]"
  | JObj m =>
      "{" ++ join "," (map (fun kv => QuoteJSONString (fst kv) ++ ":" ++
                                      JSON_stringify (snd kv)) m) ++ "}"
  end.

(** *** [JSON.parse] *)

Definition is_json_ws (c : ascii) : bool :=
  let n := nat_of_ascii c in
  (n =? 32)%nat || (n =? 9)%nat || (n =? 10)%nat || (n =? 13)%nat.

Fixpoint skip_ws (s : string) : string :=
  match s with
  | String c r => if is_json_ws c then skip_ws r else s
  | "" => ""
  end.

Definition hex_value (c : ascii) : option nat :=
  let n := nat_of_ascii c in
  if (48 <=? n)%nat && (n <=? 57)%nat then Some (n - 48)%nat
  else if (97 <=? n)%nat && (n <=? 102)%nat then Some (n - 87)%nat
  else if (65 <=? n)%nat && (n <=? 70)%nat then Some (n - 55)%nat
  else None.

Definition hex4 (a b c d : ascii) : option nat :=
  match hex_value a, hex_value b, hex_value c, hex_value d with
  | Some x, Some y, Some z, Some w => Some (((x * 16 + y) * 16 + z) * 16 + w)%nat
  | _, _, _, _ => None
  end.

(** The UTF-8 bytes of a code unit written [\uXXXX].  Surrogates (which
    JavaScript joins in pairs, or keeps alone) have no encoding here. *)
Definition utf8_of_unit (u : nat) : option string :=
  if (u <? 128)%nat then Some (str1 (ascii_of_nat u))
  else if (u <? 2048)%nat then
    Some (String (ascii_of_nat (192 + u / 64)) (str1 (ascii_of_nat (128 + u mod 64))))
  else if (55296 <=? u)%nat && (u <=? 57343)%nat then None
  else
    Some (String (ascii_of_nat (224 + u / 4096))
            (String (ascii_of_nat (128 + (u / 64) mod 64))
               (str1 (ascii_of_nat (128 + u mod 64))))).

Definition simple_escape (e : ascii) : option ascii :=
  match nat_of_ascii e with
  | 34 => Some dquote
  | 92 => Some backslash
  | 47 => Some "/"%char
  | 98 => Some "008"%char
  | 102 => Some "012"%char
  | 110 => Some "010"%char
  | 114 => Some "013"%char
  | 116 => Some "009"%char
  | _ => None
  end.

Definition prepend (p : string) (r : option (string * string)) : option (string * string) :=
  match r with
  | Some (s, rest) => Some (p ++ s, rest)
  | None => None
  end.

(** The body of a string literal, after the opening quote: the decoded
    string and the input left after the closing quote. *)
Fixpoint parse_string_body (s : string) : option (string * string) :=
  match s with
  | "" => None
  | String c r =>
      let n := nat_of_ascii c in
      if (n =? 34)%nat then Some ("", r)
      else if (n =? 92)%nat then
        match r with
        | String e r1 =>
            if (nat_of_ascii e =? 117)%nat then
              match r1 with
              | String h1 (String h2 (String h3 (String h4 r2))) =>
                  match hex4 h1 h2 h3 h4 with
                  | Some u =>
                      match utf8_of_unit u with
                      | Some bytes => prepend bytes (parse_string_body r2)
                      | None => None
                      end
                  | None => None
                  end
              | _ => None
              end
            else
              match simple_escape e with
              | Some x => prepend (str1 x) (parse_string_body r1)
              | None => None
              end
        | "" => None
        end
      else if (n <? 32)%nat then None
      else prepend (str1 c) (parse_string_body r)
  end.

Fixpoint span_digits (s : string) : string * string :=
  match s with
  | String c r =>
      if is_digit c then let (d, t) := span_digits r in (String c d, t)
      else ("", s)
  | "" => ("", "")
  end.

Definition starts_with_char (c : ascii) (s : string) : bool :=
  match s with
  | String d _ => Ascii.eqb c d
  | "" => false
  end.

(** A number literal: [-]? digits ([.] digits)?  The integer part has no
    leading zero.  A literal with an exponent is not read (no value of the
    model prints with one). *)
Definition finish_number (neg : bool) (ip : N) (f : Decimal.uint) (rest : string)
  : option (JsNumber * string) :=
  if starts_with_char "e"%char rest || starts_with_char "E"%char rest then None
  else Some (mkNum neg ip f, rest).

Definition parse_fraction (neg : bool) (ip : N) (s : string)
  : option (JsNumber * string) :=
  match s with
  | String c r =>
      if Ascii.eqb c "."%char then
        let (fs, s3) := span_digits r in
        match fs with
        | "" => None
        | _ => match NilEmpty.uint_of_string fs with
               | Some f => finish_number neg ip (nztail f) s3
               | None => None
               end
        end
      else finish_number neg ip Decimal.Nil s
  | "" => finish_number neg ip Decimal.Nil s
  end.

Definition parse_unsigned (neg : bool) (s : string) : option (JsNumber * string) :=
  let (ds, s2) := span_digits s in
  match ds with
  | "" => None
  | String c0 cr =>
      if Ascii.eqb c0 "0"%char && nonempty cr then None
      else match NilEmpty.uint_of_string ds with
           | Some di => parse_fraction neg (N.of_uint di) s2
           | None => None
           end
  end.

Definition parse_number (s : string) : option (JsNumber * string) :=
  match s with
  | String c r =>
      if Ascii.eqb c "-"%char then parse_unsigned true r
      else parse_unsigned false s
  | "" => None
  end.

Fixpoint strip_prefix (p s : string) : option string :=
  match p, s with
  | "", _ => Some s
  | String a p', String b s' => if Ascii.eqb a b then strip_prefix p' s' else None
  | String _ _, "" => None
  end.

Definition expect (lit : string) (v : json) (s : string) : option (json * string) :=
  match strip_prefix lit s with
  | Some rest => Some (v, rest)
  | None => None
  end.

(** Recursive descent.  One step of each of the three parsers, given the
    parsers for what is nested inside. *)
Definition value_step
    (elements : string -> option (list json * string))
    (members : string -> option (list (string * json) * string))
    (s : string) : option (json * string) :=
  match skip_ws s with
  | "" => None
  | String c r =>
      let n := nat_of_ascii c in
      if (n =? 110)%nat then expect "null" JNull (String c r)
      else if (n =? 116)%nat then expect "true" (JBool true) (String c r)
      else if (n =? 102)%nat then expect "false" (JBool false) (String c r)
      else if (n =? 34)%nat then
        match parse_string_body r with
        | Some (x, rest) => Some (JStr x, rest)
        | None => None
        end
      else if (n =? 91)%nat then
        match skip_ws r with
        | String d r1 =>
            if (nat_of_ascii d =? 93)%nat then Some (JArr [], r1)
            else match elements r with
                 | Some (l, rest) => Some (JArr l, rest)
                 | None => None
                 end
        | "" => None
        end
      else if (n =? 123)%nat then
        match skip_ws r with
        | String d r1 =>
            if (nat_of_ascii d =? 125)%nat then Some (JObj [], r1)
            else match members r with
                 | Some (m, rest) => Some (JObj m, rest)
                 | None => None
                 end
        | "" => None
        end
      else
        match parse_number (String c r) with
        | Some (x, rest) => Some (JNum x, rest)
        | None => None
        end
  end.

Definition elements_step
    (value : string -> option (json * string))
    (elements : string -> option (list json * string))
    (s : string) : option (list json * string) :=
  match value s with
  | Some (v, r) =>
      match skip_ws r with
      | String d r1 =>
          if (nat_of_ascii d =? 44)%nat then
            match elements r1 with
            | Some (l, rest) => Some (v :: l, rest)
            | None => None
            end
          else if (nat_of_ascii d =? 93)%nat then Some ([v], r1)
          else None
      | "" => None
      end
  | None => None
  end.

Definition members_step
    (value : string -> option (json * string))
    (members : string -> option (list (string * json) * string))
    (s : string) : option (list (string * json) * string) :=
  match skip_ws s with
  | String q r =>
      if (nat_of_ascii q =? 34)%nat then
        match parse_string_body r with
        | Some (k, r1) =>
            match skip_ws r1 with
            | String c r2 =>
                if (nat_of_ascii c =? 58)%nat then
                  match value r2 with
                  | Some (v, r3) =>
                      match skip_ws r3 with
                      | String d r4 =>
                          if (nat_of_ascii d =? 44)%nat then
                            match members r4 with
                            | Some (m, rest) => Some ((k, v) :: m, rest)
                            | None => None
                            end
                          else if (nat_of_ascii d =? 125)%nat then Some ([(k, v)], r4)
                          else None
                      | "" => None
                      end
                  | None => None
                  end
                else None
            | "" => None
            end
        | None => None
        end
      else None
  | "" => None
  end.

(** [fuel] bounds the number of nested calls. *)
Fixpoint parse_value (fuel : nat) (s : string) : option (json * string) :=
  match fuel with
  | O => None
  | S f => value_step (parse_elements f) (parse_members f) s
  end
with parse_elements (fuel : nat) (s : string) : option (list json * string) :=
  match fuel with
  | O => None
  | S f => elements_step (parse_value f) (parse_elements f) s
  end
with parse_members (fuel : nat) (s : string) : option (list (string * json) * string) :=
  match fuel with
  | O => None
  | S f => members_step (parse_value f) (parse_members f) s
  end.

(** [JSON.parse]: one value, then nothing but white space.  [None] is the
    [SyntaxError]. *)
Definition JSON_parse (s : string) : option json :=
  match parse_value (S (String.length s)) s with
  | Some (v, rest) => match skip_ws rest with "" => Some v | _ => None end
  | None => None
  end.


(** Values that [JSON.stringify] prints and [JSON.parse] reads back: every
    number is in printed form. *)
Fixpoint json_wf (v : json) : bool :=
  match v with
  | JNum n => Number_canonical n
  | JArr l => forallb json_wf l
  | JObj m => forallb (fun kv => json_wf (snd kv)) m
  | _ => true
  end.

(** Nesting measure: the fuel that reading back the text of [v] takes. *)
Fixpoint json_need (v : json) : nat :=
  match v with
  | JArr l => S (list_sum (map (fun x => S (json_need x)) l))
  | JObj m => S (list_sum (map (fun kv => S (json_need (snd kv))) m))
  | _ => 1
  end.

(** What may follow a value inside a text: the end, or [,], []] or [}]. *)
Definition delimited (rest : string) : bool :=
  match rest with
  | "" => true
  | String c _ =>
      let n := nat_of_ascii c in (n =? 44)%nat || (n =? 93)%nat || (n =? 125)%nat
  end.

Definition not_digit_head (s : string) : Prop :=
  match s with
  | String c _ => is_digit c = false
  | "" => True
  end.

(** The text of the elements of an array, and of the members of an object. *)
Definition elements_text (l : list json) : string :=
  join "," (map JSON_stringify l).

Definition member_text (kv : string * json) : string :=
  QuoteJSONString (fst kv) ++ ":" ++ JSON_stringify (snd kv).

Definition members_text (m : list (string * json)) : string :=
  join "," (map member_text m).

Definition elements_need (l : list json) : nat :=
  list_sum (map (fun x => S (json_need x)) l).

Definition members_need (m : list (string * json)) : nat :=
  list_sum (map (fun kv => S (json_need (snd kv))) m).

(* ------------------------------------------------------------------ *)
(** ** The data model of [app.ts] *)

(** [BookSection.status]. *)
Inductive Status := Pending | Generating | Done | Humanizing.

Definition status_text (s : Status) : string :=
  match s with
  | Pending => "pending"
  | Generating => "generating"
  | Done => "done"
  | Humanizing => "humanizing"
  end.

Definition status_of_text (t : string) : option Status :=
  if String.eqb t "pending" then Some Pending
  else if String.eqb t "generating" then Some Generating
  else if String.eqb t "done" then Some Done
  else if String.eqb t "humanizing" then Some Humanizing
  else None.

Record BookSection := mkSection {
  id : Z;
  title : string;
  content : string;
  status : Status
}.

Record SavedDocument := mkDocument {
  doc_id : Z;
  doc_title : string;
  doc_topic : string;
  doc_type : string;
  doc_level : string;
  doc_content : string;
  doc_created_at : string
}.

Inductive AppView := Landing | Writing | Library | Seminar | Settings.

(** The object a section is at run time, property by property in the order
    of the object literals that create sections. *)
Definition section_to_json (s : BookSection) : json :=
  JObj [("id", JNum (Number_of_Z (id s)));
        ("title", JStr (title s));
        ("content", JStr (content s));
        ("status", JStr (status_text (status s)))].

Definition sections_to_json (l : list BookSection) : json :=
  JArr (map section_to_json l).

(** The typed reading of a parsed value: an object of the four properties
    of [BookSection]. *)
Definition section_of_json (v : json) : option BookSection :=
  match v with
  | JObj [(k1, JNum n); (k2, JStr t); (k3, JStr c); (k4, JStr s)] =>
      if String.eqb k1 "id" && String.eqb k2 "title" &&
         String.eqb k3 "content" && String.eqb k4 "status"
      then match Number_to_Z n, status_of_text s with
           | Some z, Some st => Some (mkSection z t c st)
           | _, _ => None
           end
      else None
  | _ => None
  end.

Fixpoint sections_of_list (l : list json) : option (list BookSection) :=
  match l with
  | [] => Some []
  | v :: r =>
      match section_of_json v, sections_of_list r with
      | Some s, Some rs => Some (s :: rs)
      | _, _ => None
      end
  end.

Definition sections_of_json (v : json) : option (list BookSection) :=
  match v with
  | JArr l => sections_of_list l
  | _ => None
  end.

(** *** The reactive form *)

(** The value of a control. *)
Inductive JsValue :=
| VNull
| VBool (b : bool)
| VNum (n : JsNumber)
| VStr (s : string).

(** [advancedForm.value]: control name and value, in declaration order. *)
Definition Form := list (string * JsValue).

(** [form.k]; [None] is [undefined]. *)
Fixpoint form_get (f : Form) (k : string) : option JsValue :=
  match f with
  | [] => None
  | (k', v) :: r => if String.eqb k' k then Some v else form_get r k
  end.

(** [advancedForm.get(k)?.setValue(v)]: nothing happens without a control
    of that name. *)
Fixpoint form_set (k : string) (v : JsValue) (f : Form) : Form :=
  match f with
  | [] => []
  | (k', v') :: r =>
      if String.eqb k' k then (k', v) :: r else (k', v') :: form_set k v r
  end.

(** [advancedForm.patchValue(obj)]: every control named in [obj] takes the
    value given there. *)
Definition patchValue (obj : list (string * JsValue)) (f : Form) : Form :=
  map (fun kv => match form_get obj (fst kv) with
                 | Some v => (fst kv, v)
                 | None => kv
                 end) f.

(** Truthiness, as the conditional operator tests it. *)
Definition truthy (v : option JsValue) : bool :=
  match v with
  | None | Some VNull => false
  | Some (VBool b) => b
  | Some (VNum n) => negb (Number_is_zero n)
  | Some (VStr s) => nonempty s
  end.

(** The text a template literal puts for a value. *)
Definition to_text (v : option JsValue) : string :=
  match v with
  | None => "undefined"
  | Some VNull => "null"
  | Some (VBool true) => "true"
  | Some (VBool false) => "false"
  | Some (VNum n) => Number_toString n
  | Some (VStr s) => s
  end.

Definition flag (f : Form) (k : string) : bool := truthy (form_get f k).

(** [form.k?.trim()] for a control that holds text, [null] or nothing; on
    a control that holds a boolean or a number the source throws, see
    [trim_throws]. *)
Definition trimmed (f : Form) (k : string) : string :=
  match form_get f k with
  | Some (VStr s) => trim s
  | _ => ""
  end.

Definition value_to_json (v : JsValue) : json :=
  match v with
  | VNull => JNull
  | VBool b => JBool b
  | VNum n => JNum n
  | VStr s => JStr s
  end.

Definition value_of_json (v : json) : option JsValue :=
  match v with
  | JNull => Some VNull
  | JBool b => Some (VBool b)
  | JNum n => Some (VNum n)
  | JStr s => Some (VStr s)
  | _ => None
  end.

Definition form_to_json (f : Form) : json :=
  JObj (map (fun kv => (fst kv, value_to_json (snd kv))) f).

Fixpoint form_of_members (m : list (string * json)) : option Form :=
  match m with
  | [] => Some []
  | (k, v) :: r =>
      match value_of_json v, form_of_members r with
      | Some x, Some rf => Some ((k, x) :: rf)
      | _, _ => None
      end
  end.

Definition value_canonical (v : JsValue) : bool :=
  match v with
  | VNum n => Number_canonical n
  | _ => true
  end.

(** Every number of the form is in printed form. *)
Definition form_canonical (f : Form) : bool :=
  forallb (fun kv => value_canonical (snd kv)) f.

(** *** Requests to the outside *)

Inductive Call :=
| GenerateContentStream (section_index : nat) (prompt : string)
| GenerateContent (prompt : string)
| Insert (title topic type level : option JsValue) (content : string)
| Select
| Delete (row : Z).

(** What comes back from [generateContentStream]: the [text] of each chunk
    ([None] when a chunk has none) and whether the stream, or the call
    itself, ends by throwing. *)
Record StreamAnswer := mkStream {
  chunks : list (option string);
  throws : bool
}.

(** What comes back from [generateContent]: [None] when the call throws,
    else [response.text], which may be undefined. *)
Definition ContentAnswer := option (option string).

(** [fullContent += chunk.text]. *)
Definition chunk_text (c : option string) : string :=
  match c with
  | Some t => t
  | None => "undefined"
  end.

(** *** The component *)

Record State := mkState {
  currentView : AppView;
  writingWindow : nat;
  advancedForm : Form;
  sections : list BookSection;
  activeSectionId : option Z;
  isGeneratingGlobal : bool;
  globalError : string;
  isAutoSelecting : option string;
  savedDocuments : list SavedDocument;
  isLoadingDocs : bool;
  localStorage : option string;  (* the item 'mamlibrary_autosave' *)
  effectPending : bool;  (* the auto-save effect is scheduled *)
  calls : list Call  (* requests sent to the outside, oldest first *)
}.

Definition set_currentView (v : AppView) (st : State) : State :=
  mkState v (writingWindow st) (advancedForm st) (sections st)
    (activeSectionId st) (isGeneratingGlobal st) (globalError st)
    (isAutoSelecting st) (savedDocuments st) (isLoadingDocs st)
    (localStorage st) (effectPending st) (calls st).

Definition set_writingWindow (n : nat) (st : State) : State :=
  mkState (currentView st) n (advancedForm st) (sections st)
    (activeSectionId st) (isGeneratingGlobal st) (globalError st)
    (isAutoSelecting st) (savedDocuments st) (isLoadingDocs st)
    (localStorage st) (effectPending st) (calls st).

Definition set_advancedForm (f : Form) (st : State) : State :=
  mkState (currentView st) (writingWindow st) f (sections st)
    (activeSectionId st) (isGeneratingGlobal st) (globalError st)
    (isAutoSelecting st) (savedDocuments st) (isLoadingDocs st)
    (localStorage st) (effectPending st) (calls st).

Definition set_activeSectionId (a : option Z) (st : State) : State :=
  mkState (currentView st) (writingWindow st) (advancedForm st)
    (sections st) a (isGeneratingGlobal st) (globalError st)
    (isAutoSelecting st) (savedDocuments st) (isLoadingDocs st)
    (localStorage st) (effectPending st) (calls st).

Definition set_isGeneratingGlobal (b : bool) (st : State) : State :=
  mkState (currentView st) (writingWindow st) (advancedForm st)
    (sections st) (activeSectionId st) b (globalError st)
    (isAutoSelecting st) (savedDocuments st) (isLoadingDocs st)
    (localStorage st) (effectPending st) (calls st).

Definition set_globalError (e : string) (st : State) : State :=
  mkState (currentView st) (writingWindow st) (advancedForm st)
    (sections st) (activeSectionId st) (isGeneratingGlobal st) e
    (isAutoSelecting st) (savedDocuments st) (isLoadingDocs st)
    (localStorage st) (effectPending st) (calls st).

Definition set_isAutoSelecting (g : option string) (st : State) : State :=
  mkState (currentView st) (writingWindow st) (advancedForm st)
    (sections st) (activeSectionId st) (isGeneratingGlobal st)
    (globalError st) g (savedDocuments st) (isLoadingDocs st)
    (localStorage st) (effectPending st) (calls st).

Definition set_savedDocuments (d : list SavedDocument) (st : State) : State :=
  mkState (currentView st) (writingWindow st) (advancedForm st)
    (sections st) (activeSectionId st) (isGeneratingGlobal st)
    (globalError st) (isAutoSelecting st) d (isLoadingDocs st)
    (localStorage st) (effectPending st) (calls st).

Definition set_isLoadingDocs (b : bool) (st : State) : State :=
  mkState (currentView st) (writingWindow st) (advancedForm st)
    (sections st) (activeSectionId st) (isGeneratingGlobal st)
    (globalError st) (isAutoSelecting st) (savedDocuments st) b
    (localStorage st) (effectPending st) (calls st).

Definition set_localStorage (s : option string) (st : State) : State :=
  mkState (currentView st) (writingWindow st) (advancedForm st)
    (sections st) (activeSectionId st) (isGeneratingGlobal st)
    (globalError st) (isAutoSelecting st) (savedDocuments st)
    (isLoadingDocs st) s (effectPending st) (calls st).

Definition set_effectPending (b : bool) (st : State) : State :=
  mkState (currentView st) (writingWindow st) (advancedForm st)
    (sections st) (activeSectionId st) (isGeneratingGlobal st)
    (globalError st) (isAutoSelecting st) (savedDocuments st)
    (isLoadingDocs st) (localStorage st) b (calls st).

(** [this.sections.set(l)] and [this.sections.update(...)]: a new array is
    stored, and the effect that reads the signal is scheduled. *)
Definition set_sections (l : list BookSection) (st : State) : State :=
  mkState (currentView st) (writingWindow st) (advancedForm st) l
    (activeSectionId st) (isGeneratingGlobal st) (globalError st)
    (isAutoSelecting st) (savedDocuments st) (isLoadingDocs st)
    (localStorage st) true (calls st).

(** A request leaves for the outside. *)
Definition send (c : Call) (st : State) : State :=
  mkState (currentView st) (writingWindow st) (advancedForm st)
    (sections st) (activeSectionId st) (isGeneratingGlobal st)
    (globalError st) (isAutoSelecting st) (savedDocuments st)
    (isLoadingDocs st) (localStorage st) (effectPending st)
    (calls st ++ [c]).

(* ------------------------------------------------------------------ *)
(** ** Template literals

    A template literal is its sequence of text chunks and substitutions.
    The substitutions that occur in the prompts are a form value, a
    conditional fragment on a form flag, and a local value. *)

Inductive Piece :=
| Lit (text : string)
| Val (k : string)                          (* ${form.k} *)
| Opt (k : string) (text : string)          (* ${form.k ? 'text' : ''} *)
| OptVal (k : string) (a : string) (k2 : string) (b : string)
                                            (* ${form.k ? `a${form.k2}b` : ''} *)
| Arg (i : nat)                             (* ${x}, the i-th local value *)
| OptArg (i : nat) (a : string).            (* ${x ? `a${x}` : ''} *)

Definition Template := list Piece.

Definition arg (args : list string) (i : nat) : string := nth i args "".

Definition render_piece (f : Form) (args : list string) (p : Piece) : string :=
  match p with
  | Lit text => text
  | Val k => to_text (form_get f k)
  | Opt k text => if flag f k then text else ""
  | OptVal k a k2 b => if flag f k then a ++ to_text (form_get f k2) ++ b else ""
  | Arg i => arg args i
  | OptArg i a => if nonempty (arg args i) then a ++ arg args i else ""
  end.

Fixpoint render (f : Form) (args : list string) (t : Template) : string :=
  match t with
  | [] => ""
  | p :: r => render_piece f args p ++ render f args r
  end.

(** The prompt of [autoSelectFeatures]; [level], [type] and [title] are the
    values of those controls, the local value is [groupKeys.join(', ')]. *)
Definition autoSelectFeatures_template : Template :=
  [ Lit "
      You are an expert academic advisor at Harvard University.
      I am writing a ";
    Val "level";
    Lit " level ";
    Val "type";
    Lit (" titled " ++ str1 dquote);
    Val "title";
    Lit (str1 dquote ++ ".
      
      I have a group of advanced academic features: ");
    Arg 0;
    Lit (".
      
      Based on the title, type, and level, select the MOST RELEVANT features from this list that would genuinely improve the quality of this specific work. Return ONLY a valid JSON array of strings containing the exact keys of the selected features. Do not include any markdown formatting, just the raw JSON array. For example: [" ++ str1 dquote ++ "feature1" ++ str1 dquote ++ ", " ++ str1 dquote ++ "feature2" ++ str1 dquote ++ "]
      ") ].

(** The outline prompt of [sendToWindow2]. *)
Definition sendToWindow2_template : Template :=
  [ Lit "
      تۆ سەرنووسەرێکی باڵای چاپخانەی زانکۆی هارڤارد (Harvard University Press)یت.
      تکایە پێکهاتە و ناونیشانی بەشەکانی ئەم بەرهەمە دابڕێژە بە ستانداردی توندی ئەکادیمی هارڤارد:
      ناونیشان: ";
    Val "title";
    Lit "
      بابەت: ";
    Val "topic";
    Lit "
      جۆر: ";
    Val "type";
    Lit "
      ئاست: ";
    Val "level";
    Lit "
      قەبارە: ";
    Val "pages";
    Lit " لاپەڕە
      
      تەنها ناونیشانی بەشەکانم بدەرێ بە شێوەی لیستێکی ژمارەیی، بێ هیچ قسەیەکی زیادە. با ژمارەی بەشەکان گونجاو بێت بۆ ئەم قەبارەیە.
      " ].

(** The section prompt of [autoWrite]; the local values are
    [sourcesInstruction], [section.title] and [previousContext]. *)
Definition autoWrite_template : Template :=
  [ Lit "
      تۆ پڕۆفیسۆرێکی باڵا و سەرنووسەری چاپخانەی زانکۆی هارڤارد (Harvard University Press)یت.
      تۆ خەریکی نووسینی ئەم بەرهەمەیت بەپێی ستانداردە توندەکانی هارڤارد:
      ناونیشانی گشتی: ";
    Val "title";
    Lit "
      بابەت: ";
    Val "topic";
    Lit "
      جۆر: ";
    Val "type";
    Lit "
      ئاست: ";
    Val "level";
    Lit "
      پلەی گەرمی (داهێنان): ";
    Val "temperature";
    Lit "
      
      ڕێنماییە زۆر توندەکان بۆ سڕینەوەی مۆرکی ئامێر (ZERO AI FOOTPRINT) - ئەگەر ئەمە جێبەجێ نەکەیت دەقەکە ڕەتدەکرێتەوە:
      ١. بە هیچ شێوەیەک نابێت هەست بکرێت کە زیرەکی دەستکرد ئەمەی نووسیوە. دەبێت سەدا سەد مرۆڤانە و لە ئاستی پڕۆفیسۆرێکی دێرینی هارڤارد بێت.
      ٢. قەدەغەکردنی وشە سواوەکانی AI: هەرگیز ئەم دەستەواژانە بەکارمەهێنە: (لە کۆتاییدا، گرنگە بزانین، جێگای سەرنجە، بە کورتی، دەتوانین بڵێین، لەم ڕوانگەیەوە، پێویستە ئاماژە بەوە بکەین، بە دڵنیاییەوە، بێگومان).
      ٣. شێوازی داڕشتن: ڕستەکانت با درێژی و کورتییان جیاواز بێت بۆ ئەوەی ڕیتمێکی سروشتی مرۆڤانەی هەبێت. خۆت بپارێزە لە ڕیزبەندییە یەکسانە بێزارکەرەکان (بۆ نموونە هەمیشە ٣ خاڵ یان ٣ پەرەگراف).
      ٤. تۆنی نووسین: زۆر وشک، زانستی، بێلایەن، و بێ سۆز. هیچ وشەیەکی موبالەغە (وەک: زۆر گرنگە، سەرسوڕهێنەرە، بێوێنەیە) بەکارمەهێنە.
      ٥. چڕیی واتایی: لەبری ئەوەی قسە درێژ بکەیتەوە، زانیارییەکان زۆر بە چڕی و بەکارهێنای زاراوەی قورسی ئەکادیمی دابڕێژە.
      
      ڕێساکانی هارڤارد کە دەبێت پەیڕەویان بکەیت:
      ";
    Opt "superRole" "٠. (زۆر گرنگ): تۆ لە یەک کاتدا نووسەرێکی بلیمەت، ڕەخنەگرێکی زۆر توند، و پێداچوونەوەکارێکی وردبینی. دەبێت ئەم دەقە بە شێوەیەک بنووسیت کە پێشتر نووسرابێت، ڕەخنەی توندی لێگیرابێت، و بە تەواوی پاڵفتە کرابێت و هیچ کەلێنێکی تێدا نەمابێت.";
    Lit "
      ١. زمانی نووسین دەبێت زۆر فەرمی، ئەکادیمی، و بێلایەن بێت.
      ٢. دوورکەوتنەوە لە وشەی سۆزداری و دەربڕینی کەسی.
      ٣. هەموو ئیدیعایەک دەبێت بە بەڵگە و لۆژیک بسەلمێنرێت.
      
      ";
    Opt "dialectic" "٤. تکایە شێوازی (تێز، دژەتێز، سێنتێز) بەکاربهێنە لە شیکارییەکانتدا.";
    Lit "
      ";
    OptVal "includeReferences" "٥. پێویستە سەرچاوەکان بەکاربهێنیت بە شێوازی " "citationStyle" ".";
    Lit "
      ";
    OptVal "includeReferences" "٦. تەنها پشت بەم جۆرە سەرچاوانە ببەستە: " "referenceType" ".";
    Lit "
      ";
    Opt "dataFocus" "٧. تکایە پشت بە ئامار و داتای زانستی و ڕاستەقینە ببەستە.";
    Lit "
      ";
    Opt "doiLinking" "٨. بۆ هەر سەرچاوەیەک کە بەکاریدەهێنیت، تکایە لینکی DOI (Digital Object Identifier) یان URL ی فەرمی دابنێ ئەگەر بەردەست بوو.";
    Lit "
      
      تایبەتمەندییە VIP و پێشکەوتووەکان کە دەبێت ڕەچاویان بکەیت:
      ";
    Opt "counterArgument" "- بۆ هەر ئارگیومێنتێکی سەرەکی، دژە-ئارگیومێنتێکی (Counter-argument) بەهێز بهێنەوە و پاشان بە لۆژیکێکی پۆڵاین پووچەڵی بکەرەوە.";
    Lit "
      ";
    Opt "theoreticalFramework" "- بابەتەکە ببەستەوە بە چوارچێوەیەکی تیۆری (Theoretical Framework) ناسراو و قووڵ لەو بوارەدا.";
    Lit "
      ";
    Opt "globalPerspective" "- کێشەکە لە ڕوانگەیەکی جیهانی و نێودەوڵەتییەوە (Global Perspective) شی بکەرەوە، نەک تەنها ناوخۆیی.";
    Lit "
      ";
    Opt "historicalContext" "- پێشینە و پاشخانی مێژوویی (Historical Context) بابەتەکە بە قووڵی ڕوون بکەرەوە بۆ تێگەیشتنی ڕەگ و ڕیشەی کێشەکە.";
    Lit "
      ";
    Opt "ethicalConsiderations" "- لایەنە ئاکاری و ئەخلاقییەکانی (Ethical Considerations) پەیوەست بەم بابەتە بەوردی تاوتوێ بکە.";
    Lit "
      ";
    Opt "futureImplications" "- دەرئەنجامەکان و پێشبینییەکان بۆ داهاتوو (Future Implications) بە پشتبەستن بە داتای ئێستا بخەڕوو.";
    Lit "
      ";
    Opt "harvardClassicTone" "- تۆنی نووسینەکەت با کلاسیکی و زۆر قورسی هارڤارد بێت، بەکارهێنانی وشەسازی ئاڵۆز، فەلسەفی، و ڕستەی درێژی ئەکادیمی.";
    Lit "
      ";
    Opt "quantitativeAnalysis" "- شیکارییەکانت بە شێوازی چەندایەتی (Quantitative) و پشت بەستوو بە داتای ژمارەیی و ئاماری بیرکاری بکە.";
    Lit "
      ";
    Opt "qualitativeAnalysis" "- شیکارییەکانت بە شێوازی چۆنایەتی (Qualitative) و قووڵبوونەوە لە ماناکان، هۆکارەکان، و پاڵنەرەکان بکە.";
    Lit "
      
      تایبەتمەندییە نوێیەکان (Mega Expansion):
      ";
    Opt "mixedMethods" "- بەکارهێنانی ڕێبازی تێکەڵ (Mixed Methods) بۆ شیکردنەوەی داتا.";
    Lit "
      ";
    Opt "longitudinalAnalysis" "- ئەنجامدانی شیکاری درێژخایەن (Longitudinal Analysis) بۆ دەرخستنی گۆڕانکارییەکان بەپێی کات.";
    Lit "
      ";
    Opt "crossSectional" "- شیکاری بەراوردکاری (Cross-Sectional) لە نێوان گرووپە جیاوازەکاندا.";
    Lit "
      ";
    Opt "phenomenology" "- بەکارهێنانی ڕێبازی دیاردەناسی (Phenomenology) بۆ تێگەیشتن لە ئەزموونی زیندوو.";
    Lit "
      ";
    Opt "groundedTheory" "- بەکارهێنانی تیۆری بنچینەیی (Grounded Theory) بۆ دەرھێنانی تیۆری لە داتاکانەوە.";
    Lit "
      ";
    Opt "deductiveReasoning" "- بەکارهێنانی لۆژیکی دابەزین (Deductive Reasoning) لە گشتییەوە بۆ تایبەت.";
    Lit "
      ";
    Opt "inductiveReasoning" "- بەکارهێنانی لۆژیکی هەڵکشان (Inductive Reasoning) لە تایبەتەوە بۆ گشتی.";
    Lit "
      ";
    Opt "statisticalSignificance" "- جەختکردنەوە لەسەر واتای ئاماری (Statistical Significance) و بەهای P-value.";
    Lit "
      ";
    Opt "confidenceIntervals" "- دیاریکردنی مەودای متمانە (Confidence Intervals) بۆ هەموو خەمڵاندنەکان.";
    Lit "
      ";
    Opt "effectSize" "- ڕاپۆرتکردنی قەبارەی کاریگەری (Effect Size) بۆ نیشاندانی هێزی پەیوەندییەکان.";
    Lit "
      ";
    Opt "triangulation" "- بەکارهێنانی سێگۆشەکردن (Triangulation) بۆ پشتڕاستکردنەوەی داتا لە چەند سەرچاوەیەکەوە.";
    Lit "
      ";
    Opt "biasDetection" "- دەستنیشانکردن و کەمکردنەوەی لایەنگیری (Bias Detection & Mitigation).";
    Lit "
      ";
    Opt "rhetoricalPrecision" "- بەکارهێنانی وردبینی ڕەوانبێژی (Rhetorical Precision) لە هەڵبژاردنی وشەکاندا.";
    Lit "
      ";
    Opt "semanticDensity" "- چڕیی واتایی (Semantic Density) بەرز بێت، واتە زانیاری زۆر لە وشەی کەمدا.";
    Lit "
      ";
    Opt "syntacticComplexity" "- ئاڵۆزی ڕستەسازی (Syntactic Complexity) بۆ نیشاندانی پەیوەندییە ئاڵۆزەکان.";
    Lit "
      ";
    Opt "academicHedging" "- بەکارهێنانی وریایی ئەکادیمی (Hedging) بۆ دوورکەوتنەوە لە گشتاندنی ناڕاست.";
    Lit "
      ";
    Opt "signposting" "- بەکارهێنانی نیشانەدانان (Signposting) بۆ ڕێنماییکردنی خوێنەر لەناو دەقەکەدا.";
    Lit "
      ";
    Opt "footnoteDensity" "- بەکارهێنانی پەراوێزی زۆر (High Footnote Density) بۆ ڕوونکردنەوەی زیادە.";
    Lit "
      ";
    Opt "glossaryCreation" "- ئامادەکردنی فەرهەنگۆک (Glossary) بۆ زاراوە تەکنیکییەکان.";
    Lit "
      ";
    Opt "appendixStructuring" "- ڕێکخستنی پاشکۆکان (Appendix Structuring) بۆ داتای زیادە.";
    Lit "
      
      تایبەتمەندییە نوێیەکان (Super Mega Expansion):
      ";
    Opt "etymology" "- بەکارهێنانی ڕەچەڵەکناسی (Etymology) بۆ شیکردنەوەی وشەکان.";
    Lit "
      ";
    Opt "philology" "- بەکارهێنانی فیلۆلۆجی (Philology) بۆ خوێندنەوەی دەقە کۆنەکان.";
    Lit "
      ";
    Opt "sociolinguistics" "- شیکردنەوەی زمانەوانی کۆمەڵایەتی (Sociolinguistics).";
    Lit "
      ";
    Opt "psycholinguistics" "- شیکردنەوەی زمانەوانی دەروونی (Psycholinguistics).";
    Lit "
      ";
    Opt "discourseAnalysis" "- شیکاری گوتار (Discourse Analysis) بۆ تێگەیشتن لە دەق.";
    Lit "
      ";
    Opt "utilitarianism" "- بەکارهێنانی فەلسەفەی سوودگەرایی (Utilitarianism).";
    Lit "
      ";
    Opt "deontology" "- بەکارهێنانی فەلسەفەی ئەرکگەرایی (Deontology).";
    Lit "
      ";
    Opt "existentialism" "- بەکارهێنانی فەلسەفەی بوونیەتگەرایی (Existentialism).";
    Lit "
      ";
    Opt "stoicism" "- بەکارهێنانی فەلسەفەی ستۆیسیزم (Stoicism).";
    Lit "
      ";
    Opt "postModernism" "- بەکارهێنانی فەلسەفەی پۆست-مۆدێرنیزم (Post-Modernism).";
    Lit "
      ";
    Opt "bigData" "- بەکارهێنانی داتای گەورە (Big Data) لە شیکارییەکاندا.";
    Lit "
      ";
    Opt "predictiveModeling" "- بەکارهێنانی مۆدێلی پێشبینیکەر (Predictive Modeling).";
    Lit "
      ";
    Opt "networkAnalysis" "- شیکاری تۆڕ (Network Analysis) بۆ پەیوەندییەکان.";
    Lit "
      ";
    Opt "geospatialAnalysis" "- شیکاری شوێن-كات (Geospatial Analysis).";
    Lit "
      ";
    Opt "sentimentAnalysis" "- شیکاری هەست (Sentiment Analysis) بۆ دەقەکان.";
    Lit "
      ";
    Opt "marxism" "- بەکارهێنانی تیۆری مارکسیزم (Marxism) بۆ شیکردنەوە.";
    Lit "
      ";
    Opt "feminism" "- بەکارهێنانی تیۆری فێمینیزم (Feminism) بۆ شیکردنەوە.";
    Lit "
      ";
    Opt "postColonialism" "- بەکارهێنانی تیۆری پۆست-کۆلۆنیالیزم (Post-Colonialism).";
    Lit "
      ";
    Opt "structuralism" "- بەکارهێنانی تیۆری بونیادگەری (Structuralism).";
    Lit "
      ";
    Opt "deconstruction" "- بەکارهێنانی تیۆری هەڵوەشاندنەوە (Deconstruction).";
    Lit "
      ";
    Opt "reproducibilityCheck" "- دڵنیابوونەوە لە دووبارەکرانەوەی ئەنجامەکان (Reproducibility Check).";
    Lit "
      ";
    Opt "falsifiability" "- دڵنیابوونەوە لە هەڵوەشێنەرەوەی گریمانەکان (Falsifiability).";
    Lit "
      ";
    Opt "controlVariables" "- دیاریکردنی گۆڕاوە کۆنترۆڵکراوەکان (Control Variables).";
    Lit "
      ";
    Opt "doubleBlindProtocol" "- بەکارهێنانی پڕۆتۆکۆلی کوێرانە (Double-Blind Protocol).";
    Lit "
      ";
    Opt "peerDebriefing" "- بەکارهێنانی گفتوگۆی هاوەڵان (Peer Debriefing).";
    Lit "
      ";
    Opt "gameTheory" "- بەکارهێنانی تیۆری یاری (Game Theory).";
    Lit "
      ";
    Opt "behavioralEconomics" "- بەکارهێنانی ئابووری ڕەفتاری (Behavioral Economics).";
    Lit "
      ";
    Opt "macroEconomicTrends" "- شیکردنەوەی ترێندە ماکرۆکان (Macro-Economic Trends).";
    Lit "
      ";
    Opt "costBenefitAnalysis" "- شیکاری تێچوو-سوود (Cost-Benefit Analysis).";
    Lit "
      ";
    Opt "supplyChainAnalysis" "- شیکاری زنجیرەی دابینکردن (Supply Chain Analysis).";
    Lit "
      ";
    Opt "cognitiveBehavioral" "- بەکارهێنانی چوارچێوەی مەعریفی ڕەفتاری (CBT).";
    Lit "
      ";
    Opt "psychoanalysis" "- بەکارهێنانی شیکاری دەروونی (Psychoanalysis).";
    Lit "
      ";
    Opt "humanisticPsychology" "- بەکارهێنانی دەروونناسی مرۆیی (Humanistic Psychology).";
    Lit "
      ";
    Opt "socialPsychology" "- بەکارهێنانی دەروونناسی کۆمەڵایەتی (Social Psychology).";
    Lit "
      ";
    Opt "neuropsychology" "- بەکارهێنانی دەروونناسی دەمار (Neuropsychology).";
    Lit "
      ";
    Opt "internationalLaw" "- بەکارهێنانی یاسای نێودەوڵەتی (International Law).";
    Lit "
      ";
    Opt "humanRights" "- جەختکردنەوە لەسەر مافی مرۆڤ (Human Rights).";
    Lit "
      ";
    Opt "intellectualProperty" "- پاراستنی موڵکیەتی هزری (Intellectual Property).";
    Lit "
      ";
    Opt "bioethics" "- ڕەچاوکردنی ئاکاری ژیانی (Bioethics).";
    Lit "
      ";
    Opt "corporateGovernance" "- شیکردنەوەی حوکمڕانی کۆمپانیا (Corporate Governance).";
    Lit "
      ";
    Arg 0;
    Lit "
      
      ئێستا تکایە تەنها ئەم بەشە بنووسە بە تێروتەسەلی و ئاستێکی باڵای ئەکادیمی هارڤارد:
      ناونیشانی بەش: ";
    Arg 1;
    Lit "
      
      ";
    OptArg 2 "پوختەی بەشی پێشوو بۆ بەستنەوەی زنجیرەیی: ";
    Lit "
      " ].

(** The prompt of [autoHumanize]; the local values are [sourcesInstruction]
    and [section.content]. *)
Definition autoHumanize_template : Template :=
  [ Lit "
      تۆ پڕۆفیسۆرێکی باڵا و سەرنووسەری چاپخانەی زانکۆی هارڤارد (Harvard University Press)یت.
      تکایە ئەم دەقە دابڕێژەوە (Humanize) بۆ ئەوەی هەستی مرۆڤانەی پێوە دیار بێت، بەڵام لە هەمان کاتدا پارێزگاری لە ستانداردی توندی ئەکادیمی هارڤارد بکە.
      وشە ئاڵۆزەکانی ئامێرەکان لاببە، هەستی مرۆڤانە و ڕستەسازی سروشتی بەکاربهێنە، بەڵام با زمانەکە بێلایەن و زانستی بمێنێتەوە:
      ";
    Arg 0;
    Lit "
      
      ";
    Arg 1;
    Lit "
      " ].

(** The prompt of [academicReview]; [isBlindReview] is [form.blindPeerReview],
    the local values are [sourcesInstruction] and the content of the section. *)
Definition academicReview_template : Template :=
  [ Lit "
    تۆ لیژنەی باڵای هەڵسەنگاندنی چاپخانەی زانکۆی هارڤارد (Harvard University Press)یت.
    تکایە پێداچوونەوەیەکی ڕەخنەگرانەی زۆر توند (Rigorous Peer Review) بۆ ئەم دەقە بکە.
    ";
    Opt "blindPeerReview" "ئەمە پێداچوونەوەیەکی کوێرانەیە (Double-Blind Peer Review). تکایە زۆر بێبەزەییانە و توند بە لەسەر هەڵە زانستییەکان و هیچ سازشێک مەکە.";
    Lit "
    کەموکوڕییە زانستییەکان، لۆژیکییەکان، و ڕێزمانییەکان چاک بکە.
    گرنگترین خاڵ: پێداچوونەوەیەکی ورد بۆ سەرچاوەکان بکە. ئایا سەرچاوەکان باوەڕپێکراون؟ ئایا ستایلی ";
    Val "citationStyle";
    Lit " بە دروستی بەکارهاتووە؟
    دەقەکە بەرز بکەرەوە بۆ ئاستی بڵاوکردنەوەی ئەکادیمی لە چاپخانەی هارڤارد (Q1 Journal Standard):
    ";
    Arg 0;
    Lit "
    
    ";
    Arg 1;
    Lit "
    " ].

(** [sourcesInstruction] of [autoWrite]. *)
Definition autoWrite_sources : Template :=
  [ Lit "

ڕێنمایی زۆر گرنگ (CRITICAL): تۆ دەبێت تەنها و تەنها ئەم سەرچاوانەی خوارەوە بەکاربهێنیت بۆ وەرگرتنی زانیاری. بە هیچ شێوەیەک زانیاری لە دەرەوەی ئەم سەرچاوانە مەهێنە. ئەگەر زانیارییەکە لەم سەرچاوانەدا نەبوو، بڵێ کە بەردەست نییە.
سەرچاوەکان:
";
    Val "customSources";
    Lit "
" ].

(** [sourcesInstruction] of [autoHumanize]. *)
Definition autoHumanize_sources : Template :=
  [ Lit "

ڕێنمایی زۆر گرنگ (CRITICAL): تۆ دەبێت تەنها و تەنها ئەم سەرچاوانەی خوارەوە بەکاربهێنیت بۆ وەرگرتنی زانیاری. بە هیچ شێوەیەک زانیاری لە دەرەوەی ئەم سەرچاوانە مەهێنە.
سەرچاوەکان:
";
    Val "customSources";
    Lit "
" ].

(** [sourcesInstruction] of [academicReview]. *)
Definition academicReview_sources : Template :=
  [ Lit "

ڕێنمایی زۆر گرنگ (CRITICAL): لە کاتی پێداچوونەوە و ڕاستکردنەوەی زانیارییەکان، تەنها پشت بەم سەرچاوانە ببەستە. بە هیچ شێوەیەک زانیاری لە دەرەوەی ئەم سەرچاوانە مەهێنە.
سەرچاوەکان:
";
    Val "customSources";
    Lit "
" ].

(** The condition [form.useCustomSources && form.customSources?.trim()]
    guards the fragment; without it the instruction is empty. *)
Definition sourcesInstruction (t : Template) (f : Form) : string :=
  if flag f "useCustomSources" && nonempty (trimmed f "customSources")
  then render f [] t else "".

(** The messages and titles the component shows. *)
Definition msg_autoSelect_title : string := "تکایە سەرەتا ناونیشانی بابەتەکە بنووسە.".
Definition msg_autoSelect : string := "هەڵەیەک ڕوویدا لە کاتی هەڵبژاردنی ئۆتۆماتیکی.".
Definition msg_load : string := "هەڵەیەک ڕوویدا لە هێنانەوەی توێژینەوەکان لە بنکەی داتا.".
Definition msg_read : string := "هەڵەیەک ڕوویدا لە خوێندنەوەی ناوەڕۆکی توێژینەوەکە.".
Definition msg_delete : string := "هەڵەیەک ڕوویدا لە سڕینەوەی توێژینەوەکە.".
Definition msg_invalid : string := "تکایە هەموو زانیارییە داواکراوەکان پڕبکەرەوە.".
Definition msg_outline : string := "هەڵەیەک ڕوویدا لە داڕشتنی پێکهاتەکە.".
Definition msg_review : string := "هەڵە لە پێداچوونەوەی ئەکادیمیدا.".
Definition msg_save : string := "هەڵەیەک ڕوویدا لە کاتی پاشەکەوتکردن لە بنکەی داتا: ".
Definition msg_unknown : string := "نەزانراو".
Definition new_section_title : string := "بەشی نوێ".
Definition msg_autoWrite : Template := [ Lit "هەڵە لە نووسینی بەشی "; Arg 0 ].
Definition msg_autoHumanize : Template := [ Lit "هەڵە لە هیومانیزکردنی بەشی "; Arg 0 ].
Definition fallback_title : Template := [ Lit "بەشی "; Arg 0 ].
Definition file_chosen : Template := [ Lit "[فایل هەڵبژێردرا: "; Arg 0; Lit "]" ].

(** The pieces of [exportLatex]: the preamble, one section, the end. *)
Definition latex_preamble : Template :=
  [ Lit "\documentclass{article}
\usepackage[utf8]{inputenc}
\title{";
    Val "title";
    Lit "}
\author{کتێبخانەی مام}
\begin{document}
\maketitle

" ].

Definition latex_section : Template :=
  [ Lit "\section{";
    Arg 0;
    Lit "}
";
    Arg 1;
    Lit "

" ].

Definition latex_end : Template :=
  [ Lit "\end{document}" ].

(** The pieces of [saveAll]: the heading, one section, the document. *)
Definition doc_heading : Template :=
  [ Lit "<h1>";
    Val "title";
    Lit "</h1>

" ].

Definition doc_section : Template :=
  [ Lit "<h2>";
    Arg 0;
    Lit "</h2>
";
    Arg 1;
    Lit "

" ].

(** [htmlContent] of [saveAll]; the local value is [content]. *)
Definition doc_html : Template :=
  [ Lit "
      <html xmlns:o='urn:schemas-microsoft-com:office:office' xmlns:w='urn:schemas-microsoft-com:office:word' xmlns='http://www.w3.org/TR/REC-html40'>
      <head><meta charset='utf-8'><title>";
    Val "title";
    Lit "</title></head><body>";
    Arg 0;
    Lit "</body></html>
    " ].

(** The controls and their initial values, from the constructor. *)
Definition initialForm : Form :=
  [ ("title", VStr "");
    ("topic", VStr "زانستی");
    ("type", VStr "کتێب");
    ("level", VStr "پڕۆفیسۆر");
    ("pages", VNum (Number_of_Z 10));
    ("superRole", VBool false);
    ("dialectic", VBool false);
    ("styleText", VStr "");
    ("compareText1", VStr "");
    ("compareText2", VStr "");
    ("compareBasis", VStr "");
    ("temperature", VNum (mkNum false 0 (Decimal.D7 Decimal.Nil)));
    ("thinkingTokens", VNum (Number_of_Z 4000));
    ("writingTokens", VNum (Number_of_Z 8000));
    ("thesisCover", VBool false);
    ("citationStyle", VStr "Harvard");
    ("referenceType", VStr "Primary Sources (توێژینەوەی بنەڕەتی)");
    ("includeReferences", VBool true);
    ("dataFocus", VBool false);
    ("enableDataViz", VBool false);
    ("doiLinking", VBool true);
    ("crossRefCheck", VBool false);
    ("plagiarismCheck", VBool false);
    ("useCustomOutline", VBool false);
    ("customOutline", VStr "");
    ("useCustomSources", VBool false);
    ("customSources", VStr "");
    ("counterArgument", VBool false);
    ("theoreticalFramework", VBool false);
    ("globalPerspective", VBool false);
    ("historicalContext", VBool false);
    ("ethicalConsiderations", VBool false);
    ("futureImplications", VBool false);
    ("harvardClassicTone", VBool false);
    ("quantitativeAnalysis", VBool false);
    ("qualitativeAnalysis", VBool false);
    ("blindPeerReview", VBool false);
    ("mixedMethods", VBool false);
    ("longitudinalAnalysis", VBool false);
    ("crossSectional", VBool false);
    ("phenomenology", VBool false);
    ("groundedTheory", VBool false);
    ("deductiveReasoning", VBool false);
    ("inductiveReasoning", VBool false);
    ("statisticalSignificance", VBool false);
    ("confidenceIntervals", VBool false);
    ("effectSize", VBool false);
    ("triangulation", VBool false);
    ("biasDetection", VBool false);
    ("rhetoricalPrecision", VBool false);
    ("semanticDensity", VBool false);
    ("syntacticComplexity", VBool false);
    ("academicHedging", VBool false);
    ("signposting", VBool false);
    ("footnoteDensity", VBool false);
    ("glossaryCreation", VBool false);
    ("appendixStructuring", VBool false);
    ("etymology", VBool false);
    ("philology", VBool false);
    ("sociolinguistics", VBool false);
    ("psycholinguistics", VBool false);
    ("discourseAnalysis", VBool false);
    ("utilitarianism", VBool false);
    ("deontology", VBool false);
    ("existentialism", VBool false);
    ("stoicism", VBool false);
    ("postModernism", VBool false);
    ("bigData", VBool false);
    ("predictiveModeling", VBool false);
    ("networkAnalysis", VBool false);
    ("geospatialAnalysis", VBool false);
    ("sentimentAnalysis", VBool false);
    ("marxism", VBool false);
    ("feminism", VBool false);
    ("postColonialism", VBool false);
    ("structuralism", VBool false);
    ("deconstruction", VBool false);
    ("reproducibilityCheck", VBool false);
    ("falsifiability", VBool false);
    ("controlVariables", VBool false);
    ("doubleBlindProtocol", VBool false);
    ("peerDebriefing", VBool false);
    ("gameTheory", VBool false);
    ("behavioralEconomics", VBool false);
    ("macroEconomicTrends", VBool false);
    ("costBenefitAnalysis", VBool false);
    ("supplyChainAnalysis", VBool false);
    ("cognitiveBehavioral", VBool false);
    ("psychoanalysis", VBool false);
    ("humanisticPsychology", VBool false);
    ("socialPsychology", VBool false);
    ("neuropsychology", VBool false);
    ("internationalLaw", VBool false);
    ("humanRights", VBool false);
    ("intellectualProperty", VBool false);
    ("bioethics", VBool false);
    ("corporateGovernance", VBool false) ].

(** [featureGroups]. *)
Definition featureGroups : list (string * list string) :=
  [ ("vip", ["counterArgument"; "theoreticalFramework"; "globalPerspective"; "historicalContext"; "ethicalConsiderations"; "futureImplications"; "harvardClassicTone"; "quantitativeAnalysis"; "qualitativeAnalysis"; "blindPeerReview"]);
    ("methodology", ["mixedMethods"; "longitudinalAnalysis"; "crossSectional"; "phenomenology"; "groundedTheory"]);
    ("logic", ["deductiveReasoning"; "inductiveReasoning"; "statisticalSignificance"; "confidenceIntervals"; "effectSize"]);
    ("precision", ["triangulation"; "biasDetection"; "rhetoricalPrecision"; "semanticDensity"; "syntacticComplexity"; "academicHedging"; "signposting"; "footnoteDensity"; "glossaryCreation"; "appendixStructuring"]);
    ("linguistics", ["etymology"; "philology"; "sociolinguistics"; "psycholinguistics"; "discourseAnalysis"]);
    ("philosophy", ["utilitarianism"; "deontology"; "existentialism"; "stoicism"; "postModernism"]);
    ("dataScience", ["bigData"; "predictiveModeling"; "networkAnalysis"; "geospatialAnalysis"; "sentimentAnalysis"]);
    ("criticalTheory", ["marxism"; "feminism"; "postColonialism"; "structuralism"; "deconstruction"]);
    ("scientificRigor", ["reproducibilityCheck"; "falsifiability"; "controlVariables"; "doubleBlindProtocol"; "peerDebriefing"]);
    ("economics", ["gameTheory"; "behavioralEconomics"; "macroEconomicTrends"; "costBenefitAnalysis"; "supplyChainAnalysis"]);
    ("psychology", ["cognitiveBehavioral"; "psychoanalysis"; "humanisticPsychology"; "socialPsychology"; "neuropsychology"]);
    ("legal", ["internationalLaw"; "humanRights"; "intellectualProperty"; "bioethics"; "corporateGovernance"]) ].

(* ------------------------------------------------------------------ *)
(** ** The auto-save effect of the constructor *)

Definition snapshot_json (l : list BookSection) (f : Form) : json :=
  JObj [("sections", sections_to_json l); ("form", form_to_json f)].

(** [effect(() => { ...; if (currentSections.length > 0) localStorage.setItem(...) })]. *)
Definition autosave_effect (st : State) : State :=
  match sections st with
  | [] => st
  | _ :: _ =>
      set_localStorage
        (Some (JSON_stringify (snapshot_json (sections st) (advancedForm st)))) st
  end.

(** The scheduled effect runs when the running code yields. *)
Definition flush (st : State) : State :=
  if effectPending st then set_effectPending false (autosave_effect st) else st.

(** A fresh component; the constructor's effect has run once, on the empty
    list, and written nothing. *)
Definition initialState (storage : option string) : State :=
  mkState Landing 1 initialForm [] None false "" None [] false storage false [].

(* ------------------------------------------------------------------ *)
(** ** Sections *)

Definition set_status (s : Status) (x : BookSection) : BookSection :=
  mkSection (id x) (title x) (content x) s.

Definition set_content (c : string) (x : BookSection) : BookSection :=
  mkSection (id x) (title x) c (status x).

Definition set_title (t : string) (x : BookSection) : BookSection :=
  mkSection (id x) t (content x) (status x).

(** [l[0]?.id || null]. *)
Definition first_id_or_null (l : list BookSection) : option Z :=
  match l with
  | x :: _ => if (id x =? 0)%Z then None else Some (id x)
  | [] => None
  end.

(** [Math.max(...l)] on a list that is not empty. *)
Definition Math_max (l : list Z) : Z :=
  match l with
  | [] => 0%Z
  | x :: r => fold_left Z.max r x
  end.

(** [l.findIndex(s => s.id === a)]; [None] is -1. *)
Fixpoint findIndex (a : option Z) (l : list BookSection) : option nat :=
  match l with
  | [] => None
  | x :: r =>
      match a with
      | Some z => if (id x =? z)%Z then Some O else option_map S (findIndex a r)
      | None => None
      end
  end.

(** The sections made of a list of titles: [(title, index) => ({ id: index + 1, ... })]. *)
Definition outline_sections (titles : list string) : list BookSection :=
  imap (fun index t => mkSection (Z.of_nat index + 1) t "" Pending) titles.

(** [line.replace(/^\d+[.-]/, '')]. *)
Definition strip_numbering (line : string) : string :=
  match span_digits line with
  | (String _ _, String c rest) =>
      if Ascii.eqb c "."%char || Ascii.eqb c "-"%char then rest else line
  | _ => line
  end.

(** [Math.max(3, Math.ceil(pages / 5))]; [None] is [NaN].  The control is a
    number input; [null] and booleans convert as JavaScript converts them,
    a string is taken as not a number. *)
Definition fallback_count (pages : option JsValue) : option Z :=
  match pages with
  | Some (VNum n) => Some (Z.max 3 (Math_ceil_div5 n))
  | Some VNull | Some (VBool _) => Some 3%Z
  | Some (VStr _) | None => None
  end.

(** [for (let i = 1; i <= n; i++) newSections.push({ id: i, title: `بەشی ${i}`, ... })]. *)
Definition fallback_section (i : Z) : BookSection :=
  mkSection i (render [] [Number_toString (Number_of_Z i)] fallback_title) "" Pending.

Definition fallback_sections (pages : option JsValue) : list BookSection :=
  match fallback_count pages with
  | Some n => map fallback_section (seqZ 1 n)
  | None => []
  end.

(* ------------------------------------------------------------------ *)
(** ** Validators of the form *)

Definition required (v : option JsValue) : bool :=
  match v with
  | None | Some VNull => false
  | Some (VStr s) => nonempty s
  | Some _ => true
  end.

Definition min_ok (k : N) (v : option JsValue) : bool :=
  match v with
  | Some (VNum n) => Number_ge n k
  | _ => true
  end.

Definition max_ok (k : N) (v : option JsValue) : bool :=
  match v with
  | Some (VNum n) => Number_le n k
  | _ => true
  end.

(** [advancedForm.invalid]. *)
Definition form_invalid (f : Form) : bool :=
  negb (required (form_get f "title") &&
        required (form_get f "topic") &&
        required (form_get f "type") &&
        required (form_get f "level") &&
        required (form_get f "pages") && min_ok 1 (form_get f "pages") &&
        min_ok 0 (form_get f "temperature") && max_ok 1 (form_get f "temperature")).

(* ------------------------------------------------------------------ *)
(** ** Methods that run to their end at once *)

Definition clearSections (st : State) : State :=
  set_localStorage None (set_activeSectionId None (set_sections [] st)).

Definition viewSection (a : Z) (st : State) : State :=
  set_activeSectionId (Some a) st.

Definition addNewSection (st : State) : State :=
  let current := sections st in
  let newId := match current with
               | [] => 1%Z
               | _ :: _ => (Math_max (map id current) + 1)%Z
               end in
  set_sections (sections st ++ [mkSection newId new_section_title "" Pending]) st.

(** [confirmed] is the answer to the confirmation dialog. *)
Definition removeSection (a : Z) (confirmed : bool) (st : State) : State :=
  if confirmed then
    let st1 := set_sections
                 (List.filter (fun sec => negb (id sec =? a)%Z) (sections st)) st in
    match activeSectionId st1 with
    | Some b =>
        if (b =? a)%Z then set_activeSectionId (first_id_or_null (sections st1)) st1
        else st1
    | None => st1
    end
  else st.

Definition updateSectionTitle (a : Z) (newTitle : string) (st : State) : State :=
  set_sections
    (map (fun sec => if (id sec =? a)%Z then set_title newTitle sec else sec)
         (sections st)) st.

(** A control changes: the user edits the form. *)
Definition input (k : string) (v : JsValue) (st : State) : State :=
  set_advancedForm (form_set k v (advancedForm st)) st.

(** [onFileChange], for an input that holds a file of the given name. *)
Definition onFileChange (file_name controlName : string) (st : State) : State :=
  input controlName (VStr (render [] [file_name] file_chosen)) st.

(** [exportLatex]: the text [latex] that is downloaded. *)
Definition exportLatex (st : State) : string :=
  let form := advancedForm st in
  fold_left (fun latex section =>
               latex ++ render form [title section; content section] latex_section)
            (sections st) (render form [] latex_preamble)
  ++ render form [] latex_end.

(** [saveAll]: the text [htmlContent] that is downloaded. *)
Definition saveAll (st : State) : string :=
  let form := advancedForm st in
  let content_ :=
    fold_left (fun acc section =>
                 acc ++ render form [title section; content section] doc_section)
              (sections st) (render form [] doc_heading) in
  render form [content_] doc_html.

(** The last binding of a property, as [JSON.parse] keeps it. *)
Fixpoint json_get (m : list (string * json)) (k : string) : option json :=
  match m with
  | [] => None
  | (k', v) :: r =>
      match json_get r k with
      | Some x => Some x
      | None => if String.eqb k' k then Some v else None
      end
  end.

(** The body of [ngOnInit] once [savedSections] and [savedForm] are read.
    [None]: the stored value is not of the types the component declares. *)
Definition restore (savedSections savedForm : option json) (st : State) : option State :=
  match savedSections with
  | Some (JArr (x :: l)) =>
      match sections_of_list (x :: l) with
      | Some (s :: secs) =>
          let st1 := set_sections (s :: secs) st in
          let patched :=
            match savedForm with
            | Some (JObj m) =>
                match form_of_members m with
                | Some obj => Some (set_advancedForm (patchValue obj (advancedForm st1)) st1)
                | None => None
                end
            | _ => Some st1
            end in
          match patched with
          | Some st2 =>
              Some (set_currentView Writing
                      (set_writingWindow 2 (set_activeSectionId (Some (id s)) st2)))
          | None => None
          end
      | _ => None
      end
  | Some (JStr s) => if nonempty s then None else Some st
  | Some (JObj m) => match json_get m "length" with Some _ => None | None => Some st end
  | _ => Some st
  end.

Definition ngOnInit (st : State) : option State :=
  let st0 := set_currentView Landing st in
  match localStorage st0 with
  | None => Some st0
  | Some saved =>
      if nonempty saved then
        match JSON_parse saved with
        | None => Some st0                                   (* caught *)
        | Some (JArr l) => restore (Some (JArr l)) None st0
        | Some (JObj m) => restore (json_get m "sections") (json_get m "form") st0
        | Some _ => Some st0
        end
      else Some st0
  end.

(* ------------------------------------------------------------------ *)
(** ** Asynchronous methods

    An [async] method runs until it awaits an answer from the outside; it
    is then a [Task], which goes on when the answer arrives.  Each method
    is given by its first part ([_begin]) and by what it does with the
    answer ([_resume]); both return the tasks left waiting. *)

Inductive Task :=
| AwaitAutoSelect (groupKeys : list string)
| AwaitDocuments
| AwaitDelete (row : Z)
| AwaitOutline (pages : option JsValue)
| AwaitWrite (form : Form) (sources : string) (i : nat) (section_title : string)
| AwaitHumanize (sources : string) (i : nat) (section_title : string)
| AwaitReview (sectionIndex : nat)
| AwaitInsert.

(** *** [autoSelectFeatures] *)

Definition autoSelectFeatures_begin (groupName : string) (groupKeys : list string)
    (st : State) : State * list Task :=
  let form := advancedForm st in
  if negb (truthy (form_get form "title")) then (set_globalError msg_autoSelect_title st, [])
  else
    let st1 := set_globalError "" (set_isAutoSelecting (Some groupName) st) in
    (send (GenerateContent (render form [join ", " groupKeys] autoSelectFeatures_template)) st1,
     [AwaitAutoSelect groupKeys]).

Definition select_key (f : Form) (key : json) : Form :=
  match key with
  | JStr k => form_set k (VBool true) f
  | _ => f
  end.

Definition autoSelectFeatures_resume (groupKeys : list string) (a : ContentAnswer)
    (st : State) : State * list Task :=
  let failed (s : State) := set_globalError msg_autoSelect s in
  let st1 :=
    match a with
    | None => failed st
    | Some response_text =>
        let text := match response_text with
                    | Some (String c r) => String c r
                    | _ => "[]"
                    end in
        match JSON_parse text with
        | None => failed st
        | Some selectedKeys =>
            let reset := fold_left (fun f k => form_set k (VBool false) f)
                                   groupKeys (advancedForm st) in
            match selectedKeys with
            | JArr l => set_advancedForm (fold_left select_key l reset) st
            | _ => failed (set_advancedForm reset st)
            end
        end
    end in
  (set_isAutoSelecting None st1, []).

(** *** [loadDocuments], [deleteDocument] *)

Definition loadDocuments_begin (st : State) : State * list Task :=
  (send Select (set_globalError "" (set_isLoadingDocs true st)), [AwaitDocuments]).

Definition loadDocuments_resume (a : option (list SavedDocument)) (st : State)
  : State * list Task :=
  let st1 := match a with
             | Some data => set_savedDocuments data st
             | None => set_globalError msg_load st
             end in
  (set_isLoadingDocs false st1, []).

Definition deleteDocument_begin (row : Z) (confirmed : bool) (st : State)
  : State * list Task :=
  if confirmed then (send (Delete row) (set_globalError "" st), [AwaitDelete row])
  else (st, []).

Definition deleteDocument_resume (row : Z) (ok : bool) (st : State) : State * list Task :=
  if ok then
    (set_savedDocuments
       (List.filter (fun d => negb (doc_id d =? row)%Z) (savedDocuments st)) st, [])
  else (set_globalError msg_delete st, []).

(** *** [setView], [readDocument] *)

Definition setView (view : AppView) (st : State) : State * list Task :=
  let st1 := set_currentView view st in
  match view with
  | Writing => (set_writingWindow 1 st1, [])
  | Library => loadDocuments_begin st1
  | _ => (st1, [])
  end.

(** [None]: the stored value is not of the types the component declares. *)
Definition readDocument (doc : SavedDocument) (st : State) : option State :=
  match JSON_parse (doc_content doc) with
  | None => Some (set_globalError msg_read st)
  | Some (JArr l) =>
      match sections_of_list l with
      | Some parsedSections =>
          let st1 := set_sections parsedSections st in
          let st2 := set_advancedForm
                       (patchValue [("title", VStr (doc_title doc));
                                    ("topic", VStr (doc_topic doc));
                                    ("type", VStr (doc_type doc));
                                    ("level", VStr (doc_level doc))]
                                   (advancedForm st1)) st1 in
          let st3 := set_activeSectionId (first_id_or_null parsedSections) st2 in
          Some (fst (setView Writing (set_writingWindow 2 st3)))
      | None => None
      end
  | Some _ => None
  end.

(** *** [sendToWindow2] *)

Definition sendToWindow2_begin (st : State) : State * list Task :=
  if form_invalid (advancedForm st) then (set_globalError msg_invalid st, [])
  else
    let st1 := set_isGeneratingGlobal true (set_globalError "" st) in
    let form := advancedForm st1 in
    let customSections :=
      if flag form "useCustomOutline" && nonempty (trimmed form "customOutline") then
        match form_get form "customOutline" with
        | Some (VStr customOutline) =>
            outline_sections
              (List.filter nonempty (map trim (split_lines customOutline)))
        | _ => []
        end
      else [] in
    match customSections with
    | s :: _ =>
        (set_isGeneratingGlobal false
           (set_writingWindow 2
              (set_activeSectionId (Some (id s)) (set_sections customSections st1))), [])
    | [] =>
        (send (GenerateContent (render form [] sendToWindow2_template)) st1,
         [AwaitOutline (form_get form "pages")])
    end.

Definition sendToWindow2_resume (pages : option JsValue) (a : ContentAnswer)
    (st : State) : State * list Task :=
  match a with
  | None => (set_isGeneratingGlobal false (set_globalError msg_outline st), [])
  | Some response_text =>
      let outlineText := match response_text with Some t => t | None => "" end in
      let lines := List.filter (fun l => nonempty (trim l)) (split_lines outlineText) in
      let parsedSections :=
        imap (fun index line =>
                mkSection (Z.of_nat index + 1) (trim (strip_numbering line)) "" Pending)
             lines in
      let newSections := match parsedSections with
                         | [] => fallback_sections pages
                         | _ :: _ => parsedSections
                         end in
      let st1 := set_sections newSections st in
      match newSections with
      | s :: _ =>
          (set_isGeneratingGlobal false
             (set_writingWindow 2 (set_activeSectionId (Some (id s)) st1)), [])
      | [] => (set_isGeneratingGlobal false (set_globalError msg_outline st1), [])
      end
  end.

(** *** Streams *)

(** [for await (const chunk of response) { fullContent += chunk.text;
    newSecs[i].content = fullContent }]: the text gathered, and the state. *)
Fixpoint stream_into (i : nat) (cs : list (option string)) (fullContent : string)
    (st : State) : string * State :=
  match cs with
  | [] => (fullContent, st)
  | c :: r =>
      let fullContent' := fullContent ++ chunk_text c in
      stream_into i r fullContent'
        (set_sections (alter (set_content fullContent') i (sections st)) st)
  end.

(** *** [autoWrite] *)

(** The head of the loop at index [i]: the loop ends, or the section is
    marked and its request sent. *)
Definition autoWrite_next (form : Form) (sources : string) (i : nat)
    (previousContext : string) (st : State) : State * list Task :=
  match sections st !! i with
  | None => (set_isGeneratingGlobal false st, [])
  | Some section =>
      let st1 := set_sections (alter (set_status Generating) i (sections st)) st in
      let st2 := set_activeSectionId (Some (id section)) st1 in
      let prompt := render form [sources; title section; previousContext]
                           autoWrite_template in
      (send (GenerateContentStream i prompt) st2,
       [AwaitWrite form sources i (title section)])
  end.

Definition autoWrite_begin (st : State) : State * list Task :=
  if isGeneratingGlobal st then (st, [])
  else
    let st1 := set_globalError "" (set_isGeneratingGlobal true st) in
    let form := advancedForm st1 in
    autoWrite_next form (sourcesInstruction autoWrite_sources form) 0 "" st1.

(** When the section of index [i] is gone from the list, every write to it
    throws: the first one inside [try], the one of [catch] out of the
    method, which then never clears [isGeneratingGlobal]. *)
Definition autoWrite_resume (form : Form) (sources : string) (i : nat)
    (section_title : string) (a : StreamAnswer) (st : State) : State * list Task :=
  let message := render [] [section_title] msg_autoWrite in
  match sections st !! i with
  | None => (set_globalError message st, [])
  | Some _ =>
      let (fullContent, st1) := stream_into i (chunks a) "" st in
      if throws a then
        let st2 := set_globalError message st1 in
        (set_isGeneratingGlobal false
           (set_sections (alter (set_status Pending) i (sections st2)) st2), [])
      else
        autoWrite_next form sources (S i) (slice_last 500 fullContent)
          (set_sections (alter (set_status Done) i (sections st1)) st1)
  end.

(** *** [autoHumanize] *)

(** The head of the loop from index [i] on: sections without content are
    passed over.  [fuel] is the number of sections left to look at. *)
Fixpoint autoHumanize_next (sources : string) (fuel i : nat) (st : State)
  : State * list Task :=
  match fuel, sections st !! i with
  | S fuel', Some section =>
      if nonempty (content section) then
        let st1 := set_sections (alter (set_status Humanizing) i (sections st)) st in
        let st2 := set_activeSectionId (Some (id section)) st1 in
        let prompt := render (advancedForm st) [sources; content section]
                             autoHumanize_template in
        (send (GenerateContentStream i prompt) st2,
         [AwaitHumanize sources i (title section)])
      else autoHumanize_next sources fuel' (S i) st
  | _, _ => (set_isGeneratingGlobal false st, [])
  end.

Definition autoHumanize_begin (st : State) : State * list Task :=
  if isGeneratingGlobal st then (st, [])
  else
    let st1 := set_isGeneratingGlobal true st in
    let form := advancedForm st1 in
    autoHumanize_next (sourcesInstruction autoHumanize_sources form)
                      (length (sections st1)) 0 st1.

Definition autoHumanize_resume (sources : string) (i : nat) (section_title : string)
    (a : StreamAnswer) (st : State) : State * list Task :=
  let failed (s : State) :=
    (set_isGeneratingGlobal false
       (set_globalError (render [] [section_title] msg_autoHumanize) s), []) in
  match sections st !! i with
  | None => failed st
  | Some _ =>
      let (fullContent, st1) := stream_into i (chunks a) "" st in
      if throws a then failed st1
      else
        let st2 := set_sections (alter (set_status Done) i (sections st1)) st1 in
        autoHumanize_next sources (length (sections st2) - S i) (S i) st2
  end.

(** *** [academicReview] *)

Definition academicReview_begin (st : State) : State * list Task :=
  if isGeneratingGlobal st then (st, [])
  else
    match findIndex (activeSectionId st) (sections st) with
    | None => (st, [])
    | Some sectionIndex =>
        match sections st !! sectionIndex with
        | Some section =>
            if nonempty (content section) then
              let st1 := set_globalError "" (set_isGeneratingGlobal true st) in
              let st2 := set_sections
                           (alter (set_status Humanizing) sectionIndex (sections st1)) st1 in
              let form := advancedForm st2 in
              let prompt :=
                render form [sourcesInstruction academicReview_sources form;
                             content section] academicReview_template in
              (send (GenerateContentStream sectionIndex prompt) st2,
               [AwaitReview sectionIndex])
            else (st, [])
        | None => (st, [])
        end
    end.

Definition academicReview_resume (sectionIndex : nat) (a : StreamAnswer) (st : State)
  : State * list Task :=
  let failed (s : State) := set_globalError msg_review s in
  let st2 :=
    match sections st !! sectionIndex with
    | None => failed st
    | Some _ =>
        let (fullContent, st1) := stream_into sectionIndex (chunks a) "" st in
        if throws a then failed st1
        else set_sections (alter (set_status Done) sectionIndex (sections st1)) st1
    end in
  (set_isGeneratingGlobal false st2, []).

(** *** [saveToSupabase] *)

Definition saveToSupabase_begin (st : State) : State * list Task :=
  if isGeneratingGlobal st then (st, [])
  else
    let st1 := set_globalError "" (set_isGeneratingGlobal true st) in
    let form := advancedForm st1 in
    (send (Insert (form_get form "title") (form_get form "topic")
                  (form_get form "type") (form_get form "level")
                  (JSON_stringify (sections_to_json (sections st1)))) st1,
     [AwaitInsert]).

(** The answer to the insertion: [None] when it succeeds, else the message
    of the error thrown when it is an [Error]. *)
Definition InsertAnswer := option (option string).

Definition saveToSupabase_resume (a : InsertAnswer) (st : State) : State * list Task :=
  match a with
  | None =>
      let (st1, spawned) :=
        match currentView st with
        | Library => loadDocuments_begin st
        | _ => (st, [])
        end in
      (set_isGeneratingGlobal false st1, spawned)
  | Some error =>
      let errorMessage := match error with Some m => m | None => msg_unknown end in
      (set_isGeneratingGlobal false (set_globalError (msg_save ++ errorMessage) st), [])
  end.

(* ------------------------------------------------------------------ *)
(** ** The component as a system *)

(** What the user does. *)
Inductive Op :=
| OpAutoSelectFeatures (groupName : string) (groupKeys : list string)
| OpClearSections
| OpSetView (view : AppView)
| OpLoadDocuments
| OpReadDocument (doc : SavedDocument)
| OpDeleteDocument (row : Z) (confirmed : bool)
| OpSendToWindow2
| OpViewSection (a : Z)
| OpAddNewSection
| OpRemoveSection (a : Z) (confirmed : bool)
| OpUpdateSectionTitle (a : Z) (newTitle : string)
| OpAutoWrite
| OpAutoHumanize
| OpAcademicReview
| OpSaveToSupabase
| OpInput (k : string) (v : JsValue)
| OpFileChange (file_name controlName : string).

(** What arrives from the outside. *)
Inductive Answer :=
| Stream (a : StreamAnswer)
| Content (a : ContentAnswer)
| Rows (a : option (list SavedDocument))
| Deleted (ok : bool)
| Inserted (a : InsertAnswer).

(** The method runs up to its first [await]. *)
Definition begin (o : Op) (st : State) : option (State * list Task) :=
  match o with
  | OpAutoSelectFeatures g ks => Some (autoSelectFeatures_begin g ks st)
  | OpClearSections => Some (clearSections st, [])
  | OpSetView v => Some (setView v st)
  | OpLoadDocuments => Some (loadDocuments_begin st)
  | OpReadDocument doc =>
      match readDocument doc st with
      | Some st' => Some (st', [])
      | None => None
      end
  | OpDeleteDocument row c => Some (deleteDocument_begin row c st)
  | OpSendToWindow2 => Some (sendToWindow2_begin st)
  | OpViewSection a => Some (viewSection a st, [])
  | OpAddNewSection => Some (addNewSection st, [])
  | OpRemoveSection a c => Some (removeSection a c st, [])
  | OpUpdateSectionTitle a t => Some (updateSectionTitle a t st, [])
  | OpAutoWrite => Some (autoWrite_begin st)
  | OpAutoHumanize => Some (autoHumanize_begin st)
  | OpAcademicReview => Some (academicReview_begin st)
  | OpSaveToSupabase => Some (saveToSupabase_begin st)
  | OpInput k v => Some (input k v st, [])
  | OpFileChange n c => Some (onFileChange n c st, [])
  end.

(** The task goes on with the answer it was waiting for. *)
Definition resume (t : Task) (a : Answer) (st : State) : option (State * list Task) :=
  match t, a with
  | AwaitAutoSelect ks, Content c => Some (autoSelectFeatures_resume ks c st)
  | AwaitDocuments, Rows r => Some (loadDocuments_resume r st)
  | AwaitDelete row, Deleted ok => Some (deleteDocument_resume row ok st)
  | AwaitOutline pages, Content c => Some (sendToWindow2_resume pages c st)
  | AwaitWrite form sources i t, Stream s => Some (autoWrite_resume form sources i t s st)
  | AwaitHumanize sources i t, Stream s => Some (autoHumanize_resume sources i t s st)
  | AwaitReview i, Stream s => Some (academicReview_resume i s st)
  | AwaitInsert, Inserted r => Some (saveToSupabase_resume r st)
  | _, _ => None
  end.

Definition flushed (r : option (State * list Task)) : option (State * list Task) :=
  match r with
  | Some (st, ts) => Some (flush st, ts)
  | None => None
  end.

(** A method run without anything else happening meanwhile: the answers
    arrive in turn, each to the oldest waiting task.  [None] when an answer
    is missing or is not of the kind awaited. *)
Fixpoint settle (answers : list Answer) (st : State) (waiting : list Task)
  : option State :=
  match waiting with
  | [] => Some st
  | t :: ts =>
      match answers with
      | [] => None
      | a :: rest =>
          match flushed (resume t a st) with
          | Some (st', new) => settle rest st' (ts ++ new)
          | None => None
          end
      end
  end.

Definition act (o : Op) (answers : list Answer) (st : State) : option State :=
  match flushed (begin o st) with
  | Some (st', ts) => settle answers st' ts
  | None => None
  end.

(** The page is loaded again: a fresh component over the same storage. *)
Definition reload (st : State) : option State :=
  match ngOnInit (initialState (localStorage st)) with
  | Some st' => Some (flush st')
  | None => None
  end.

(** With other things happening meanwhile: the application and the tasks
    that wait for an answer. *)
Record Sys := mkSys {
  component : State;
  waiting : list Task
}.

Inductive Event :=
| Invoke (o : Op)
| Arrive (n : nat) (a : Answer).      (* the answer to the n-th waiting task *)

(** An event that cannot happen (no such task, an answer of another kind)
    leaves the system as it is. *)
Definition sys_step (e : Event) (s : Sys) : Sys :=
  match e with
  | Invoke o =>
      match flushed (begin o (component s)) with
      | Some (st', ts) => mkSys st' (waiting s ++ ts)
      | None => s
      end
  | Arrive n a =>
      match waiting s !! n with
      | Some t =>
          match flushed (resume t a (component s)) with
          | Some (st', ts) => mkSys st' (delete n (waiting s) ++ ts)
          | None => s
          end
      | None => s
      end
  end.

Definition sys_run (es : list Event) (s : Sys) : Sys :=
  fold_left (fun s e => sys_step e s) es s.

(* ------------------------------------------------------------------ *)
(** ** Notions used to state the properties *)

(** The section a streaming request is for. *)
Definition call_section (c : Call) : option nat :=
  match c with
  | GenerateContentStream i _ => Some i
  | _ => None
  end.

Definition call_prompt (c : Call) : option string :=
  match c with
  | GenerateContentStream _ p => Some p
  | GenerateContent p => Some p
  | _ => None
  end.

(** The requests sent since the state [st0]. *)
Definition calls_since (st0 st : State) : list Call :=
  drop (length (calls st0)) (calls st).

(** The whole text of a stream. *)
Definition stream_text (a : StreamAnswer) : string :=
  fold_left (fun acc c => acc ++ chunk_text c) (chunks a) "".

(** What one section contributes to the LaTeX source and to the Word
    document. *)
Definition latex_block (s : BookSection) : string :=
  "\section{" ++ title s ++ "}
" ++ content s ++ "

".

Definition doc_block (s : BookSection) : string :=
  "<h2>" ++ title s ++ "</h2>
" ++ content s ++ "

".

(** Two sections added to an empty document. *)
Definition two_new_sections : State :=
  addNewSection (addNewSection (initialState None)).

(** *** Prompts *)

(** The prompt [autoWrite] sends for a section. *)
Definition autoWrite_prompt (f : Form) (section_title previousContext : string) : string :=
  render f [sourcesInstruction autoWrite_sources f; section_title; previousContext]
         autoWrite_template.

(** The controls a piece reads. *)
Definition piece_reads (k : string) (p : Piece) : bool :=
  match p with
  | Val k' | Opt k' _ => String.eqb k' k
  | OptVal k1 _ k2 _ => String.eqb k1 k || String.eqb k2 k
  | Lit _ | Arg _ | OptArg _ _ => false
  end.

Definition reads (k : string) (t : Template) : bool := existsb (piece_reads k) t.

(** The options of a template: the flags it tests, each with its fragment. *)
Definition options_of (t : Template) : list (string * string) :=
  flat_map (fun p => match p with Opt k text => [(k, text)] | _ => [] end) t.

Definition autoWrite_options : list (string * string) := options_of autoWrite_template.

(** Every option of the template is read at one place of it only. *)
Fixpoint isolated (before t : Template) : bool :=
  match t with
  | [] => true
  | p :: r =>
      match p with
      | Opt k _ => negb (reads k before) && negb (reads k r)
      | _ => true
      end && isolated (before ++ [p])%list r
  end.

(** Two values of the form that differ at most on the control [k]. *)
Definition agree_except (k : string) (f f' : Form) : Prop :=
  forall k', k' <> k -> form_get f k' = form_get f' k'.

(** A form whose title is the text of the fragment of [dialectic]. *)
Definition form_titled_as_fragment : Form :=
  form_set "title"
    (VStr "٤. تکایە شێوازی (تێز، دژەتێز، سێنتێز) بەکاربهێنە لە شیکارییەکانتدا.")
    initialForm.

(** *** Runs of the generation loops *)

(** The section list after the stream [a] has been written into the section
    of index [i]. *)
Definition streamed (i : nat) (a : StreamAnswer) (l : list BookSection)
  : list BookSection :=
  match chunks a with
  | [] => l
  | _ :: _ => alter (set_content (stream_text a)) i l
  end.

(** [previousContext] when the request for the section of index [j] is
    built: nothing for the first section, else the end of the text that came
    for the section before. *)
Definition previous_context (answers : list StreamAnswer) (j : nat) : string :=
  match j with
  | O => ""
  | S j' => match answers !! j' with
            | Some a => slice_last 500 (stream_text a)
            | None => ""
            end
  end.

(** A document of which the first section is written and the second not. *)
Definition half_written : State :=
  set_sections [mkSection 1 "A" "text" Done; mkSection 2 "B" "" Pending]
               (initialState None).

(** The prompt [sendToWindow2] sends for the outline. *)
Definition sendToWindow2_prompt (f : Form) : string :=
  render f [] sendToWindow2_template.

(** *** The states the component reaches *)

(** What the user may do freely.  A document is read from the library
    ([OpReadDocument]) under the condition stated in [reachable]; a value
    typed into the form is a value of JavaScript (a number in printed
    form). *)
Definition admissible (o : Op) : Prop :=
  match o with
  | OpReadDocument _ => False
  | OpInput _ v => value_canonical v = true
  | _ => True
  end.

(** The states reached from a first start with an empty cache: by the
    methods of the component, run with any answers from the outside; by
    reading a document whose content the component saved (with
    [saveToSupabase], from a state it had reached); by loading the page
    again. *)
Inductive reachable : State -> Prop :=
| reach_start : reachable (initialState None)
| reach_act (o : Op) (answers : list Answer) (st st' : State) :
    reachable st -> admissible o -> act o answers st = Some st' -> reachable st'
| reach_read (doc : SavedDocument) (st0 st st' : State) :
    reachable st -> reachable st0 ->
    doc_content doc = JSON_stringify (sections_to_json (sections st0)) ->
    act (OpReadDocument doc) [] st = Some st' -> reachable st'
| reach_reload (st st' : State) :
    reachable st -> reload st = Some st' -> reachable st'.

(** The cache holds nothing, or a snapshot of sections with distinct ids. *)
Definition storage_ok (s : option string) : Prop :=
  match s with
  | None => True
  | Some text =>
      exists l f, text = JSON_stringify (snapshot_json l f) /\
                  NoDup (map id l) /\ form_canonical f = true
  end.

Definition Inv (st : State) : Prop :=
  NoDup (map id (sections st)) /\
  form_canonical (advancedForm st) = true /\
  storage_ok (localStorage st).

(** [st'] has the ids, the form and the cache of [st]. *)
Definition keeps (st st' : State) : Prop :=
  map id (sections st') = map id (sections st) /\
  advancedForm st' = advancedForm st /\
  localStorage st' = localStorage st.

(** The component after the first section is added to an empty document. *)
Definition after_first_add : State := flush (addNewSection (initialState None)).

(** Two runs of [autoWrite] on the same document with different streams. *)
Definition run_one : list StreamAnswer :=
  [mkStream [Some "ab"] false; mkStream [] false].

Definition run_two : list StreamAnswer :=
  [mkStream [Some "a"; Some "b"] false; mkStream [] true].

Definition run_end (answers : list StreamAnswer) (st : State) : State :=
  default st (act OpAutoWrite (map Stream answers) st).

Definition second_call (answers : list StreamAnswer) (st : State) : Call :=
  default Select (calls_since st (run_end answers st) !! 1).

(** *** The cache *)

(** The snapshot of a state: its sections and the value of its form. *)
Definition snapshot_text (st : State) : string :=
  JSON_stringify (snapshot_json (sections st) (advancedForm st)).

(** A part of a method either writes the [sections] signal, which schedules
    the effect, or leaves the sections, the form and the cache alone. *)
Definition settles_cache (st st1 : State) : Prop :=
  effectPending st1 = true \/
  (effectPending st1 = false /\ sections st1 = sections st /\
   advancedForm st1 = advancedForm st /\ localStorage st1 = localStorage st).

(** Between the parts of a method started in [st0]: no effect is
    scheduled, and the sections are those of [st0], or there is none, or the
    cache holds the snapshot of the state. *)
Definition in_step (st0 st : State) : Prop :=
  effectPending st = false /\
  (sections st = sections st0 \/ sections st = [] \/
   localStorage st = Some (snapshot_text st)).

(** The tasks that do not write to the form. *)
Definition form_safe (t : Task) : bool :=
  match t with
  | AwaitAutoSelect _ => false
  | _ => true
  end.

(** *** Calls in flight *)

(** The methods that return at once when [isGeneratingGlobal] is set. *)
Definition guarded (o : Op) : bool :=
  match o with
  | OpAutoWrite | OpAutoHumanize | OpAcademicReview | OpSaveToSupabase => true
  | _ => false
  end.

(** The tasks of these methods: a stream being read or an insertion. *)
Definition holding (t : Task) : bool :=
  match t with
  | AwaitWrite _ _ _ _ | AwaitHumanize _ _ _ | AwaitReview _ | AwaitInsert => true
  | _ => false
  end.

Definition is_outline (t : Task) : bool :=
  match t with AwaitOutline _ => true | _ => false end.

(** The number of calls of the guarded methods that wait for an answer. *)
Definition in_flight (s : Sys) : nat := length (List.filter holding (waiting s)).

(** Any event but a call of [sendToWindow2]. *)
Definition outline_free (e : Event) : bool :=
  match e with
  | Invoke OpSendToWindow2 => false
  | _ => true
  end.

(** No outline is awaited, and a guarded call in flight is alone and has
    the flag set. *)
Definition one_in_flight (s : Sys) : Prop :=
  existsb is_outline (waiting s) = false /\
  (in_flight s = 0 \/ (in_flight s = 1 /\ isGeneratingGlobal (component s) = true)).

(** A document with one section and a valid form. *)
Definition drafting : Sys :=
  sys_run [Invoke OpAddNewSection; Invoke (OpInput "title" (VStr "t"))]
          (mkSys (initialState None) []).

(** *** Where [?.trim()] throws *)

(** [form.k?.trim()] throws a [TypeError]: [?.] guards [null] and
    [undefined] only, and a boolean or a number has no method [trim].
    [autoSelectFeatures] can leave [true] in any control. *)
Definition trim_throws (f : Form) (k : string) : bool :=
  match form_get f k with
  | Some (VBool _) | Some (VNum _) => true
  | _ => false
  end.

(** [form.useCustomSources && form.customSources?.trim()] throws; in
    [autoWrite], [autoHumanize] and [academicReview] the test stands
    outside every [try]. *)
Definition sources_throw (f : Form) : bool :=
  flag f "useCustomSources" && trim_throws f "customSources".

(** [form.useCustomOutline && form.customOutline?.trim()] throws; in
    [sendToWindow2] the test stands inside [try]. *)
Definition outline_throws (f : Form) : bool :=
  flag f "useCustomOutline" && trim_throws f "customOutline".

(** *** The number of fallback sections, in the words of the specification *)

(** The rational a decimal numeral stands for. *)
Definition digit_value (d : Z) (rest : Q) : Q := ((inject_Z d + rest) / 10)%Q.

Fixpoint fraction_value (f : Decimal.uint) : Q :=
  match f with
  | Decimal.Nil => 0%Q
  | Decimal.D0 r => digit_value 0 (fraction_value r)
  | Decimal.D1 r => digit_value 1 (fraction_value r)
  | Decimal.D2 r => digit_value 2 (fraction_value r)
  | Decimal.D3 r => digit_value 3 (fraction_value r)
  | Decimal.D4 r => digit_value 4 (fraction_value r)
  | Decimal.D5 r => digit_value 5 (fraction_value r)
  | Decimal.D6 r => digit_value 6 (fraction_value r)
  | Decimal.D7 r => digit_value 7 (fraction_value r)
  | Decimal.D8 r => digit_value 8 (fraction_value r)
  | Decimal.D9 r => digit_value 9 (fraction_value r)
  end.

Definition Number_value (n : JsNumber) : Q :=
  let v := (inject_Z (Z.of_N (num_int n)) + fraction_value (num_frac n))%Q in
  if num_neg n then (- v)%Q else v.

(** max(3, ceil(pages / 5)), with the ceiling of the rationals. *)
Definition spec_fallback_count (pages : JsNumber) : Z :=
  Z.max 3 (Qceiling (Number_value pages / 5)).

(** The decimal numeral of [i], as the template literal prints it. *)
Definition decimal_text (i : nat) : string :=
  NilEmpty.string_of_uint (N.to_uint (N.of_nat i)).

(* ------------------------------------------------------------------ *)
(** ** Further notions for the methods of the component *)

(** The value of a control after [autoSelectFeatures] took the answer
    [sel] for the group [ks]: switched on when the answer names it, else
    switched off when it is in the group, else as it was. *)
Definition selected_value (ks sel : list string) (k : string) (old : JsValue) : JsValue :=
  if existsb (String.eqb k) sel then VBool true
  else if existsb (String.eqb k) ks then VBool false
  else old.

(** A form with a title, for the examples. *)
Definition titled : State := input "title" (VStr "t") (initialState None).

(** [response.text || '[]']. *)
Definition answer_text (response_text : option string) : string :=
  match response_text with
  | Some (String c r) => String c r
  | _ => "[]"
  end.

(** What [JSON.parse] makes of the answer to [autoSelectFeatures]; [None]
    when the call or the parsing throws. *)
Definition parsed_answer (a : ContentAnswer) : option json :=
  match a with
  | Some response_text => JSON_parse (answer_text response_text)
  | None => None
  end.

(** No name occurs twice. *)
Fixpoint distinct (l : list string) : bool :=
  match l with
  | [] => true
  | x :: r => negb (existsb (String.eqb x) r) && distinct r
  end.

(** The object [readDocument] patches the form with. *)
Definition document_fields (doc : SavedDocument) : Form :=
  [("title", VStr (doc_title doc)); ("topic", VStr (doc_topic doc));
   ("type", VStr (doc_type doc)); ("level", VStr (doc_level doc))].

(** The requests that change the remote table. *)
Definition remote_write (c : Call) : bool :=
  match c with
  | Insert _ _ _ _ _ | Delete _ => true
  | _ => false
  end.


(** A section once the stream [a] written into it has ended well: the
    text of the stream is its content, unless the stream had no chunk, and
    it is done. *)
Definition written (a : StreamAnswer) (x : BookSection) : BookSection :=
  mkSection (id x) (title x)
            (match chunks a with [] => content x | _ :: _ => stream_text a end) Done.

(** A section whose stream [a] broke off: what came of the stream is its
    content, and its status is left as [s]. *)
Definition broken_off (s : Status) (a : StreamAnswer) (x : BookSection) : BookSection :=
  mkSection (id x) (title x)
            (match chunks a with [] => content x | _ :: _ => stream_text a end) s.

(* ------------------------------------------------------------------ *)
(** ** [getActiveSectionContent] *)

(** [this.sections().find(s => s.id === id)]; no section has the id [null]. *)
Definition find_section (a : option Z) (l : list BookSection) : option BookSection :=
  match a with
  | Some z => List.find (fun s => (id s =? z)%Z) l
  | None => None
  end.

(** What the method returns: a string, or the value that
    [bypassSecurityTrustHtml] makes of the sanitized markup. *)
Inductive Shown :=
| Plain (text : string)
| Trusted (html : string).

(** [marked.parse] and [purify.sanitize] are given from the outside; [None]
    when they throw. *)
Definition getActiveSectionContent
    (marked_parse sanitize : string -> option string) (st : State) : Shown :=
  match find_section (activeSectionId st) (sections st) with
  | Some section =>
      if nonempty (content section) then
        match marked_parse (content section) with
        | Some rawHtml =>
            match sanitize rawHtml with
            | Some cleanHtml => Trusted cleanHtml
            | None => Plain (content section)
            end
        | None => Plain (content section)
        end
      else Plain ""
  | None => Plain ""
  end.

(** [s] is [s0] after the effect has run: all but the cache is the same,
    and no effect is scheduled. *)
Definition settled_from (s s0 : State) : Prop :=
  (currentView s = currentView s0 /\ writingWindow s = writingWindow s0 /\
   advancedForm s = advancedForm s0 /\ sections s = sections s0) /\
  (activeSectionId s = activeSectionId s0 /\
   isGeneratingGlobal s = isGeneratingGlobal s0 /\ globalError s = globalError s0 /\
   isAutoSelecting s = isAutoSelecting s0) /\
  (savedDocuments s = savedDocuments s0 /\ isLoadingDocs s = isLoadingDocs s0 /\
   calls s = calls s0 /\ effectPending s = false).

(** The cache holds nothing, or the snapshot of a list of sections that is
    not empty. *)
Definition draft_cached (s : option string) : Prop :=
  match s with
  | None => True
  | Some text =>
      exists x l f, text = JSON_stringify (snapshot_json (x :: l) f) /\
                    form_canonical f = true
  end.

(** The tasks of the methods that set [isGeneratingGlobal] while they run. *)
Definition busy (t : Task) : bool := holding t || is_outline t.

(** A stream is awaited for a section that is there. *)
Definition task_ok (st : State) (t : Task) : Prop :=
  match t with
  | AwaitWrite _ _ i _ | AwaitHumanize _ i _ => i < length (sections st)
  | _ => True
  end.

(** Of the tasks waiting, at most one holds the flag and its section is
    there; when none does, the flag is clear. *)
Definition idle_when_done (st : State) (ts : list Task) : Prop :=
  length (List.filter busy ts) <= 1 /\
  Forall (task_ok st) ts /\
  (List.filter busy ts = [] -> isGeneratingGlobal st = false).

(* ------------------------------------------------------------------ *)
(** ** A session *)

(** The active section is one of the sections. *)
Definition active_exists (st : State) : Prop :=
  match activeSectionId st with
  | Some a => In a (map id (sections st))
  | None => True
  end.

(** The control [pages] holds what a number input gives, not a text. *)
Definition numeric_pages (f : Form) : Prop :=
  fallback_count (form_get f "pages") <> None.

(** What the page lets the user do: a section is viewed from the list, the
    number input of [pages] gives no text, and no file goes into it. *)
Definition allowed (st : State) (o : Op) : Prop :=
  match o with
  | OpViewSection a => In a (map id (sections st))
  | OpInput k v => k = "pages" -> match v with VStr _ => False | _ => True end
  | OpFileChange _ k => k <> "pages"
  | _ => True
  end.

(** The states of a session: from a first start, by the methods run to
    their end with any answers. *)
Inductive session : State -> Prop :=
| session_start : session (initialState None)
| session_act (o : Op) (answers : list Answer) (st st' : State) :
    session st -> allowed st o -> act o answers st = Some st' -> session st'.

Definition outline_ok (t : Task) : Prop :=
  match t with
  | AwaitOutline pages => fallback_count pages <> None
  | _ => True
  end.

Definition session_inv (st : State) : Prop :=
  active_exists st /\ numeric_pages (advancedForm st).

(** *** Texts that are no JSON *)

(** The characters a JSON value begins with: a digit, [-], the quote, [[],
    [{], or the first letter of [null], [true], [false]. *)
Definition starts_value (c : ascii) : bool :=
  let n := nat_of_ascii c in
  is_digit c || (n =? 45)%nat || (n =? 34)%nat || (n =? 91)%nat || (n =? 123)%nat ||
  (n =? 110)%nat || (n =? 116)%nat || (n =? 102)%nat.

(** Texts that [JSON.parse] refuses at their first or second token: white
    space only, a first character that begins no value, or an opening
    bracket that is followed by nothing it can be followed by. *)
Definition not_json (s : string) : bool :=
  match skip_ws s with
  | "" => true
  | String c r =>
      let n := nat_of_ascii c in
      if (n =? 91)%nat then
        match skip_ws r with
        | "" => true
        | String d _ => negb (starts_value d || (nat_of_ascii d =? 93)%nat)
        end
      else if (n =? 123)%nat then
        match skip_ws r with
        | "" => true
        | String d _ => negb ((nat_of_ascii d =? 34)%nat || (nat_of_ascii d =? 125)%nat)
        end
      else negb (starts_value c)
  end.

(** The answer to [autoSelectFeatures] gives nothing to read: the call
    throws, or [JSON.parse] refuses its text at once. *)
Definition unreadable (a : ContentAnswer) : bool :=
  match a with
  | None => true
  | Some response_text => not_json (answer_text response_text)
  end.

(* ================================================================== *)
(** * Part II: properties *)
(* ================================================================== *)

(** ** Strings *)

Lemma str_app_assoc (a b c : string) : (a ++ b) ++ c = a ++ (b ++ c).
Proof. induction a as [|x a IH]; simpl; [reflexivity | now rewrite IH]. Qed.

Lemma str_app_nil_r (a : string) : a ++ "" = a.
Proof. induction a as [|x a IH]; simpl; [reflexivity | now rewrite IH]. Qed.

Lemma str_length_app (a b : string) :
  String.length (a ++ b) = (String.length a + String.length b)%nat.
Proof. induction a as [|x a IH]; simpl; [reflexivity | now rewrite IH]. Qed.

(** ** JSON: what [JSON.stringify] writes, [JSON.parse] reads back *)

Lemma parse_quote_char (c : ascii) (t : string) :
  parse_string_body (quote_char c ++ t) = prepend (str1 c) (parse_string_body t).
Proof.
  destruct c as [[] [] [] [] [] [] [] []]; reflexivity.
Qed.

Lemma prepend_some (p s rest : string) :
  prepend p (Some (s, rest)) = Some (p ++ s, rest).
Proof. reflexivity. Qed.

Lemma parse_quote_body (s rest : string) :
  parse_string_body (quote_body s ++ String dquote rest) = Some (s, rest).
Proof.
  induction s as [|c s IH]; [reflexivity|].
  cbn [quote_body]. rewrite str_app_assoc, parse_quote_char, IH.
  reflexivity.
Qed.

Lemma parse_QuoteJSONString (s rest : string) :
  exists body, QuoteJSONString s ++ rest = String dquote body /\
               parse_string_body body = Some (s, rest).
Proof.
  exists (quote_body s ++ String dquote rest). split.
  - unfold QuoteJSONString. cbn [append]. now rewrite str_app_assoc.
  - apply parse_quote_body.
Qed.

Lemma span_digits_uint (d : Decimal.uint) (rest : string) :
  not_digit_head rest ->
  span_digits (NilEmpty.string_of_uint d ++ rest) = (NilEmpty.string_of_uint d, rest).
Proof.
  intros H. induction d; cbn [NilEmpty.string_of_uint append];
    try (cbn [span_digits]; change (is_digit _) with true; cbv iota; now rewrite IHd).
  destruct rest as [|c r]; [reflexivity|]. cbn in *. now rewrite H.
Qed.

Lemma uint_string_head (d : Decimal.uint) :
  d <> Decimal.Nil ->
  exists c cr, NilEmpty.string_of_uint d = String c cr /\ is_digit c = true /\
               (Ascii.eqb c "0"%char = true -> exists d', d = Decimal.D0 d').
Proof.
  destruct d; intros H; [congruence| ..];
    cbn [NilEmpty.string_of_uint]; do 2 eexists; (split; [reflexivity|]);
    (split; [reflexivity|]); cbn; intros; try discriminate; eauto.
Qed.

Lemma to_uint_normal (n : N) :
  N.to_uint n = Decimal.D0 Decimal.Nil \/
  (N.to_uint n <> Decimal.Nil /\ forall d', N.to_uint n <> Decimal.D0 d').
Proof.
  pose proof (Unsigned.to_of (N.to_uint n)) as H.
  rewrite Unsigned.of_to in H. rewrite H. unfold Decimal.unorm.
  pose proof (nzhead_nonzero (N.to_uint n)) as Hnz.
  destruct (Decimal.nzhead (N.to_uint n)) as [|u|u|u|u|u|u|u|u|u|u];
    [now left | exfalso; now apply (Hnz u) | ..];
    right; split; try discriminate; intros d' E; discriminate.
Qed.

Lemma delimited_not_digit (rest : string) :
  delimited rest = true -> not_digit_head rest.
Proof.
  destruct rest as [|c r]; [easy|]. cbn. unfold is_digit.
  intros H. destruct (nat_of_ascii c =? 44)%nat eqn:E1;
    [apply Nat.eqb_eq in E1; now rewrite E1|].
  destruct (nat_of_ascii c =? 93)%nat eqn:E2;
    [apply Nat.eqb_eq in E2; now rewrite E2|].
  destruct (nat_of_ascii c =? 125)%nat eqn:E3;
    [apply Nat.eqb_eq in E3; now rewrite E3|]. discriminate.
Qed.

Lemma finish_number_delimited neg ip f rest :
  delimited rest = true ->
  finish_number neg ip f rest = Some (mkNum neg ip f, rest).
Proof.
  unfold finish_number. destruct rest as [|c r]; [reflexivity|].
  cbn [starts_with_char]. intros H.
  assert (Ascii.eqb "e" c = false /\ Ascii.eqb "E" c = false) as [-> ->]; [|reflexivity].
  split; apply Ascii.eqb_neq; intros <-; discriminate.
Qed.

Lemma parse_fraction_print neg ip (f : Decimal.uint) rest :
  nztail f = f -> delimited rest = true ->
  parse_fraction neg ip
    (fraction_text f ++ rest)
  = Some (mkNum neg ip f, rest).
Proof.
  intros Hc Hd.
  assert (f = Decimal.Nil \/ f <> Decimal.Nil) as [-> | Hf]
    by (destruct f; auto; right; discriminate).
  - cbn [fraction_text append]. unfold parse_fraction.
    destruct rest as [|c r]; [now apply finish_number_delimited|].
    assert (Ascii.eqb c "." = false) as ->.
    { apply Ascii.eqb_neq. intros ->. discriminate. }
    now apply finish_number_delimited.
  - replace (fraction_text f)
      with ("." ++ NilEmpty.string_of_uint f) by (destruct f; [congruence | reflexivity ..]).
    cbn [append parse_fraction]. change (Ascii.eqb "." ".") with true. cbv iota.
    rewrite span_digits_uint by now apply delimited_not_digit.
    destruct (uint_string_head f Hf) as (c & cr & E & _ & _).
    rewrite NilEmpty.usu, Hc, E. now apply finish_number_delimited.
Qed.

Lemma parse_unsigned_print neg (n : N) (f : Decimal.uint) rest :
  nztail f = f -> delimited rest = true ->
  parse_unsigned neg
    (NilEmpty.string_of_uint (N.to_uint n) ++ fraction_text f ++ rest)
  = Some (mkNum neg n f, rest).
Proof.
  intros Hc Hd. unfold parse_unsigned.
  rewrite span_digits_uint.
  2:{ destruct f; [now apply delimited_not_digit | reflexivity ..]. }
  assert (exists c cr, NilEmpty.string_of_uint (N.to_uint n) = String c cr /\
                       Ascii.eqb c "0" && nonempty cr = false) as (c & cr & E & Hz).
  { destruct (to_uint_normal n) as [E0 | [Hn Hz]].
    - rewrite E0. now exists "0"%char, "".
    - destruct (uint_string_head _ Hn) as (c & cr & E & _ & H0).
      exists c, cr. split; [exact E|].
      destruct (Ascii.eqb c "0") eqn:Ec; [|reflexivity].
      destruct (H0 eq_refl) as [d' Hd']. now elim (Hz d'). }
  rewrite E, Hz, <- E, NilEmpty.usu, Unsigned.of_to.
  now apply parse_fraction_print.
Qed.

Lemma parse_number_print (n : JsNumber) (rest : string) :
  Number_canonical n = true -> delimited rest = true ->
  parse_number (Number_toString n ++ rest) = Some (n, rest).
Proof.
  intros Hc Hd. unfold Number_canonical in Hc.
  destruct (Decimal.uint_eq_dec _ _) as [Hf|]; [|discriminate].
  destruct n as [neg ip f]. cbn [num_neg num_int num_frac] in *.
  unfold Number_toString. cbn [num_neg num_int num_frac].
  replace (neg && negb (Number_is_zero (mkNum neg ip f))) with neg
    by (destruct neg; [|reflexivity]; cbn [andb] in *;
        now destruct (Number_is_zero _)).
  rewrite !str_app_assoc.
  destruct neg.
  - cbn [append parse_number]. change (Ascii.eqb "-" "-") with true. cbv iota.
    now apply parse_unsigned_print.
  - cbn [append].
    pose proof (parse_unsigned_print false ip f rest Hf Hd) as P.
    destruct (to_uint_normal ip) as [E0 | [Hn _]].
    + rewrite E0 in *. cbn [NilEmpty.string_of_uint append] in *.
      cbn [parse_number]. change (Ascii.eqb "0" "-") with false. cbv iota. exact P.
    + destruct (uint_string_head _ Hn) as (c & cr & E & Hdig & _).
      rewrite E in *. cbn [append] in *. cbn [parse_number].
      assert (Ascii.eqb c "-" = false) as ->; [|exact P].
      apply Ascii.eqb_neq. intros ->. discriminate.
Qed.

Lemma parse_number_head (c : ascii) (r : string) x :
  parse_number (String c r) = Some x ->
  nat_of_ascii c = 45%nat \/ is_digit c = true.
Proof.
  cbn [parse_number]. destruct (Ascii.eqb c "-") eqn:E.
  - apply Ascii.eqb_eq in E. subst. now left.
  - unfold parse_unsigned. cbn [span_digits].
    destruct (is_digit c); [now right|]. discriminate.
Qed.

Lemma value_step_number elements members (s : string) (n : JsNumber) rest :
  parse_number s = Some (n, rest) ->
  value_step elements members s = Some (JNum n, rest).
Proof.
  intros H. destruct s as [|c r]; [discriminate|].
  pose proof (parse_number_head _ _ _ H) as Hh.
  unfold value_step. cbn [skip_ws]. unfold is_json_ws, is_digit in *.
  assert (nat_of_ascii c = 45 \/ 48 <= nat_of_ascii c <= 57)%nat as Hn.
  { destruct Hh as [->| Hd]; [now left|]. right.
    apply andb_prop in Hd as [H1 H2].
    apply Nat.leb_le in H1, H2. lia. }
  clear Hh. cbv zeta.
  repeat rewrite (proj2 (Nat.eqb_neq (nat_of_ascii c) _)) by lia.
  cbn [orb]. cbv iota zeta.
  repeat rewrite (proj2 (Nat.eqb_neq (nat_of_ascii c) _)) by lia.
  now rewrite H.
Qed.

Lemma value_step_string elements members (s rest : string) :
  value_step elements members (QuoteJSONString s ++ rest) = Some (JStr s, rest).
Proof.
  destruct (parse_QuoteJSONString s rest) as (body & -> & Hb).
  unfold value_step. cbn [skip_ws]. change (is_json_ws dquote) with false.
  cbv iota zeta. change (nat_of_ascii dquote) with 34%nat. cbn [Nat.eqb].
  now rewrite Hb.
Qed.

Lemma join_cons (x : string) (y : string) (l : list string) :
  join "," (x :: y :: l) = x ++ "," ++ join "," (y :: l).
Proof. reflexivity. Qed.

Lemma skip_ws_head (c : ascii) (r : string) :
  is_json_ws c = false -> skip_ws (String c r) = String c r.
Proof. intros H. cbn [skip_ws]. now rewrite H. Qed.

Ltac concrete_head :=
  do 2 eexists; split; [reflexivity|];
  repeat split; try reflexivity; vm_compute; lia.

Lemma stringify_head (v : json) (rest : string) :
  exists c r, JSON_stringify v ++ rest = String c r /\ is_json_ws c = false /\
              nat_of_ascii c <> 93%nat /\ nat_of_ascii c <> 125%nat.
Proof.
  destruct v as [|[]|n|s|l|m]; try (cbn; concrete_head).
  cbn [JSON_stringify]. unfold Number_toString. rewrite !str_app_assoc.
  destruct (num_neg n && negb (Number_is_zero n)).
  - cbn [append]. concrete_head.
  - cbn [append]. destruct (to_uint_normal (num_int n)) as [E0 | [Hn _]].
    + rewrite E0. cbn [NilEmpty.string_of_uint append]. concrete_head.
    + destruct (uint_string_head _ Hn) as (c & cr & E & Hdig & _).
      rewrite E. cbn [append]. do 2 eexists; split; [reflexivity|].
      unfold is_digit, is_json_ws in *. apply andb_prop in Hdig as [H1 H2].
      apply Nat.leb_le in H1, H2.
      repeat split; try lia.
      now repeat rewrite (proj2 (Nat.eqb_neq (nat_of_ascii c) _)) by lia.
Qed.

Lemma elements_text_cons (x : json) (l : list json) (t : string) :
  elements_text (x :: l) ++ t =
  JSON_stringify x ++ match l with
                      | [] => t
                      | _ :: _ => "," ++ elements_text l ++ t
                      end.
Proof.
  unfold elements_text. destruct l as [|y l]; [reflexivity|].
  cbn [map]. rewrite join_cons. now rewrite !str_app_assoc.
Qed.

Lemma members_text_cons (kv : string * json) (m : list (string * json)) (t : string) :
  members_text (kv :: m) ++ t =
  QuoteJSONString (fst kv) ++ ":" ++ JSON_stringify (snd kv) ++
    match m with
    | [] => t
    | _ :: _ => "," ++ members_text m ++ t
    end.
Proof.
  unfold members_text. destruct m as [|y m].
  - cbn [map join String.concat]. unfold member_text. now rewrite !str_app_assoc.
  - cbn [map]. rewrite join_cons. unfold member_text at 1.
    now rewrite !str_app_assoc.
Qed.

Lemma json_need_pos (v : json) : 1 <= json_need v.
Proof. destruct v; cbn; lia. Qed.

Lemma elements_need_cons (x : json) (l : list json) :
  elements_need (x :: l) = S (json_need x + elements_need l).
Proof. reflexivity. Qed.

Lemma members_need_cons (kv : string * json) (m : list (string * json)) :
  members_need (kv :: m) = S (json_need (snd kv) + members_need m).
Proof. reflexivity. Qed.

Lemma parse_value_S f s :
  parse_value (S f) s = value_step (parse_elements f) (parse_members f) s.
Proof. reflexivity. Qed.

Lemma parse_elements_S f s :
  parse_elements (S f) s = elements_step (parse_value f) (parse_elements f) s.
Proof. reflexivity. Qed.

Lemma parse_members_S f s :
  parse_members (S f) s = members_step (parse_value f) (parse_members f) s.
Proof. reflexivity. Qed.

(** Reading back a printed value, with the text that follows it left over. *)
Lemma parse_print_fuel (f : nat) :
  (forall v rest,
      json_need v <= f -> json_wf v = true -> delimited rest = true ->
      parse_value f (JSON_stringify v ++ rest) = Some (v, rest)) /\
  (forall x l rest,
      elements_need (x :: l) <= f -> forallb json_wf (x :: l) = true ->
      parse_elements f (elements_text (x :: l) ++ String "]" rest) = Some (x :: l, rest)) /\
  (forall kv m rest,
      members_need (kv :: m) <= f ->
      forallb (fun kv => json_wf (snd kv)) (kv :: m) = true ->
      parse_members f (members_text (kv :: m) ++ String "}" rest) = Some (kv :: m, rest)).
Proof.
  induction f as [|f (IHv & IHe & IHm)].
  { repeat split; intros.
    - pose proof (json_need_pos v). lia.
    - rewrite elements_need_cons in *. lia.
    - rewrite members_need_cons in *. lia. }
  split; [|split].
  - intros v rest Hn Hw Hd. rewrite parse_value_S.
    destruct v as [|[]|n|s|l|m]; try reflexivity.
    + apply value_step_number. now apply parse_number_print.
    + apply value_step_string.
    + cbn [JSON_stringify]. fold (elements_text l).
      cbn [append]. rewrite str_app_assoc. cbn [append].
      unfold value_step. cbn [skip_ws]. change (is_json_ws "[") with false.
      cbv iota zeta. change (nat_of_ascii "[") with 91%nat. cbn [Nat.eqb].
      destruct l as [|x l]; [reflexivity|].
      rewrite IHe; [| change (S (elements_need (x :: l)) <= S f) in Hn; lia | exact Hw].
      rewrite elements_text_cons.
      destruct (stringify_head x (match l with
                                  | [] => String "]" rest
                                  | _ :: _ => "," ++ elements_text l ++ String "]" rest
                                  end)) as (c & r & -> & Hws & H93 & _).
      rewrite skip_ws_head by exact Hws.
      now rewrite (proj2 (Nat.eqb_neq _ _) H93).
    + cbn [JSON_stringify]. fold member_text. fold (members_text m).
      cbn [append]. rewrite str_app_assoc. cbn [append].
      unfold value_step. cbn [skip_ws]. change (is_json_ws "{") with false.
      cbv iota zeta. change (nat_of_ascii "{") with 123%nat. cbn [Nat.eqb].
      destruct m as [|kv m]; [reflexivity|].
      rewrite IHm; [| change (S (members_need (kv :: m)) <= S f) in Hn; lia | exact Hw].
      rewrite members_text_cons.
      unfold QuoteJSONString at 1. cbn [append].
      rewrite skip_ws_head by reflexivity. reflexivity.
  - intros x l rest Hn Hw. rewrite parse_elements_S. unfold elements_step.
    rewrite elements_need_cons in Hn.
    cbn [forallb] in Hw. apply andb_prop in Hw as [Hx Hl].
    rewrite elements_text_cons.
    destruct l as [|y l].
    + rewrite IHv; [| lia | exact Hx | reflexivity]. reflexivity.
    + rewrite IHv; [| lia | exact Hx | reflexivity].
      cbn [append skip_ws]. change (is_json_ws ",") with false. cbv iota.
      change (nat_of_ascii ",") with 44%nat. cbn [Nat.eqb].
      rewrite IHe; [reflexivity | lia | exact Hl].
  - intros [k v] m rest Hn Hw. rewrite parse_members_S. unfold members_step.
    rewrite members_need_cons in Hn. cbn [snd] in Hn.
    cbn [forallb snd] in Hw. apply andb_prop in Hw as [Hx Hl].
    rewrite members_text_cons. cbn [fst snd].
    destruct (parse_QuoteJSONString k
                (":" ++ JSON_stringify v ++
                 match m with
                 | [] => String "}" rest
                 | _ :: _ => "," ++ members_text m ++ String "}" rest
                 end)) as (body & -> & Hb).
    rewrite skip_ws_head by reflexivity.
    change (nat_of_ascii dquote) with 34%nat. cbn [Nat.eqb]. rewrite Hb.
    cbn [append skip_ws]. change (is_json_ws ":") with false. cbv iota.
    change (nat_of_ascii ":") with 58%nat. cbn [Nat.eqb].
    destruct m as [|kv' m].
    + rewrite IHv; [| lia | exact Hx | reflexivity]. reflexivity.
    + rewrite IHv; [| lia | exact Hx | reflexivity].
      cbn [append skip_ws]. change (is_json_ws ",") with false. cbv iota.
      change (nat_of_ascii ",") with 44%nat. cbn [Nat.eqb].
      rewrite IHm; [reflexivity | lia | exact Hl].
Qed.

(** Induction on JSON values, through the lists nested in them. *)
Lemma json_nested_ind (P : json -> Prop) :
  P JNull -> (forall b, P (JBool b)) -> (forall n, P (JNum n)) ->
  (forall s, P (JStr s)) ->
  (forall l, Forall P l -> P (JArr l)) ->
  (forall m, Forall (fun kv => P (snd kv)) m -> P (JObj m)) ->
  forall v, P v.
Proof.
  intros Hnull Hbool Hnum Hstr Harr Hobj.
  fix IH 1. intros [|b|n|s|l|m].
  - exact Hnull.
  - apply Hbool.
  - apply Hnum.
  - apply Hstr.
  - apply Harr. induction l as [|x l IHl]; constructor; [apply IH | exact IHl].
  - apply Hobj. induction m as [|[k x] m IHm]; constructor; [apply IH | exact IHm].
Qed.

Lemma uint_string_length (d : Decimal.uint) :
  d <> Decimal.Nil -> 1 <= String.length (NilEmpty.string_of_uint d).
Proof.
  intros H. destruct (uint_string_head d H) as (c & cr & -> & _). cbn. lia.
Qed.

Lemma Number_toString_length (n : JsNumber) :
  1 <= String.length (Number_toString n).
Proof.
  unfold Number_toString. rewrite !str_length_app.
  assert (N.to_uint (num_int n) <> Decimal.Nil) as H.
  { destruct (to_uint_normal (num_int n)) as [-> | [H _]]; [discriminate | exact H]. }
  pose proof (uint_string_length _ H). lia.
Qed.

Lemma json_need_length (v : json) :
  json_need v <= String.length (JSON_stringify v).
Proof.
  induction v as [|b|n|s|l IH|m IH] using json_nested_ind.
  - cbn. lia.
  - destruct b; cbn; lia.
  - cbn [json_need JSON_stringify]. apply Number_toString_length.
  - cbn. lia.
  - cbn [json_need JSON_stringify]. fold (elements_need l). fold (elements_text l).
    cbn [append String.length]. rewrite str_length_app. cbn [String.length].
    enough (elements_need l <= String.length (elements_text l) + 1) by lia.
    induction IH as [|x l Hx _ IHl]; [cbn; lia|].
    rewrite elements_need_cons.
    pose proof (elements_text_cons x l "") as E. rewrite str_app_nil_r in E.
    rewrite E, str_length_app.
    destruct l as [|y l]; [cbn in *; lia|].
    rewrite str_length_app, str_app_nil_r. cbn [String.length]. lia.
  - cbn [json_need JSON_stringify]. fold member_text. fold (members_need m).
    fold (members_text m).
    cbn [append String.length]. rewrite str_length_app. cbn [String.length].
    enough (members_need m <= String.length (members_text m) + 1) by lia.
    induction IH as [|[k x] m Hx _ IHm]; [cbn; lia|].
    rewrite members_need_cons. cbn [snd] in *.
    pose proof (members_text_cons (k, x) m "") as E. rewrite str_app_nil_r in E.
    rewrite E, !str_length_app. cbn [fst snd].
    destruct m as [|y m]; [cbn in *; lia|].
    rewrite str_length_app, str_app_nil_r. cbn [String.length]. lia.
Qed.

(** Round trip through the serialisation: [JSON.parse (JSON.stringify v)]
    is [v]. *)
Lemma JSON_parse_stringify (v : json) :
  json_wf v = true -> JSON_parse (JSON_stringify v) = Some v.
Proof.
  intros Hw. unfold JSON_parse.
  destruct (parse_print_fuel (S (String.length (JSON_stringify v)))) as (Hv & _ & _).
  pose proof (Hv v "" ltac:(pose proof (json_need_length v); lia) Hw eq_refl) as E.
  rewrite str_app_nil_r in E. now rewrite E.
Qed.

(* ------------------------------------------------------------------ *)
(** ** Saved documents are read back as they were written *)

Lemma Number_of_Z_canonical (z : Z) : Number_canonical (Number_of_Z z) = true.
Proof.
  unfold Number_canonical, Number_of_Z, Number_is_zero. cbn.
  destruct (Z.ltb_spec z 0) as [H|H]; [|reflexivity].
  cbn. destruct (N.eqb_spec (Z.abs_N z) 0) as [E|E]; [|reflexivity].
  apply (f_equal Z.of_N) in E. rewrite N2Z.inj_abs_N in E. cbn in E. lia.
Qed.

Lemma Number_to_of_Z (z : Z) : Number_to_Z (Number_of_Z z) = Some z.
Proof.
  unfold Number_to_Z, Number_of_Z. cbn. f_equal.
  rewrite N2Z.inj_abs_N. destruct (Z.ltb_spec z 0); lia.
Qed.

Lemma status_of_status_text (s : Status) : status_of_text (status_text s) = Some s.
Proof. now destruct s. Qed.

Lemma section_of_to_json (s : BookSection) :
  section_of_json (section_to_json s) = Some s.
Proof.
  destruct s as [i t c st]. unfold section_of_json, section_to_json.
  cbn [id title content status]. cbn [String.eqb Ascii.eqb Bool.eqb andb].
  now rewrite Number_to_of_Z, status_of_status_text.
Qed.

Lemma sections_of_to_list (l : list BookSection) :
  sections_of_list (map section_to_json l) = Some l.
Proof.
  induction l as [|s l IH]; [reflexivity|].
  cbn [map sections_of_list]. now rewrite section_of_to_json, IH.
Qed.

Lemma sections_json_wf (l : list BookSection) : json_wf (sections_to_json l) = true.
Proof.
  unfold sections_to_json. cbn [json_wf]. induction l as [|s l IH]; [reflexivity|].
  cbn [map forallb]. rewrite IH. unfold section_to_json.
  cbn [json_wf forallb snd]. now rewrite Number_of_Z_canonical.
Qed.

Lemma parse_sections (l : list BookSection) :
  JSON_parse (JSON_stringify (sections_to_json l)) = Some (sections_to_json l).
Proof. apply JSON_parse_stringify, sections_json_wf. Qed.

(** C2.  The text that [saveToSupabase] sends in the [content] column is
    [JSON.stringify] of the section list, and [readDocument] of a row that
    holds this text sets the section list to the same sections: the same
    ids, titles, contents and statuses, in the same order. *)
Theorem readDocument_saveToSupabase_roundtrip
    (st st' : State) (row : Z) (r_title r_topic r_type r_level r_created : string) :
  isGeneratingGlobal st = false ->
  exists (content_sent : string) (st'' : State),
    calls (fst (saveToSupabase_begin st)) =
      (calls st ++ [Insert (form_get (advancedForm st) "title")
                           (form_get (advancedForm st) "topic")
                           (form_get (advancedForm st) "type")
                           (form_get (advancedForm st) "level") content_sent])%list /\
    content_sent = JSON_stringify (sections_to_json (sections st)) /\
    readDocument (mkDocument row r_title r_topic r_type r_level content_sent r_created) st'
      = Some st'' /\
    sections st'' = sections st.
Proof.
  intros Hg. eexists. eexists. split; [|split; [reflexivity|]].
  - unfold saveToSupabase_begin. rewrite Hg. reflexivity.
  - unfold readDocument. cbn [doc_content].
    rewrite parse_sections. unfold sections_to_json.
    rewrite sections_of_to_list. split; reflexivity.
Qed.

Lemma readDocument_saveToSupabase_roundtrip_witness :
  exists (content_sent : string) (st'' : State),
    calls (fst (saveToSupabase_begin (addNewSection (initialState None)))) =
      (calls (addNewSection (initialState None)) ++
        [Insert (form_get (advancedForm (addNewSection (initialState None))) "title")
                (form_get (advancedForm (addNewSection (initialState None))) "topic")
                (form_get (advancedForm (addNewSection (initialState None))) "type")
                (form_get (advancedForm (addNewSection (initialState None))) "level")
                content_sent])%list /\
    content_sent = JSON_stringify (sections_to_json
                                     (sections (addNewSection (initialState None)))) /\
    readDocument (mkDocument 7 "t" "p" "y" "l" content_sent "2026") (initialState None)
      = Some st'' /\
    sections st'' = sections (addNewSection (initialState None)).
Proof.
  apply (readDocument_saveToSupabase_roundtrip
           (addNewSection (initialState None)) (initialState None) 7 "t" "p" "y" "l" "2026").
  reflexivity.
Defined.

(* ------------------------------------------------------------------ *)
(** ** The exported documents *)

Lemma fold_left_append {A : Type} (f : A -> string) (l : list A) (acc : string) :
  fold_left (fun a x => a ++ f x) l acc = acc ++ String.concat "" (map f l).
Proof.
  revert acc. induction l as [|x l IH]; intros acc; cbn [fold_left map].
  - now rewrite str_app_nil_r.
  - rewrite IH, str_app_assoc. f_equal.
    destruct l as [|y l]; [cbn; now rewrite str_app_nil_r | reflexivity].
Qed.

Ltac str_normalize :=
  repeat (progress (cbn [append]; rewrite ?str_app_assoc, ?str_app_nil_r)).

(** C4, as the code has it.  Each export is a fixed frame around one block
    per section, the blocks in list order; the block of a section holds its
    title once, in the heading, and its content once, after it. *)
Theorem exports_one_block_per_section (st : State) :
  exportLatex st =
    "\documentclass{article}
\usepackage[utf8]{inputenc}
\title{" ++ to_text (form_get (advancedForm st) "title") ++ "}
\author{کتێبخانەی مام}
\begin{document}
\maketitle

" ++ String.concat "" (map latex_block (sections st)) ++ "\end{document}"
  /\
  saveAll st =
    "
      <html xmlns:o='urn:schemas-microsoft-com:office:office' xmlns:w='urn:schemas-microsoft-com:office:word' xmlns='http://www.w3.org/TR/REC-html40'>
      <head><meta charset='utf-8'><title>" ++ to_text (form_get (advancedForm st) "title") ++
    "</title></head><body><h1>" ++ to_text (form_get (advancedForm st) "title") ++ "</h1>

" ++ String.concat "" (map doc_block (sections st)) ++ "</body></html>
    ".
Proof.
  split.
  - unfold exportLatex.
    rewrite (fold_left_append
               (fun s => render (advancedForm st) [title s; content s] latex_section)).
    rewrite (map_ext _ latex_block).
    2:{ intros s. unfold latex_block.
        cbn [render render_piece latex_section arg nth]. now str_normalize. }
    cbn [render render_piece latex_preamble latex_end].
    generalize (String.concat "" (map latex_block (sections st))).
    generalize (to_text (form_get (advancedForm st) "title")).
    intros t blocks. now str_normalize.
  - unfold saveAll.
    rewrite (fold_left_append
               (fun s => render (advancedForm st) [title s; content s] doc_section)).
    rewrite (map_ext _ doc_block).
    2:{ intros s. unfold doc_block.
        cbn [render render_piece doc_section arg nth]. now str_normalize. }
    cbn [render render_piece doc_html doc_heading arg nth].
    generalize (String.concat "" (map doc_block (sections st))).
    generalize (to_text (form_get (advancedForm st) "title")).
    intros t blocks. now str_normalize.
Qed.

(** C4, as it is stated, fails: two sections added with [addNewSection]
    carry the same title, which therefore stands twice in each export, and
    their empty content stands at every position. *)
Lemma exports_title_twice :
  exists s : BookSection,
    In s (sections two_new_sections) /\
    occurrences (title s) (exportLatex two_new_sections) = 2 /\
    occurrences (title s) (saveAll two_new_sections) = 2 /\
    1 < occurrences (content s) (exportLatex two_new_sections).
Proof.
  exists (mkSection 1 new_section_title "" Pending).
  split; [now left|]. vm_compute. repeat split; lia.
Qed.

(* ------------------------------------------------------------------ *)
(** ** The effect leaves the component as it is *)

Lemma flush_sections st : sections (flush st) = sections st.
Proof. now destruct st as [? ? ? [|] ? ? ? ? ? ? ? [|] ?]. Qed.

Lemma flush_advancedForm st : advancedForm (flush st) = advancedForm st.
Proof. now destruct st as [? ? ? [|] ? ? ? ? ? ? ? [|] ?]. Qed.

Lemma flush_activeSectionId st : activeSectionId (flush st) = activeSectionId st.
Proof. now destruct st as [? ? ? [|] ? ? ? ? ? ? ? [|] ?]. Qed.

Lemma flush_isGeneratingGlobal st : isGeneratingGlobal (flush st) = isGeneratingGlobal st.
Proof. now destruct st as [? ? ? [|] ? ? ? ? ? ? ? [|] ?]. Qed.

Lemma flush_writingWindow st : writingWindow (flush st) = writingWindow st.
Proof. now destruct st as [? ? ? [|] ? ? ? ? ? ? ? [|] ?]. Qed.

Lemma flush_currentView st : currentView (flush st) = currentView st.
Proof. now destruct st as [? ? ? [|] ? ? ? ? ? ? ? [|] ?]. Qed.

Lemma flush_globalError st : globalError (flush st) = globalError st.
Proof. now destruct st as [? ? ? [|] ? ? ? ? ? ? ? [|] ?]. Qed.

Lemma flush_calls st : calls (flush st) = calls st.
Proof. now destruct st as [? ? ? [|] ? ? ? ? ? ? ? [|] ?]. Qed.

Lemma flush_effectPending st : effectPending (flush st) = false.
Proof. now destruct st as [? ? ? [|] ? ? ? ? ? ? ? [|] ?]. Qed.

(* ------------------------------------------------------------------ *)
(** ** The fallback outline of [sendToWindow2] *)

(** [Math.ceil(pages / 5)] on a whole number of pages. *)
Lemma Math_ceil_div5_whole (z : Z) :
  (0 <= z)%Z -> Math_ceil_div5 (Number_of_Z z) = ((z + 4) / 5)%Z.
Proof.
  intros Hz. unfold Math_ceil_div5, Number_of_Z. cbn [num_neg num_int num_frac].
  destruct (Z.ltb_spec z 0) as [H|_]; [lia|].
  change (frac_is_zero Decimal.Nil) with true. rewrite andb_true_r.
  rewrite N2Z.inj_div. rewrite N2Z.inj_abs_N, Z.abs_eq by lia. cbn [Z.of_N].
  assert (Z.of_N (Z.abs_N z mod 5) = z mod 5)%Z as Hm
    by (rewrite N2Z.inj_mod, N2Z.inj_abs_N, Z.abs_eq by lia; reflexivity).
  destruct (N.eqb_spec (Z.abs_N z mod 5) 0) as [E|E].
  - rewrite E in Hm. cbn in Hm. Z.div_mod_to_equations. lia.
  - assert (z mod 5 <> 0)%Z as E'.
    { intros E'. apply E. apply N2Z.inj. rewrite Hm, E'. reflexivity. }
    Z.div_mod_to_equations. lia.
Qed.

(** The value of a fraction is at least 0 and below 1, and it is 0 exactly
    when every digit is. *)
Lemma fraction_value_range (f : Decimal.uint) :
  (0 <= fraction_value f /\ fraction_value f < 1)%Q.
Proof.
  induction f; cbn [fraction_value]; unfold digit_value, inject_Z, Qdiv;
    change (/ 10)%Q with (1#10)%Q; try (destruct IHf as [H1 H2]); split; lra.
Qed.

Lemma fraction_value_zero (f : Decimal.uint) :
  frac_is_zero f = true <-> (fraction_value f == 0)%Q.
Proof.
  unfold frac_is_zero.
  induction f; cbn [fraction_value Decimal.nzhead]; unfold digit_value, inject_Z, Qdiv; change (/ 10)%Q with (1#10)%Q;
    try (pose proof (fraction_value_range f) as [H1 H2]);
    try (split; [discriminate | intros H; exfalso; lra]).
  - split; [reflexivity | reflexivity].
  - rewrite IHf. split; intros H; lra.
Qed.

Lemma Qceiling_unique (x : Q) (c : Z) :
  (inject_Z (c - 1) < x)%Q -> (x <= inject_Z c)%Q -> Qceiling x = c.
Proof.
  intros H1 H2.
  pose proof (Qle_ceiling x) as H3. pose proof (Qceiling_lt x) as H4.
  assert (c - 1 < Qceiling x)%Z as H5.
  { rewrite Zlt_Qlt. eapply Qlt_le_trans; [exact H1 | exact H3]. }
  assert (Qceiling x - 1 < c)%Z as H6.
  { rewrite Zlt_Qlt. eapply Qlt_le_trans; [exact H4 | exact H2]. }
  lia.
Qed.

(** [Math_ceil_div5] is the ceiling of the fifth of the value. *)
Lemma Math_ceil_div5_value (n : JsNumber) :
  Math_ceil_div5 n = Qceiling (Number_value n / 5).
Proof.
  symmetry. apply Qceiling_unique; unfold Math_ceil_div5, Number_value, Qdiv;
    change (/ 5)%Q with (1#5)%Q;
    destruct n as [neg i f]; cbn [num_neg num_int num_frac];
    pose proof (fraction_value_range f) as [F1 F2];
    pose proof (fraction_value_zero f) as FZ;
    pose proof (N.div_mod i 5 ltac:(lia)) as Hdm;
    pose proof (N.mod_lt i 5 ltac:(lia)) as Hr;
    set (q := (i / 5)%N) in *; set (r := (i mod 5)%N) in *;
    assert (inject_Z (Z.of_N i) == 5 * inject_Z (Z.of_N q) + inject_Z (Z.of_N r))%Q as Hi
      by (rewrite Hdm, N2Z.inj_add, N2Z.inj_mul, inject_Z_plus, inject_Z_mult; reflexivity);
    assert (0 <= inject_Z (Z.of_N r) /\ inject_Z (Z.of_N r) <= 4)%Q as [R1 R2]
      by (split; [change 0%Q with (inject_Z 0) | change 4%Q with (inject_Z 4)];
          rewrite <- Zle_Qle; lia);
    assert (r <> 0%N -> 1 <= inject_Z (Z.of_N r))%Q as R3
      by (intros Hne; change 1%Q with (inject_Z 1); rewrite <- Zle_Qle; lia);
    assert (r = 0%N -> inject_Z (Z.of_N r) == 0)%Q as R4
      by (intros ->; reflexivity).
  all: destruct neg.
  all: try (destruct (N.eqb_spec r 0) as [Hr0|Hr0]; cbn [andb];
            [destruct (frac_is_zero f) eqn:Hf|]).
  all: unfold Z.sub; rewrite ?inject_Z_plus, ?inject_Z_opp; cbn [inject_Z Z.opp];
       change (inject_Z (-1)) with (-1)%Q; change (inject_Z 1) with 1%Q.
  all: try specialize (R4 Hr0); try specialize (R3 Hr0).
  all: try (apply FZ in Hf).
  all: try (assert (~ fraction_value f == 0)%Q as Hnz by (intros Hz; apply FZ in Hz; congruence);
            assert (0 < fraction_value f)%Q by (destruct (Qlt_le_dec 0 (fraction_value f)); [assumption|exfalso; apply Hnz; lra])).
  all: try lra.
Qed.

(** C9.  When the form is valid, the custom outline is not in use (and the
    test of it does not throw), and the outline that comes back has no line
    that is not blank, [sendToWindow2] sets the section list to
    max(3, ceil(pages/5)) sections, the ceiling being that of the rational
    the number of pages stands for: the i-th has id i, the placeholder
    title with the decimal numeral of i, no content and the status pending;
    the first one becomes the active section. *)
Theorem sendToWindow2_fallback_sections
    (st : State) (response_text : option string) (pages : JsNumber) :
  form_invalid (advancedForm st) = false ->
  outline_throws (advancedForm st) = false ->
  flag (advancedForm st) "useCustomOutline" &&
    nonempty (trimmed (advancedForm st) "customOutline") = false ->
  form_get (advancedForm st) "pages" = Some (VNum pages) ->
  List.filter (fun l => nonempty (trim l))
              (split_lines (match response_text with Some t => t | None => "" end)) = [] ->
  exists st' : State,
    act OpSendToWindow2 [Content (Some response_text)] st = Some st' /\
    length (sections st') = Z.to_nat (spec_fallback_count pages) /\
    (forall i : nat,
        i < Z.to_nat (spec_fallback_count pages) ->
        sections st' !! i =
          Some (mkSection (Z.of_nat (S i)) ("بەشی " ++ decimal_text (S i)) "" Pending)) /\
    activeSectionId st' = Some 1%Z /\
    writingWindow st' = 2 /\
    isGeneratingGlobal st' = false.
Proof.
  intros Hvalid _ Hcustom Hpages Hblank.
  unfold act, begin, sendToWindow2_begin. rewrite Hvalid.
  cbn [advancedForm set_isGeneratingGlobal set_globalError].
  rewrite Hcustom, Hpages. cbn [flushed settle].
  unfold resume, sendToWindow2_resume. rewrite Hblank.
  cbn [imap fallback_sections fallback_count].
  unfold spec_fallback_count. rewrite <- Math_ceil_div5_value.
  set (n := Z.max 3 (Math_ceil_div5 pages)).
  assert (0 < n)%Z as Hn by lia.
  set (fs := map fallback_section (seqZ 1 n)).
  assert (length fs = Z.to_nat n) as Hlen
    by (unfold fs; now rewrite length_map, length_seqZ).
  assert (forall i : nat, i < Z.to_nat n ->
            fs !! i = Some (mkSection (Z.of_nat (S i)) ("بەشی " ++ decimal_text (S i))
                              "" Pending)) as Hlook.
  { intros i Hi. unfold fs.
    rewrite list_lookup_fmap, lookup_seqZ_lt by lia.
    cbn [fmap option_fmap option_map]. unfold fallback_section.
    cbn [render render_piece fallback_title arg nth].
    rewrite str_app_nil_r.
    replace (1 + Z.of_nat i)%Z with (Z.of_nat (S i)) by lia.
    do 3 f_equal. unfold Number_toString, Number_of_Z, Number_is_zero, decimal_text.
    cbn [num_neg num_int num_frac fraction_text].
    destruct (Z.ltb_spec (Z.of_nat (S i)) 0) as [H|_]; [lia|].
    cbn [andb]. rewrite str_app_nil_r. cbn [append].
    now rewrite <- nat_N_Z, Zabs2N.id. }
  pose proof (Hlook 0%nat ltac:(lia)) as H0.
  destruct fs as [|s l]; [discriminate|].
  cbn [lookup list_lookup] in H0. injection H0 as E0.
  cbn [flushed settle app].
  eexists. split; [reflexivity|].
  rewrite !flush_sections, flush_activeSectionId, flush_writingWindow,
    flush_isGeneratingGlobal.
  cbn [sections activeSectionId writingWindow isGeneratingGlobal
       set_isGeneratingGlobal set_writingWindow set_activeSectionId set_sections].
  repeat split; try assumption. now rewrite E0.
Qed.

(** Twenty-three pages give five sections. *)
Lemma sendToWindow2_fallback_sections_witness :
  exists st' : State,
    act OpSendToWindow2 [Content (Some (Some " "))]
        (input "pages" (VNum (Number_of_Z 23))
           (input "title" (VStr "T") (initialState None))) = Some st' /\
    length (sections st') = 5 /\
    (forall i : nat,
        i < 5 ->
        sections st' !! i =
          Some (mkSection (Z.of_nat (S i)) ("بەشی " ++ decimal_text (S i)) "" Pending)) /\
    activeSectionId st' = Some 1%Z /\
    writingWindow st' = 2 /\
    isGeneratingGlobal st' = false.
Proof.
  apply (sendToWindow2_fallback_sections
           (input "pages" (VNum (Number_of_Z 23))
              (input "title" (VStr "T") (initialState None)))
           (Some " ") (Number_of_Z 23));
    reflexivity.
Defined.

(* ------------------------------------------------------------------ *)
(** ** The options of the section prompt *)

Lemma render_app (f : Form) (args : list string) (l1 l2 : Template) :
  render f args (l1 ++ l2)%list = render f args l1 ++ render f args l2.
Proof.
  induction l1 as [|p l1 IH]; [reflexivity|].
  change (render_piece f args p ++ render f args (l1 ++ l2)%list =
          (render_piece f args p ++ render f args l1) ++ render f args l2).
  now rewrite IH, str_app_assoc.
Qed.

Lemma flag_agree (k k' : string) (f f' : Form) :
  agree_except k f f' -> String.eqb k' k = false -> flag f k' = flag f' k'.
Proof.
  intros H E. unfold flag. rewrite (H k'); [reflexivity|].
  now apply String.eqb_neq.
Qed.

Lemma render_agree (k : string) (f f' : Form) (args : list string) (t : Template) :
  agree_except k f f' -> reads k t = false -> render f args t = render f' args t.
Proof.
  intros H. induction t as [|p t IH]; [reflexivity|].
  cbn [reads existsb]. intros R. apply orb_false_elim in R as [Rp Rt].
  cbn [render]. rewrite (IH Rt). f_equal.
  destruct p as [s|k'|k' s|k1 a k2 b|i|i a]; cbn [render_piece piece_reads] in *;
    try reflexivity.
  - rewrite (H k'); [reflexivity | now apply String.eqb_neq].
  - now rewrite (flag_agree k k' f f' H Rp).
  - apply orb_false_elim in Rp as [R1 R2].
    rewrite (flag_agree k k1 f f' H R1).
    rewrite (H k2); [reflexivity | now apply String.eqb_neq].
Qed.

Lemma reads_app (k : string) (l1 l2 : Template) :
  reads k (l1 ++ l2)%list = reads k l1 || reads k l2.
Proof. apply existsb_app. Qed.

Lemma isolated_split (k text : string) (t before : Template) :
  isolated before t = true -> In (k, text) (options_of t) ->
  exists l1 l2, t = (l1 ++ Opt k text :: l2)%list /\
                reads k before = false /\ reads k l1 = false /\ reads k l2 = false.
Proof.
  revert before. induction t as [|p t IH]; intros before Hi Hin; [contradiction|].
  cbn [isolated] in Hi. apply andb_prop in Hi as [Hp Hrest].
  unfold options_of in Hin. cbn [flat_map] in Hin. apply in_app_or in Hin as [Hin|Hin].
  - destruct p; try contradiction. destruct Hin as [E|[]]. injection E as -> ->.
    apply andb_prop in Hp as [H1 H2].
    exists [], t. repeat split; try reflexivity; now apply negb_true_iff.
  - destruct (IH (before ++ [p])%list Hrest Hin) as (l1 & l2 & -> & Hb & H1 & H2).
    rewrite reads_app in Hb. apply orb_false_elim in Hb as [Hb Hp'].
    assert (piece_reads k p = false) as Hq
      by (cbn [reads existsb] in Hp'; now rewrite orb_false_r in Hp').
    exists (p :: l1), l2. repeat split; try assumption.
    change (piece_reads k p || reads k l1 = false). now rewrite Hq, H1.
Qed.

Lemma starts_with_app (n s : string) : starts_with n (n ++ s) = true.
Proof.
  induction n as [|c n IH]; [reflexivity|].
  cbn [append starts_with]. now rewrite Ascii.eqb_refl, IH.
Qed.

Lemma occurs_inside (pre n post : string) : occurs n (pre ++ n ++ post) = true.
Proof.
  unfold occurs. apply negb_true_iff, Nat.eqb_neq.
  induction pre as [|c pre IH]; cbn [append].
  - pose proof (starts_with_app n post) as H.
    destruct (n ++ post) as [|c r] eqn:E; cbn [occurrences]; rewrite H; lia.
  - cbn [occurrences]. lia.
Qed.

Lemma autoWrite_template_isolated : isolated [] autoWrite_template = true.
Proof. vm_compute. reflexivity. Qed.

Lemma autoWrite_options_not_sources :
  forallb (fun kt => negb (String.eqb "useCustomSources" (fst kt)) &&
                     negb (String.eqb "customSources" (fst kt))) autoWrite_options = true.
Proof. vm_compute. reflexivity. Qed.

Lemma sourcesInstruction_agree (k : string) (f f' : Form) (t : Template) :
  agree_except k f f' -> reads k t = false ->
  String.eqb "useCustomSources" k = false -> String.eqb "customSources" k = false ->
  sourcesInstruction t f = sourcesInstruction t f'.
Proof.
  intros H R E1 E2. unfold sourcesInstruction, trimmed.
  rewrite (flag_agree k _ f f' H E1).
  rewrite (H "customSources") by now apply String.eqb_neq.
  now rewrite (render_agree k f f' [] t H R).
Qed.

(** C6, as the code has it.  For each of the 73 options that the template
    of the section prompt tests with a fixed fragment, the prompt is a text
    before, the fragment when the flag is set and nothing when it is not,
    and a text after; the texts before and after are the same for two forms
    that differ on this flag only.  So the fragment stands at its place
    exactly when its flag is set, the order of the fragments is fixed, and
    toggling a flag changes no other part; a set flag's fragment occurs in
    the prompt. *)
Theorem autoWrite_option_fragment (k text : string) :
  In (k, text) autoWrite_options ->
  exists pre post : Form -> string -> string -> string,
    (forall f section_title previousContext,
        autoWrite_prompt f section_title previousContext =
          pre f section_title previousContext ++
          (if flag f k then text else "") ++
          post f section_title previousContext) /\
    (forall f f' section_title previousContext,
        agree_except k f f' ->
        pre f section_title previousContext = pre f' section_title previousContext /\
        post f section_title previousContext = post f' section_title previousContext) /\
    (forall f section_title previousContext,
        flag f k = true ->
        occurs text (autoWrite_prompt f section_title previousContext) = true).
Proof.
  intros Hin.
  destruct (isolated_split k text autoWrite_template [] autoWrite_template_isolated Hin)
    as (l1 & l2 & E & _ & R1 & R2).
  pose proof autoWrite_options_not_sources as Hs.
  rewrite forallb_forall in Hs. specialize (Hs (k, text) Hin). cbn [fst] in Hs.
  apply andb_prop in Hs as [Hs1 Hs2]. apply negb_true_iff in Hs1, Hs2.
  assert (reads k autoWrite_sources = false) as Rs.
  { unfold reads, autoWrite_sources. cbn [existsb piece_reads]. now rewrite Hs2. }
  exists (fun f t c => render f [sourcesInstruction autoWrite_sources f; t; c] l1),
         (fun f t c => render f [sourcesInstruction autoWrite_sources f; t; c] l2).
  assert (forall f t c,
             autoWrite_prompt f t c =
             render f [sourcesInstruction autoWrite_sources f; t; c] l1 ++
             (if flag f k then text else "") ++
             render f [sourcesInstruction autoWrite_sources f; t; c] l2) as Hsplit.
  { intros f t c. unfold autoWrite_prompt. rewrite E, render_app. reflexivity. }
  split; [exact Hsplit | split].
  - intros f f' t c Ha.
    rewrite (sourcesInstruction_agree k f f' autoWrite_sources Ha Rs Hs1 Hs2).
    split; now apply render_agree with (k := k).
  - intros f t c Hf. rewrite Hsplit, Hf. apply occurs_inside.
Qed.

Lemma autoWrite_option_fragment_witness :
  exists pre post : Form -> string -> string -> string,
    (forall f section_title previousContext,
        autoWrite_prompt f section_title previousContext =
          pre f section_title previousContext ++
          (if flag f "dataFocus"
           then "٧. تکایە پشت بە ئامار و داتای زانستی و ڕاستەقینە ببەستە." else "") ++
          post f section_title previousContext) /\
    (forall f f' section_title previousContext,
        agree_except "dataFocus" f f' ->
        pre f section_title previousContext = pre f' section_title previousContext /\
        post f section_title previousContext = post f' section_title previousContext) /\
    (forall f section_title previousContext,
        flag f "dataFocus" = true ->
        occurs "٧. تکایە پشت بە ئامار و داتای زانستی و ڕاستەقینە ببەستە."
               (autoWrite_prompt f section_title previousContext) = true).
Proof.
  apply (autoWrite_option_fragment "dataFocus"
           "٧. تکایە پشت بە ئامار و داتای زانستی و ڕاستەقینە ببەستە.").
  vm_compute. tauto.
Defined.

(** C6, as it is stated, fails.  The fragment of [dialectic] occurs in the
    prompt of a form whose flag is not set, when the title holds that text;
    and [blindPeerReview], a flag of the form, puts nothing in the prompt
    when it is set. *)
Lemma autoWrite_fragment_without_flag :
  exists text : string,
    In ("dialectic", text) autoWrite_options /\
    flag form_titled_as_fragment "dialectic" = false /\
    occurs text (autoWrite_prompt form_titled_as_fragment "" "") = true /\
    flag (form_set "blindPeerReview" (VBool true) initialForm) "blindPeerReview" = true /\
    autoWrite_prompt (form_set "blindPeerReview" (VBool true) initialForm) "" "" =
      autoWrite_prompt initialForm "" "".
Proof.
  exists "٤. تکایە شێوازی (تێز، دژەتێز، سێنتێز) بەکاربهێنە لە شیکارییەکانتدا.".
  split; [vm_compute; tauto|]. vm_compute. repeat split; reflexivity.
Qed.

(* ------------------------------------------------------------------ *)
(** ** Streams written into a section *)

Lemma set_sections_twice (l l' : list BookSection) (st : State) :
  set_sections l (set_sections l' st) = set_sections l st.
Proof. reflexivity. Qed.

Lemma stream_into_spec (i : nat) (cs : list (option string)) (full : string) (st : State) :
  stream_into i cs full st =
  (fold_left (fun acc c => acc ++ chunk_text c) cs full,
   match cs with
   | [] => st
   | _ :: _ =>
       set_sections
         (alter (set_content (fold_left (fun acc c => acc ++ chunk_text c) cs full))
                i (sections st)) st
   end).
Proof.
  revert full st. induction cs as [|c r IH]; intros full st; [reflexivity|].
  cbn [stream_into fold_left]. rewrite IH. f_equal.
  destruct r as [|c' r]; [reflexivity|].
  rewrite set_sections_twice. f_equal.
  change (sections (set_sections ?l _)) with l.
  rewrite list_alter_alter_eq. now apply list_alter_ext.
Qed.

Lemma stream_into_streamed (i : nat) (a : StreamAnswer) (st : State) (l : list BookSection) :
  set_sections l (snd (stream_into i (chunks a) "" st)) = set_sections l st.
Proof. rewrite stream_into_spec. cbn [snd]. now destruct (chunks a). Qed.

Lemma stream_into_sections (i : nat) (a : StreamAnswer) (st : State) :
  sections (snd (stream_into i (chunks a) "" st)) = streamed i a (sections st).
Proof.
  rewrite stream_into_spec. cbn [snd]. unfold streamed, stream_text.
  now destruct (chunks a).
Qed.

Lemma stream_into_text (i : nat) (a : StreamAnswer) (st : State) :
  fst (stream_into i (chunks a) "" st) = stream_text a.
Proof. now rewrite stream_into_spec. Qed.

Lemma streamed_length i a l : length (streamed i a l) = length l.
Proof. unfold streamed. destruct (chunks a); [reflexivity | apply length_alter]. Qed.

Lemma streamed_lookup_ne i j a l : i <> j -> streamed i a l !! j = l !! j.
Proof.
  intros H. unfold streamed. destruct (chunks a); [reflexivity|].
  now apply list_lookup_alter_ne.
Qed.

Lemma alter_keeps {B : Type} (g : BookSection -> B) (f : BookSection -> BookSection)
    (i : nat) (l : list BookSection) :
  (forall x, g (f x) = g x) -> map g (alter f i l) = map g l.
Proof.
  intros H. revert i. induction l as [|x l IH]; intros [|i]; cbn; try reflexivity.
  - now rewrite H.
  - f_equal. apply IH.
Qed.

Lemma streamed_keeps {B : Type} (g : BookSection -> B) i a l :
  (forall c x, g (set_content c x) = g x) -> map g (streamed i a l) = map g l.
Proof.
  intros H. unfold streamed. destruct (chunks a); [reflexivity|].
  apply alter_keeps. intros x. apply H.
Qed.

(* ------------------------------------------------------------------ *)
(** ** [autoWrite], step by step *)

Lemma autoWrite_next_some form sources i ctx st x :
  sections st !! i = Some x ->
  autoWrite_next form sources i ctx st =
  (send (GenerateContentStream i (render form [sources; title x; ctx] autoWrite_template))
        (set_activeSectionId (Some (id x))
           (set_sections (alter (set_status Generating) i (sections st)) st)),
   [AwaitWrite form sources i (title x)]).
Proof. intros H. unfold autoWrite_next. now rewrite H. Qed.

Lemma autoWrite_resume_ok form sources i t a st :
  i < length (sections st) -> throws a = false ->
  autoWrite_resume form sources i t a st =
  autoWrite_next form sources (S i) (slice_last 500 (stream_text a))
    (set_sections (alter (set_status Done) i (streamed i a (sections st))) st).
Proof.
  intros Hi Ha. unfold autoWrite_resume.
  destruct (lookup_lt_is_Some_2 _ _ Hi) as [x ->].
  destruct (stream_into i (chunks a) "" st) as [full st1] eqn:E.
  pose proof (stream_into_text i a st) as E1.
  pose proof (stream_into_sections i a st) as E2.
  pose proof (stream_into_streamed i a st) as E3.
  rewrite E in E1, E2, E3. cbn [fst snd] in *.
  now rewrite Ha, E1, E2, E3.
Qed.

Lemma autoWrite_resume_throws form sources i t a st :
  i < length (sections st) -> throws a = true ->
  autoWrite_resume form sources i t a st =
  (set_isGeneratingGlobal false
     (set_sections (alter (set_status Pending) i (streamed i a (sections st)))
        (set_globalError (render [] [t] msg_autoWrite) st)), []).
Proof.
  intros Hi Ha. unfold autoWrite_resume.
  destruct (lookup_lt_is_Some_2 _ _ Hi) as [x ->].
  destruct (stream_into i (chunks a) "" st) as [full st1] eqn:E.
  pose proof (stream_into_sections i a st) as E2.
  pose proof (stream_into_streamed i a st) as E3.
  rewrite E in E2, E3. cbn [fst snd] in *.
  rewrite Ha. f_equal. f_equal.
  change (sections (set_globalError ?m ?s)) with (sections s). rewrite E2.
  change (set_sections ?l (set_globalError ?m ?s)) with (set_globalError m (set_sections l s)).
  now rewrite E3.
Qed.

Lemma lookup_keeps {B : Type} (g : BookSection -> B) (l l' : list BookSection)
    (j : nat) (x x' : BookSection) :
  map g l' = map g l -> l !! j = Some x -> l' !! j = Some x' -> g x' = g x.
Proof.
  intros E H H'. apply (f_equal (fun m => m !! j)) in E.
  rewrite !list_lookup_fmap, H, H' in E. now injection E.
Qed.

(** The run of [autoWrite] from the moment the request for the section of
    index [i] is out, when the next [length oks] streams end well and the one
    after them throws. *)
Lemma autoWrite_settle_failure (bad : StreamAnswer) (later : list Answer) :
  throws bad = true ->
  forall (oks : list StreamAnswer) (form : Form) (sources : string) (i : nat)
         (t : string) (stA : State),
    Forall (fun a => throws a = false) oks ->
    i + length oks < length (sections stA) ->
    exists (st' : State) (new : list Call),
      settle (map Stream oks ++ Stream bad :: later)%list stA [AwaitWrite form sources i t]
        = Some st' /\
      length (sections st') = length (sections stA) /\
      map id (sections st') = map id (sections stA) /\
      map title (sections st') = map title (sections stA) /\
      (forall j, i + length oks < j -> sections st' !! j = sections stA !! j) /\
      (forall j, j < i -> sections st' !! j = sections stA !! j) /\
      (forall j x, i <= j < i + length oks -> sections st' !! j = Some x -> status x = Done) /\
      (forall x, sections st' !! (i + length oks) = Some x -> status x = Pending) /\
      calls st' = (calls stA ++ new)%list /\
      map call_section new = map Some (seq (S i) (length oks)) /\
      isGeneratingGlobal st' = false.
Proof.
  intros Hbad. induction oks as [|a oks IH]; intros form sources i t stA Hok Hlen.
  - cbn [length] in *. rewrite Nat.add_0_r in *.
    cbn [map app settle resume]. rewrite autoWrite_resume_throws by assumption.
    cbn [flushed app]. eexists. exists []. split; [destruct later; reflexivity|].
    rewrite !flush_sections, flush_calls, flush_isGeneratingGlobal.
    cbn [sections calls isGeneratingGlobal set_isGeneratingGlobal set_sections
         set_globalError].
    repeat split.
    + now rewrite length_alter, streamed_length.
    + rewrite alter_keeps by reflexivity. now apply streamed_keeps.
    + rewrite alter_keeps by reflexivity. now apply streamed_keeps.
    + intros j Hj. rewrite list_lookup_alter_ne, streamed_lookup_ne by lia. reflexivity.
    + intros j Hj. rewrite list_lookup_alter_ne, streamed_lookup_ne by lia. reflexivity.
    + intros j x Hj. lia.
    + intros x. rewrite list_lookup_alter_eq.
      destruct (streamed i bad (sections stA) !! i); cbn; [|discriminate].
      intros E. injection E as <-. reflexivity.
    + now rewrite app_nil_r.
  - cbn [length] in Hlen. apply Forall_cons in Hok as [Ha Hok].
    cbn [map app settle resume].
    rewrite autoWrite_resume_ok by (assumption || lia).
    set (stB := set_sections (alter (set_status Done) i (streamed i a (sections stA))) stA).
    assert (S i < length (sections stB)) as HSi
      by (unfold stB; cbn [sections set_sections];
          rewrite length_alter, streamed_length; lia).
    destruct (lookup_lt_is_Some_2 _ _ HSi) as [y Hy].
    rewrite (autoWrite_next_some _ _ _ _ _ _ Hy).
    cbn [flushed app].
    set (stC := flush _).
    assert (sections stC = alter (set_status Generating) (S i)
                             (alter (set_status Done) i (streamed i a (sections stA))))
      as HC by (unfold stC; rewrite flush_sections; reflexivity).
    assert (calls stC = (calls stA ++ [GenerateContentStream (S i)
              (render form [sources; title y; slice_last 500 (stream_text a)]
                      autoWrite_template)])%list)
      as HcC by (unfold stC; rewrite flush_calls; reflexivity).
    destruct (IH form sources (S i) (title y) stC Hok)
      as (st' & new & Hs & Hl & Hid & Hti & Hgt & Hlt & Hdone & Hpend & Hcalls & Hsec & Hflag).
    { rewrite HC, !length_alter, streamed_length. lia. }
    exists st', (GenerateContentStream (S i)
                   (render form [sources; title y; slice_last 500 (stream_text a)]
                           autoWrite_template) :: new).
    split; [exact Hs|].
    rewrite HC in *. rewrite !length_alter, streamed_length in Hl.
    rewrite !alter_keeps in Hid by reflexivity.
    rewrite !alter_keeps in Hti by reflexivity.
    rewrite streamed_keeps in Hid by reflexivity.
    rewrite streamed_keeps in Hti by reflexivity.
    cbn [length]. replace (i + S (length oks)) with (S i + length oks) by lia.
    repeat split; try assumption.
    + intros j Hj. rewrite Hgt by lia.
      rewrite !list_lookup_alter_ne, streamed_lookup_ne by lia. reflexivity.
    + intros j Hj. rewrite Hlt by lia.
      rewrite !list_lookup_alter_ne, streamed_lookup_ne by lia. reflexivity.
    + intros j x Hj Hx. destruct (decide (j = i)) as [->|Hne].
      * rewrite Hlt in Hx by lia.
        rewrite list_lookup_alter_ne, list_lookup_alter_eq in Hx by lia.
        destruct (streamed i a (sections stA) !! i); cbn in Hx; [|discriminate].
        injection Hx as <-. reflexivity.
      * apply (Hdone j x); [lia | exact Hx].
    + rewrite Hcalls, HcC, <- app_assoc. reflexivity.
    + cbn [map call_section seq]. now rewrite Hsec.
Qed.

(** C1.  [autoWrite] is started when no generation runs, on a form whose
    test of the custom sources does not throw, so that the calls are made.
    When the generation call for a section fails, after the calls for the
    sections before it ended well, [autoWrite] returns with the failing
    section in the state pending, its id and title as they were; the
    sections after it are as they were, the sections before it are done;
    the requests sent are those for the sections up to the failing one, in
    order, and none for a later section. *)
Theorem autoWrite_failure_halts
    (st : State) (oks : list StreamAnswer) (bad : StreamAnswer) (later : list Answer) :
  isGeneratingGlobal st = false ->
  sources_throw (advancedForm st) = false ->
  Forall (fun a => throws a = false) oks ->
  throws bad = true ->
  length oks < length (sections st) ->
  exists st' : State,
    act OpAutoWrite (map Stream oks ++ Stream bad :: later)%list st = Some st' /\
    length (sections st') = length (sections st) /\
    (exists x x', sections st !! length oks = Some x /\
                  sections st' !! length oks = Some x' /\
                  status x' = Pending /\ id x' = id x /\ title x' = title x) /\
    (forall j, length oks < j -> sections st' !! j = sections st !! j) /\
    (forall j x, j < length oks -> sections st' !! j = Some x -> status x = Done) /\
    map call_section (calls_since st st') = map Some (seq 0 (S (length oks))) /\
    isGeneratingGlobal st' = false.
Proof.
  intros Hflag _ Hok Hbad Hlen.
  assert (0 < length (sections st)) as H0 by lia.
  destruct (lookup_lt_is_Some_2 _ _ H0) as [x0 Hx0].
  unfold act, begin, autoWrite_begin. rewrite Hflag.
  rewrite (autoWrite_next_some _ _ _ _ _ x0) by exact Hx0.
  cbn [flushed].
  set (stC := flush _).
  assert (sections stC = alter (set_status Generating) 0 (sections st)) as HC
    by (unfold stC; rewrite flush_sections; reflexivity).
  assert (exists c, calls stC = (calls st ++ [c])%list /\ call_section c = Some 0)
    as (c0 & HcC & Hc0)
    by (eexists; split; [unfold stC; rewrite flush_calls; reflexivity | reflexivity]).
  destruct (autoWrite_settle_failure bad later Hbad oks
              (advancedForm (set_globalError "" (set_isGeneratingGlobal true st)))
              (sourcesInstruction autoWrite_sources
                 (advancedForm (set_globalError "" (set_isGeneratingGlobal true st))))
              0 (title x0) stC Hok)
    as (st' & new & Hs & Hl & Hid & Hti & Hgt & _ & Hdone & Hpend & Hcalls & Hsec & Hfl).
  { rewrite HC, length_alter. cbn. lia. }
  cbn [Nat.add] in *.
  rewrite HC in *. rewrite length_alter in Hl.
  rewrite alter_keeps in Hid by reflexivity.
  rewrite alter_keeps in Hti by reflexivity.
  exists st'. split; [exact Hs|]. split; [exact Hl|].
  split; [|split; [|split; [|split]]].
  - destruct (lookup_lt_is_Some_2 (sections st) (length oks) Hlen) as [x Hx].
    destruct (lookup_lt_is_Some_2 (sections st') (length oks) ltac:(lia)) as [x' Hx'].
    exists x, x'. repeat split; try assumption.
    + now apply Hpend.
    + exact (lookup_keeps id _ _ _ _ _ Hid Hx Hx').
    + exact (lookup_keeps title _ _ _ _ _ Hti Hx Hx').
  - intros j Hj. rewrite Hgt by lia. now rewrite list_lookup_alter_ne by lia.
  - intros j x Hj. apply Hdone. lia.
  - unfold calls_since. rewrite Hcalls, HcC, <- app_assoc, drop_app_length.
    cbn [app map seq]. now rewrite Hc0, Hsec.
  - exact Hfl.
Qed.

Lemma autoWrite_failure_halts_witness :
  exists st' : State,
    act OpAutoWrite
        (map Stream [mkStream [Some "a"] false] ++ Stream (mkStream [] true) :: [])%list
        two_new_sections = Some st' /\
    length (sections st') = length (sections two_new_sections) /\
    (exists x x', sections two_new_sections !! length [mkStream [Some "a"] false] = Some x /\
                  sections st' !! length [mkStream [Some "a"] false] = Some x' /\
                  status x' = Pending /\ id x' = id x /\ title x' = title x) /\
    (forall j, length [mkStream [Some "a"] false] < j ->
               sections st' !! j = sections two_new_sections !! j) /\
    (forall j x, j < length [mkStream [Some "a"] false] ->
                 sections st' !! j = Some x -> status x = Done) /\
    map call_section (calls_since two_new_sections st') =
      map Some (seq 0 (S (length [mkStream [Some "a"] false]))) /\
    isGeneratingGlobal st' = false.
Proof.
  apply (autoWrite_failure_halts two_new_sections [mkStream [Some "a"] false]
           (mkStream [] true) []).
  - reflexivity.
  - reflexivity.
  - repeat constructor.
  - reflexivity.
  - vm_compute. lia.
Defined.

(* ------------------------------------------------------------------ *)
(** ** [autoHumanize], step by step *)

Lemma autoHumanize_next_spec (sources : string) (fuel i : nat) (st : State) :
  autoHumanize_next sources fuel i st = (set_isGeneratingGlobal false st, []) \/
  exists i' x,
    i <= i' /\ sections st !! i' = Some x /\ nonempty (content x) = true /\
    autoHumanize_next sources fuel i st =
      (send (GenerateContentStream i'
               (render (advancedForm st) [sources; content x] autoHumanize_template))
            (set_activeSectionId (Some (id x))
               (set_sections (alter (set_status Humanizing) i' (sections st)) st)),
       [AwaitHumanize sources i' (title x)]).
Proof.
  revert i. induction fuel as [|fuel IH]; intros i; [now left|].
  cbn [autoHumanize_next].
  destruct (sections st !! i) as [x|] eqn:Hx; [|now left].
  destruct (nonempty (content x)) eqn:Hc.
  - right. exists i, x. repeat split; try assumption. lia.
  - destruct (IH (S i)) as [E | (i' & x' & Hi & Hx' & Hc' & E)]; [now left|].
    right. exists i', x'. repeat split; try assumption. lia.
Qed.

Lemma autoHumanize_resume_ok sources i t a st :
  i < length (sections st) -> throws a = false ->
  autoHumanize_resume sources i t a st =
  autoHumanize_next sources (length (sections st) - S i) (S i)
    (set_sections (alter (set_status Done) i (streamed i a (sections st))) st).
Proof.
  intros Hi Ha. unfold autoHumanize_resume.
  destruct (lookup_lt_is_Some_2 _ _ Hi) as [x ->].
  destruct (stream_into i (chunks a) "" st) as [full st1] eqn:E.
  pose proof (stream_into_sections i a st) as E2.
  pose proof (stream_into_streamed i a st) as E3.
  rewrite E in E2, E3. cbn [fst snd] in *.
  rewrite Ha, E2, E3. cbn [sections set_sections].
  now rewrite length_alter, streamed_length.
Qed.

Lemma autoHumanize_resume_throws sources i t a st :
  i < length (sections st) -> throws a = true ->
  exists st1,
    autoHumanize_resume sources i t a st = (st1, []) /\
    sections st1 = streamed i a (sections st) /\
    calls st1 = calls st /\ isGeneratingGlobal st1 = false.
Proof.
  intros Hi Ha. unfold autoHumanize_resume.
  destruct (lookup_lt_is_Some_2 _ _ Hi) as [x ->].
  destruct (stream_into i (chunks a) "" st) as [full st1] eqn:E.
  pose proof (stream_into_sections i a st) as E2.
  rewrite E in E2. cbn [fst snd] in *. rewrite Ha.
  eexists. split; [reflexivity|]. cbn. split; [exact E2|].
  split; [|reflexivity].
  pose proof (stream_into_spec i (chunks a) "" st) as S. rewrite E in S.
  injection S as _ ->. now destruct (chunks a).
Qed.

(** The run of [autoHumanize] from the moment the request for the section
    of index [i] is out, with an answer for every section left. *)
Lemma autoHumanize_settle :
  forall (answers : list StreamAnswer) (sources : string) (i : nat) (t : string)
         (stA : State),
    i < length (sections stA) ->
    length (sections stA) - i <= length answers ->
    exists (st' : State) (new : list Call),
      settle (map Stream answers) stA [AwaitHumanize sources i t] = Some st' /\
      (forall j x, j <> i -> sections stA !! j = Some x -> content x = "" ->
                   sections st' !! j = Some x) /\
      calls st' = (calls stA ++ new)%list /\
      (forall c, In c new ->
                 exists j x, call_section c = Some j /\ i < j /\
                             sections stA !! j = Some x /\ content x <> "") /\
      isGeneratingGlobal st' = false.
Proof.
  induction answers as [|a answers IH]; intros sources i t stA Hi Hlen.
  { cbn [length] in Hlen. lia. }
  cbn [map settle resume]. destruct (throws a) eqn:Ha.
  - destruct (autoHumanize_resume_throws sources i t a stA Hi Ha)
      as (st1 & -> & Hsec & Hcalls & Hflag).
    cbn [flushed app]. exists (flush st1), [].
    split; [destruct answers; reflexivity|].
    rewrite flush_sections, flush_calls, flush_isGeneratingGlobal, Hsec, Hcalls.
    repeat split; try assumption.
    + intros j x Hj Hx _. now rewrite streamed_lookup_ne by congruence.
    + now rewrite app_nil_r.
    + intros c [].
  - rewrite autoHumanize_resume_ok by assumption.
    set (stB := set_sections (alter (set_status Done) i (streamed i a (sections stA))) stA).
    assert (forall j, j <> i -> sections stB !! j = sections stA !! j) as HB.
    { intros j Hj. unfold stB. cbn [sections set_sections].
      rewrite list_lookup_alter_ne, streamed_lookup_ne by congruence. reflexivity. }
    destruct (autoHumanize_next_spec sources (length (sections stA) - S i) (S i) stB)
      as [-> | (i' & x' & Hi' & Hx' & Hc' & ->)].
    + cbn [flushed app]. eexists. exists [].
      split; [destruct answers; reflexivity|].
      rewrite flush_sections, flush_calls, flush_isGeneratingGlobal.
      cbn [sections calls isGeneratingGlobal set_isGeneratingGlobal].
      repeat split.
      * intros j x Hj Hx _. now rewrite HB.
      * now rewrite app_nil_r.
      * intros c [].
    + cbn [flushed app].
      set (stC := flush _).
      assert (sections stC = alter (set_status Humanizing) i' (sections stB)) as HC
        by (unfold stC; rewrite flush_sections; reflexivity).
      assert (exists c, calls stC = (calls stA ++ [c])%list /\ call_section c = Some i')
        as (c0 & HcC & Hc0)
        by (eexists; split; [unfold stC; rewrite flush_calls; reflexivity | reflexivity]).
      assert (i' < length (sections stB)) as Hlt by (eapply lookup_lt_Some; eauto).
      assert (length (sections stB) = length (sections stA)) as HlB
        by (unfold stB; cbn [sections set_sections];
            now rewrite length_alter, streamed_length).
      destruct (IH sources i' (title x') stC)
        as (st' & new & Hs & Hkeep & Hcalls & Hnew & Hflag).
      { rewrite HC, length_alter. exact Hlt. }
      { rewrite HC, length_alter, HlB. cbn [length] in Hlen. lia. }
      exists st', (c0 :: new). split; [exact Hs|].
      assert (sections stA !! i' = Some x') as HxA by (rewrite <- HB by lia; exact Hx').
      repeat split; try assumption.
      * intros j x Hj Hx Hc.
        assert (j <> i') as Hne.
        { intros ->. rewrite HxA in Hx. injection Hx as ->.
          rewrite Hc in Hc'. discriminate. }
        apply Hkeep; [exact Hne | | exact Hc].
        rewrite HC, list_lookup_alter_ne, HB by congruence. exact Hx.
      * rewrite Hcalls, HcC, <- app_assoc. reflexivity.
      * intros c [<- | Hin].
        -- exists i', x'. repeat split; try assumption; try lia.
           intros E. rewrite E in Hc'. discriminate.
        -- destruct (Hnew c Hin) as (j & x & Hj & Hij & Hx & Hc).
           exists j, x. repeat split; try assumption; try lia.
           rewrite HC, list_lookup_alter_ne, HB in Hx by lia. exact Hx.
Qed.

(** C10.  [autoHumanize], given an answer for every section, returns; every
    section whose content is empty is then as it was (the same id, title,
    content and status) and no request was sent for it: every request sent
    is for a section whose content was not empty. *)
Theorem autoHumanize_skips_empty (st : State) (answers : list StreamAnswer) :
  length (sections st) <= length answers ->
  exists st' : State,
    act OpAutoHumanize (map Stream answers) st = Some st' /\
    (forall j x, sections st !! j = Some x -> content x = "" ->
                 sections st' !! j = Some x /\
                 ~ In (Some j) (map call_section (calls_since st st'))) /\
    (forall c, In c (calls_since st st') ->
               exists j x, call_section c = Some j /\
                           sections st !! j = Some x /\ content x <> "").
Proof.
  intros Hlen. unfold act, begin, autoHumanize_begin.
  assert (forall st' : State,
             (forall j x, sections st !! j = Some x -> content x = "" ->
                          sections st' !! j = Some x) ->
             (forall c, In c (calls_since st st') ->
                        exists j x, call_section c = Some j /\
                                    sections st !! j = Some x /\ content x <> "") ->
             (forall j x, sections st !! j = Some x -> content x = "" ->
                          sections st' !! j = Some x /\
                          ~ In (Some j) (map call_section (calls_since st st'))) /\
             (forall c, In c (calls_since st st') ->
                        exists j x, call_section c = Some j /\
                                    sections st !! j = Some x /\ content x <> ""))
    as Hfinish.
  { intros st' H1 H2. split; [|exact H2].
    intros j x Hx Hc. split; [now apply H1|].
    intros Hin. apply in_map_iff in Hin as (c & Hcs & Hin).
    destruct (H2 c Hin) as (j' & x' & Hj' & Hx' & Hc').
    rewrite Hj' in Hcs. injection Hcs as ->. rewrite Hx in Hx'. injection Hx' as ->.
    contradiction. }
  destruct (isGeneratingGlobal st) eqn:Hflag.
  { cbn [flushed settle]. exists (flush st). split; [destruct answers; reflexivity|].
    apply Hfinish.
    - intros j x Hx _. now rewrite flush_sections.
    - unfold calls_since. rewrite flush_calls, drop_all. intros c []. }
  set (st1 := set_isGeneratingGlobal true st).
  destruct (autoHumanize_next_spec
              (sourcesInstruction autoHumanize_sources (advancedForm st1))
              (length (sections st1)) 0 st1)
    as [-> | (i' & x' & _ & Hx' & Hc' & ->)].
  - cbn [flushed settle]. eexists. split; [destruct answers; reflexivity|].
    apply Hfinish.
    + intros j x Hx _. now rewrite flush_sections.
    + unfold calls_since. rewrite flush_calls. cbn [calls set_isGeneratingGlobal].
      rewrite drop_all. intros c [].
  - cbn [flushed].
    set (stC := flush _).
    assert (sections stC = alter (set_status Humanizing) i' (sections st)) as HC
      by (unfold stC; rewrite flush_sections; reflexivity).
    assert (exists c, calls stC = (calls st ++ [c])%list /\ call_section c = Some i')
      as (c0 & HcC & Hc0)
      by (eexists; split; [unfold stC; rewrite flush_calls; reflexivity | reflexivity]).
    change (sections st1) with (sections st) in Hx'.
    assert (i' < length (sections st)) as Hlt by (eapply lookup_lt_Some; eauto).
    destruct (autoHumanize_settle answers
                (sourcesInstruction autoHumanize_sources (advancedForm st1))
                i' (title x') stC)
      as (st' & new & Hs & Hkeep & Hcalls & Hnew & _).
    { rewrite HC, length_alter. exact Hlt. }
    { rewrite HC, length_alter. lia. }
    exists st'. split; [exact Hs|]. apply Hfinish.
    + intros j x Hx Hc.
      assert (j <> i') as Hne.
      { intros ->. rewrite Hx' in Hx. injection Hx as ->.
        rewrite Hc in Hc'. discriminate. }
      apply Hkeep; [exact Hne | | exact Hc].
      rewrite HC, list_lookup_alter_ne by congruence. exact Hx.
    + unfold calls_since. rewrite Hcalls, HcC, <- app_assoc, drop_app_length.
      intros c [<- | Hin].
      * exists i', x'. repeat split; try assumption.
        intros E. rewrite E in Hc'. discriminate.
      * destruct (Hnew c Hin) as (j & x & Hj & Hij & Hx & Hc).
        exists j, x. repeat split; try assumption.
        rewrite HC, list_lookup_alter_ne in Hx by lia. exact Hx.
Qed.

Lemma autoHumanize_skips_empty_witness :
  exists st' : State,
    act OpAutoHumanize (map Stream [mkStream [Some "new"] false; mkStream [] false])
        half_written = Some st' /\
    (forall j x, sections half_written !! j = Some x -> content x = "" ->
                 sections st' !! j = Some x /\
                 ~ In (Some j) (map call_section (calls_since half_written st'))) /\
    (forall c, In c (calls_since half_written st') ->
               exists j x, call_section c = Some j /\
                           sections half_written !! j = Some x /\ content x <> "").
Proof.
  apply (autoHumanize_skips_empty half_written
           [mkStream [Some "new"] false; mkStream [] false]).
  vm_compute. lia.
Defined.

(* ------------------------------------------------------------------ *)
(** ** The prompts of a run of [autoWrite] *)

Lemma settle_nil (answers : list Answer) (st : State) : settle answers st [] = Some st.
Proof. now destruct answers. Qed.

(** The requests of a run from the moment the request for the section of
    index [i] is out: the n-th one is for the section of index [i + 1 + n],
    built from the form, the title of that section and the end of the n-th
    stream. *)
Lemma autoWrite_settle_prompts :
  forall (answers : list StreamAnswer) (form : Form) (sources : string) (i : nat)
         (t : string) (stA st' : State),
    i < length (sections stA) ->
    settle (map Stream answers) stA [AwaitWrite form sources i t] = Some st' ->
    exists new : list Call,
      calls st' = (calls stA ++ new)%list /\
      forall n c, new !! n = Some c ->
        exists x a,
          sections stA !! (S i + n) = Some x /\ answers !! n = Some a /\
          c = GenerateContentStream (S i + n)
                (render form [sources; title x; slice_last 500 (stream_text a)]
                        autoWrite_template).
Proof.
  induction answers as [|a answers IH]; intros form sources i t stA st' Hi Hs.
  { discriminate. }
  cbn [map settle resume] in Hs. destruct (throws a) eqn:Ha.
  - rewrite autoWrite_resume_throws in Hs by assumption. cbn [flushed app] in Hs.
    assert (st' = flush
              (set_isGeneratingGlobal false
                 (set_sections (alter (set_status Pending) i (streamed i a (sections stA)))
                    (set_globalError (render [] [t] msg_autoWrite) stA)))) as ->
      by (rewrite settle_nil in Hs; now injection Hs).
    exists []. rewrite flush_calls. cbn [calls set_isGeneratingGlobal set_sections
                                         set_globalError].
    split; [now rewrite app_nil_r|]. intros n c Hn. discriminate.
  - rewrite autoWrite_resume_ok in Hs by assumption.
    set (stB := set_sections (alter (set_status Done) i (streamed i a (sections stA))) stA)
      in Hs.
    assert (forall j, j <> i -> sections stB !! j = sections stA !! j) as HB.
    { intros j Hj. unfold stB. cbn [sections set_sections].
      rewrite list_lookup_alter_ne, streamed_lookup_ne by congruence. reflexivity. }
    destruct (sections stB !! S i) as [y|] eqn:Hy.
    + rewrite (autoWrite_next_some _ _ _ _ _ _ Hy) in Hs. cbn [flushed app] in Hs.
      set (stC := flush _) in Hs.
      assert (sections stC = alter (set_status Generating) (S i) (sections stB)) as HC
        by (unfold stC; rewrite flush_sections; reflexivity).
      assert (calls stC = (calls stA ++ [GenerateContentStream (S i)
                (render form [sources; title y; slice_last 500 (stream_text a)]
                        autoWrite_template)])%list)
        as HcC by (unfold stC; rewrite flush_calls; reflexivity).
      assert (S i < length (sections stB)) as Hlt by (eapply lookup_lt_Some; eauto).
      destruct (IH form sources (S i) (title y) stC st') as (new & Hcalls & Hnew);
        [rewrite HC, length_alter; exact Hlt | exact Hs |].
      eexists (_ :: new). split; [rewrite Hcalls, HcC, <- app_assoc; reflexivity|].
      intros [|n] c Hn.
      * cbn in Hn. injection Hn as <-. exists y, a.
        rewrite Nat.add_0_r, <- HB by lia. repeat split; assumption.
      * cbn [lookup list_lookup] in Hn.
        destruct (Hnew n c Hn) as (x & a' & Hx & Ha' & ->).
        exists x, a'. replace (S i + S n) with (S (S i) + n) by lia.
        repeat split; try assumption.
        rewrite HC, list_lookup_alter_ne, HB in Hx by lia. exact Hx.
    + unfold autoWrite_next in Hs. rewrite Hy in Hs. cbn [flushed app] in Hs.
      assert (st' = flush (set_isGeneratingGlobal false stB)) as ->
        by (rewrite settle_nil in Hs; now injection Hs).
      exists []. rewrite flush_calls. cbn [calls set_isGeneratingGlobal set_sections stB].
      split; [now rewrite app_nil_r|]. intros n c Hn. discriminate.
Qed.

(** Every request of a run of [autoWrite] carries the prompt assembled from
    the form, the title of its section and the context left by the stream
    before it. *)
Lemma autoWrite_prompts (st st' : State) (answers : list StreamAnswer) :
  isGeneratingGlobal st = false ->
  act OpAutoWrite (map Stream answers) st = Some st' ->
  forall j c, calls_since st st' !! j = Some c ->
    exists x, sections st !! j = Some x /\
              c = GenerateContentStream j
                    (autoWrite_prompt (advancedForm st) (title x)
                                      (previous_context answers j)).
Proof.
  intros Hflag Hact. unfold act, begin, autoWrite_begin in Hact. rewrite Hflag in Hact.
  destruct (sections st !! 0) as [x0|] eqn:Hx0.
  - rewrite (autoWrite_next_some _ _ _ _ _ x0) in Hact by exact Hx0.
    cbn [flushed] in Hact. set (stC := flush _) in Hact.
    assert (sections stC = alter (set_status Generating) 0 (sections st)) as HC
      by (unfold stC; rewrite flush_sections; reflexivity).
    assert (calls stC = (calls st ++ [GenerateContentStream 0
              (autoWrite_prompt (advancedForm st) (title x0) "")])%list)
      as HcC by (unfold stC; rewrite flush_calls; reflexivity).
    assert (0 < length (sections st)) as Hlt by (eapply lookup_lt_Some; eauto).
    destruct (autoWrite_settle_prompts answers _ _ 0 _ stC st'
                ltac:(rewrite HC, length_alter; exact Hlt) Hact)
      as (new & Hcalls & Hnew).
    unfold calls_since. rewrite Hcalls, HcC, <- app_assoc, drop_app_length.
    intros [|n] c Hn.
    + cbn in Hn. injection Hn as <-. exists x0. split; [exact Hx0 | reflexivity].
    + cbn [app lookup list_lookup] in Hn.
      destruct (Hnew n c Hn) as (x & a & Hx & Ha & ->).
      exists x. rewrite HC, list_lookup_alter_ne in Hx by lia.
      split; [exact Hx|]. unfold previous_context. now rewrite Ha.
  - unfold autoWrite_next in Hact.
    cbn [sections set_globalError set_isGeneratingGlobal] in Hact.
    rewrite Hx0 in Hact. cbn [flushed] in Hact.
    assert (calls st' = calls st) as E.
    { rewrite settle_nil in Hact. injection Hact as <-. now rewrite flush_calls. }
    unfold calls_since. rewrite E, drop_all. intros j c Hj. discriminate.
Qed.

(** C5.  Two runs of [autoWrite], from any two states and with any answers
    of the model, that have the same form values: a request of the one and
    a request of the other carry the same prompt as soon as their sections
    have the same title and the same previous context.  And the outline
    prompt of [sendToWindow2] is the same for two forms with the same
    title, topic, type, level and number of pages. *)
Theorem prompts_determined_by_form
    (st1 st2 st1' st2' : State) (answers1 answers2 : list StreamAnswer)
    (j1 j2 : nat) (c1 c2 : Call) (x1 x2 : BookSection) :
  isGeneratingGlobal st1 = false -> isGeneratingGlobal st2 = false ->
  act OpAutoWrite (map Stream answers1) st1 = Some st1' ->
  act OpAutoWrite (map Stream answers2) st2 = Some st2' ->
  calls_since st1 st1' !! j1 = Some c1 ->
  calls_since st2 st2' !! j2 = Some c2 ->
  sections st1 !! j1 = Some x1 -> sections st2 !! j2 = Some x2 ->
  advancedForm st1 = advancedForm st2 ->
  title x1 = title x2 ->
  previous_context answers1 j1 = previous_context answers2 j2 ->
  call_prompt c1 = call_prompt c2 /\
  call_prompt c1 = Some (autoWrite_prompt (advancedForm st1) (title x1)
                                          (previous_context answers1 j1)) /\
  (forall f f' : Form,
      (forall k, In k ["title"; "topic"; "type"; "level"; "pages"] ->
                 form_get f k = form_get f' k) ->
      sendToWindow2_prompt f = sendToWindow2_prompt f').
Proof.
  intros Hf1 Hf2 Ha1 Ha2 Hc1 Hc2 Hx1 Hx2 Hform Htitle Hctx.
  destruct (autoWrite_prompts st1 st1' answers1 Hf1 Ha1 j1 c1 Hc1) as (y1 & Hy1 & ->).
  destruct (autoWrite_prompts st2 st2' answers2 Hf2 Ha2 j2 c2 Hc2) as (y2 & Hy2 & ->).
  rewrite Hx1 in Hy1. injection Hy1 as <-. rewrite Hx2 in Hy2. injection Hy2 as <-.
  cbn [call_prompt]. split; [|split; [reflexivity|]].
  - now rewrite Hform, Htitle, Hctx.
  - intros f f' H. unfold sendToWindow2_prompt.
    cbn [render render_piece sendToWindow2_template].
    rewrite !(H "title"), !(H "topic"), !(H "type"), !(H "level"), !(H "pages");
      try reflexivity; cbn; tauto.
Qed.

Lemma prompts_determined_by_form_witness :
  call_prompt (second_call run_one two_new_sections) =
    call_prompt (second_call run_two two_new_sections) /\
  call_prompt (second_call run_one two_new_sections) =
    Some (autoWrite_prompt (advancedForm two_new_sections)
            (title (mkSection 2 new_section_title "" Pending))
            (previous_context run_one 1)) /\
  (forall f f' : Form,
      (forall k, In k ["title"; "topic"; "type"; "level"; "pages"] ->
                 form_get f k = form_get f' k) ->
      sendToWindow2_prompt f = sendToWindow2_prompt f').
Proof.
  apply (prompts_determined_by_form
           two_new_sections two_new_sections
           (run_end run_one two_new_sections) (run_end run_two two_new_sections)
           run_one run_two 1 1
           (second_call run_one two_new_sections) (second_call run_two two_new_sections)
           (mkSection 2 new_section_title "" Pending)
           (mkSection 2 new_section_title "" Pending));
    vm_compute; reflexivity.
Defined.

(* ------------------------------------------------------------------ *)
(** ** Section ids *)

Lemma Inv_keeps (st st' : State) : keeps st st' -> Inv st -> Inv st'.
Proof. intros (E1 & E2 & E3) (H1 & H2 & H3). unfold Inv. now rewrite E1, E2, E3. Qed.

Lemma keeps_refl (st : State) : keeps st st.
Proof. now repeat split. Qed.

Lemma keeps_trans (st1 st2 st3 : State) : keeps st1 st2 -> keeps st2 st3 -> keeps st1 st3.
Proof.
  intros (A1 & A2 & A3) (B1 & B2 & B3). unfold keeps.
  now rewrite B1, B2, B3, A1, A2, A3.
Qed.

Lemma keeps_alter (f : BookSection -> BookSection) (i : nat) (st : State) :
  (forall x, id (f x) = id x) ->
  keeps st (set_sections (alter f i (sections st)) st).
Proof. intros H. repeat split. cbn. now apply alter_keeps. Qed.

Lemma keeps_stream (i : nat) (cs : list (option string)) (full : string) (st : State) :
  keeps st (snd (stream_into i cs full st)).
Proof.
  rewrite stream_into_spec. cbn [snd]. destruct cs; [apply keeps_refl|].
  now apply keeps_alter.
Qed.

Lemma form_get_canonical (f : Form) (k : string) (v : JsValue) :
  form_canonical f = true -> form_get f k = Some v -> value_canonical v = true.
Proof.
  induction f as [|[k' v'] f IH]; [discriminate|].
  cbn [form_canonical forallb form_get snd]. intros H.
  apply andb_prop in H as [Hv Hf]. destruct (String.eqb k' k).
  - now intros [= <-].
  - now apply IH.
Qed.

Lemma form_set_canonical (k : string) (v : JsValue) (f : Form) :
  value_canonical v = true -> form_canonical f = true ->
  form_canonical (form_set k v f) = true.
Proof.
  intros Hv. induction f as [|[k' v'] f IH]; [reflexivity|].
  cbn [form_canonical forallb form_set snd]. intros H.
  apply andb_prop in H as [Hv' Hf]. destruct (String.eqb k' k).
  - cbn [forallb snd]. now rewrite Hv.
  - cbn [forallb snd]. rewrite Hv'. now apply IH.
Qed.

Lemma patchValue_canonical (obj f : Form) :
  form_canonical obj = true -> form_canonical f = true ->
  form_canonical (patchValue obj f) = true.
Proof.
  intros Ho. induction f as [|[k v] f IH]; [reflexivity|].
  cbn [form_canonical forallb patchValue map snd fst]. intros H.
  apply andb_prop in H as [Hv Hf].
  apply andb_true_intro. split; [|now apply IH].
  destruct (form_get obj k) as [w|] eqn:E; [|exact Hv].
  cbn [snd]. exact (form_get_canonical obj k w Ho E).
Qed.

Lemma initialForm_canonical : form_canonical initialForm = true.
Proof. vm_compute. reflexivity. Qed.

Lemma Math_max_ge (l : list Z) (x : Z) : In x l -> (x <= Math_max l)%Z.
Proof.
  destruct l as [|y l]; [contradiction|]. cbn [Math_max].
  assert (forall (r : list Z) (acc : Z), (acc <= fold_left Z.max r acc)%Z) as Hacc.
  { induction r as [|z r IH]; intros acc; cbn [fold_left]; [lia|].
    specialize (IH (Z.max acc z)). lia. }
  assert (forall (r : list Z) (acc : Z), In x r -> (x <= fold_left Z.max r acc)%Z) as Hin.
  { induction r as [|z r IH]; intros acc; [contradiction|].
    cbn [fold_left]. intros [->|H]; [|now apply IH].
    specialize (Hacc r (Z.max acc x)). lia. }
  intros [->|H]; [apply Hacc | now apply Hin].
Qed.

Lemma addNewSection_fresh (st : State) :
  exists s : BookSection,
    sections (addNewSection st) = (sections st ++ [s])%list /\
    id s = match sections st with
           | [] => 1%Z
           | _ :: _ => (Math_max (map id (sections st)) + 1)%Z
           end /\
    ~ In (id s) (map id (sections st)).
Proof.
  unfold addNewSection. eexists. split; [reflexivity|]. cbn [id]. split; [reflexivity|].
  destruct (sections st) as [|x l] eqn:E; [intros []|].
  intros Hin. apply Math_max_ge in Hin. lia.
Qed.

Lemma NoDup_ids_app (l : list BookSection) (s : BookSection) :
  NoDup (map id l) -> ~ In (id s) (map id l) -> NoDup (map id (l ++ [s])).
Proof.
  intros Hl Hs. rewrite map_app. apply NoDup_app. split; [exact Hl|].
  split; [|apply NoDup_singleton].
  intros x Hx Hx'. apply list_elem_of_In in Hx.
  apply list_elem_of_singleton in Hx'. subst. contradiction.
Qed.

Lemma filter_sublist {A : Type} (p : A -> bool) (l : list A) :
  sublist (List.filter p l) l.
Proof.
  induction l as [|x l IH]; [constructor|].
  cbn [List.filter]. destruct (p x); now constructor.
Qed.

Lemma NoDup_ids_filter (p : BookSection -> bool) (l : list BookSection) :
  NoDup (map id l) -> NoDup (map id (List.filter p l)).
Proof.
  intros H. apply (sublist_NoDup (map id (List.filter p l)) (map id l));
    [exact H | apply (fmap_sublist id), filter_sublist].
Qed.

Lemma outline_ids (f : nat -> string -> BookSection) (l : list string) :
  (forall i t, id (f i t) = (Z.of_nat i + 1)%Z) ->
  NoDup (map id (imap f l)).
Proof.
  intros Hf.
  assert (forall (g : nat -> string -> BookSection) (k : nat),
             (forall i t, id (g i t) = (Z.of_nat (k + i) + 1)%Z) ->
             map id (imap g l) = map (fun i => (Z.of_nat i + 1)%Z) (seq k (length l))) as H.
  { clear f Hf. induction l as [|t l IH]; intros g k Hg; [reflexivity|].
    cbn [imap map length seq]. rewrite Hg, Nat.add_0_r. f_equal.
    apply (IH (g ∘ S) (S k)). intros i t'. unfold compose. rewrite Hg. f_equal. lia. }
  rewrite (H f 0 Hf). apply NoDup_fmap_2; [|apply NoDup_seq].
  intros a b E. lia.
Qed.

Lemma fallback_ids (pages : option JsValue) :
  NoDup (map id (fallback_sections pages)).
Proof.
  unfold fallback_sections. destruct (fallback_count pages) as [n|]; [|constructor].
  rewrite map_map. cbn [fallback_section id]. rewrite map_id. apply NoDup_seqZ.
Qed.

(** *** Each part of each method keeps the invariant *)

Ltac split_cases :=
  repeat match goal with
         | |- context [if ?b then _ else _] => destruct b eqn:?
         | |- context [match ?x with _ => _ end] => destruct x eqn:?
         end.

Ltac keeps_now :=
  unfold keeps; cbn; repeat split; try reflexivity;
  try (apply alter_keeps; reflexivity).

Lemma autoSelectFeatures_begin_keeps g ks st :
  keeps st (fst (autoSelectFeatures_begin g ks st)).
Proof. unfold autoSelectFeatures_begin. split_cases; keeps_now. Qed.

Lemma loadDocuments_begin_keeps st : keeps st (fst (loadDocuments_begin st)).
Proof. keeps_now. Qed.

Lemma setView_keeps v st : keeps st (fst (setView v st)).
Proof. destruct v; keeps_now. Qed.

Lemma deleteDocument_begin_keeps row c st : keeps st (fst (deleteDocument_begin row c st)).
Proof. destruct c; keeps_now. Qed.

Lemma autoWrite_next_keeps form sources i ctx st :
  keeps st (fst (autoWrite_next form sources i ctx st)).
Proof. unfold autoWrite_next. split_cases; keeps_now. Qed.

Lemma autoWrite_begin_keeps st : keeps st (fst (autoWrite_begin st)).
Proof.
  unfold autoWrite_begin. destruct (isGeneratingGlobal st); [apply keeps_refl|].
  eapply keeps_trans; [|apply autoWrite_next_keeps]. keeps_now.
Qed.

Lemma autoHumanize_next_keeps sources fuel i st :
  keeps st (fst (autoHumanize_next sources fuel i st)).
Proof.
  destruct (autoHumanize_next_spec sources fuel i st)
    as [-> | (i' & x & _ & _ & _ & ->)]; keeps_now.
Qed.

Lemma autoHumanize_begin_keeps st : keeps st (fst (autoHumanize_begin st)).
Proof.
  unfold autoHumanize_begin. destruct (isGeneratingGlobal st); [apply keeps_refl|].
  eapply keeps_trans; [|apply autoHumanize_next_keeps]. keeps_now.
Qed.

Lemma academicReview_begin_keeps st : keeps st (fst (academicReview_begin st)).
Proof. unfold academicReview_begin. split_cases; keeps_now. Qed.

Lemma saveToSupabase_begin_keeps st : keeps st (fst (saveToSupabase_begin st)).
Proof. unfold saveToSupabase_begin. split_cases; keeps_now. Qed.

Lemma updateSectionTitle_ids a t st :
  map id (sections (updateSectionTitle a t st)) = map id (sections st).
Proof.
  unfold updateSectionTitle. cbn [sections set_sections]. rewrite map_map.
  apply map_ext. intros x. now destruct (id x =? a)%Z.
Qed.

Lemma loadDocuments_resume_keeps r st : keeps st (fst (loadDocuments_resume r st)).
Proof. destruct r; keeps_now. Qed.

Lemma deleteDocument_resume_keeps row ok st :
  keeps st (fst (deleteDocument_resume row ok st)).
Proof. destruct ok; keeps_now. Qed.

Lemma saveToSupabase_resume_keeps r st : keeps st (fst (saveToSupabase_resume r st)).
Proof.
  unfold saveToSupabase_resume. destruct r as [e|]; [keeps_now|].
  destruct (currentView st); keeps_now.
Qed.

Lemma autoWrite_resume_keeps form sources i t a st :
  keeps st (fst (autoWrite_resume form sources i t a st)).
Proof.
  unfold autoWrite_resume. destruct (sections st !! i); [|keeps_now].
  pose proof (keeps_stream i (chunks a) "" st) as K.
  destruct (stream_into i (chunks a) "" st) as [full st1]. cbn [snd] in K.
  destruct (throws a).
  - eapply keeps_trans; [exact K|]. keeps_now.
  - eapply keeps_trans; [exact K|].
    eapply keeps_trans; [|apply autoWrite_next_keeps]. keeps_now.
Qed.

Lemma autoHumanize_resume_keeps sources i t a st :
  keeps st (fst (autoHumanize_resume sources i t a st)).
Proof.
  unfold autoHumanize_resume. destruct (sections st !! i); [|keeps_now].
  pose proof (keeps_stream i (chunks a) "" st) as K.
  destruct (stream_into i (chunks a) "" st) as [full st1]. cbn [snd] in K.
  destruct (throws a).
  - eapply keeps_trans; [exact K|]. keeps_now.
  - eapply keeps_trans; [exact K|].
    eapply keeps_trans; [|apply autoHumanize_next_keeps]. keeps_now.
Qed.

Lemma academicReview_resume_keeps i a st :
  keeps st (fst (academicReview_resume i a st)).
Proof.
  unfold academicReview_resume. destruct (sections st !! i); [|keeps_now].
  pose proof (keeps_stream i (chunks a) "" st) as K.
  destruct (stream_into i (chunks a) "" st) as [full st1]. cbn [snd] in K.
  destruct (throws a); (eapply keeps_trans; [exact K|]); keeps_now.
Qed.

Lemma Inv_sections (l : list BookSection) (st : State) :
  NoDup (map id l) -> Inv st -> Inv (set_sections l st).
Proof. intros Hl (_ & H2 & H3). now repeat split. Qed.

Lemma Inv_form (f : Form) (st : State) :
  form_canonical f = true -> Inv st -> Inv (set_advancedForm f st).
Proof. intros Hf (H1 & _ & H3). now repeat split. Qed.

Lemma Inv_sendToWindow2_begin st : Inv st -> Inv (fst (sendToWindow2_begin st)).
Proof.
  intros H. unfold sendToWindow2_begin.
  destruct (form_invalid (advancedForm st)); [revert H; apply Inv_keeps; keeps_now|].
  match goal with |- context [match ?c with [] => _ | _ :: _ => _ end] =>
    assert (NoDup (map id c)) as Hc; [|destruct c as [|s r]] end.
  - split_cases; try constructor. now apply outline_ids.
  - revert H. apply Inv_keeps. keeps_now.
  - cbn [fst]. destruct H as (_ & H2 & H3). now repeat split.
Qed.

Lemma Inv_sendToWindow2_resume pages a st :
  Inv st -> Inv (fst (sendToWindow2_resume pages a st)).
Proof.
  intros H. unfold sendToWindow2_resume.
  destruct a as [text|]; [|revert H; apply Inv_keeps; keeps_now].
  match goal with |- context [set_sections ?c _] =>
    assert (NoDup (map id c)) as Hc; [|destruct c as [|s r]] end.
  - destruct (imap _ _) eqn:E; [apply fallback_ids|].
    rewrite <- E. now apply outline_ids.
  - cbn [fst]. destruct H as (_ & H2 & H3).
    split; [cbn; constructor | split; [exact H2 | exact H3]].
  - cbn [fst]. destruct H as (_ & H2 & H3). now repeat split.
Qed.

Lemma Inv_autoSelectFeatures_resume ks a st :
  Inv st -> Inv (fst (autoSelectFeatures_resume ks a st)).
Proof.
  intros H. unfold autoSelectFeatures_resume. cbn [fst].
  assert (forall l f, form_canonical f = true ->
                      form_canonical (fold_left (fun f k => form_set k (VBool false) f) l f)
                      = true) as Hreset.
  { induction l as [|k l IH]; intros f Hf; [exact Hf|].
    cbn [fold_left]. apply IH. now apply form_set_canonical. }
  assert (forall l f, form_canonical f = true ->
                      form_canonical (fold_left select_key l f) = true) as Hsel.
  { induction l as [|k l IH]; intros f Hf; [exact Hf|].
    cbn [fold_left]. apply IH. destruct k; try exact Hf.
    now apply form_set_canonical. }
  destruct H as (H1 & H2 & H3).
  destruct a as [text|]; [|now repeat split].
  destruct (JSON_parse _) as [v|]; [|now repeat split].
  destruct v; repeat split; cbn; auto.
Qed.

Lemma Inv_flush st : Inv st -> Inv (flush st).
Proof.
  intros (H1 & H2 & H3). unfold flush, autosave_effect.
  destruct (effectPending st); [|now repeat split].
  destruct (sections st) as [|x l] eqn:E; [repeat split; cbn; rewrite ?E; assumption|].
  repeat split; cbn; rewrite ?E; try assumption.
  exists (x :: l), (advancedForm st). now repeat split.
Qed.

Lemma begin_Inv (o : Op) (st st1 : State) (ts : list Task) :
  admissible o -> Inv st -> begin o st = Some (st1, ts) -> Inv st1.
Proof.
  intros Ha H Hb. apply (f_equal (option_map fst)) in Hb.
  destruct o; cbn [begin admissible option_map fst] in *; try contradiction;
    injection Hb as <-.
  - revert H. apply Inv_keeps. apply (autoSelectFeatures_begin_keeps groupName groupKeys st).
  - destruct H as (_ & H2 & _). split; [cbn; constructor | split; [exact H2 | exact I]].
  - revert H. apply Inv_keeps, setView_keeps.
  - revert H. apply Inv_keeps, loadDocuments_begin_keeps.
  - revert H. apply Inv_keeps, deleteDocument_begin_keeps.
  - now apply Inv_sendToWindow2_begin.
  - revert H. apply Inv_keeps. keeps_now.
  - destruct (addNewSection_fresh st) as (s & E & _ & Hs).
    destruct H as (H1 & H2 & H3). repeat split; try assumption.
    rewrite E. now apply NoDup_ids_app.
  - unfold removeSection. destruct confirmed; [|exact H].
    assert (Inv (set_sections
                   (List.filter (fun sec => negb (id sec =? a)%Z) (sections st)) st)) as H'
      by (apply Inv_sections; [apply NoDup_ids_filter|]; apply H).
    split_cases; try exact H'; revert H'; apply Inv_keeps; keeps_now.
  - destruct H as (H1 & H2 & H3). repeat split; try assumption.
    now rewrite updateSectionTitle_ids.
  - revert H. apply Inv_keeps, autoWrite_begin_keeps.
  - revert H. apply Inv_keeps, autoHumanize_begin_keeps.
  - revert H. apply Inv_keeps, academicReview_begin_keeps.
  - revert H. apply Inv_keeps, saveToSupabase_begin_keeps.
  - apply Inv_form; [|exact H]. apply form_set_canonical; [exact Ha | apply H].
  - apply Inv_form; [|exact H]. apply form_set_canonical; [reflexivity | apply H].
Qed.

Lemma resume_Inv (t : Task) (a : Answer) (st st1 : State) (ts : list Task) :
  Inv st -> resume t a st = Some (st1, ts) -> Inv st1.
Proof.
  intros H Hr. apply (f_equal (option_map fst)) in Hr.
  destruct t, a; cbn [resume option_map fst] in Hr; try discriminate;
    injection Hr as <-.
  - now apply Inv_autoSelectFeatures_resume.
  - revert H. apply Inv_keeps, loadDocuments_resume_keeps.
  - revert H. apply Inv_keeps, deleteDocument_resume_keeps.
  - now apply Inv_sendToWindow2_resume.
  - revert H. apply Inv_keeps, autoWrite_resume_keeps.
  - revert H. apply Inv_keeps, autoHumanize_resume_keeps.
  - revert H. apply Inv_keeps, academicReview_resume_keeps.
  - revert H. apply Inv_keeps, saveToSupabase_resume_keeps.
Qed.

Lemma settle_Inv (answers : list Answer) :
  forall (st st' : State) (ts : list Task),
    Inv st -> settle answers st ts = Some st' -> Inv st'.
Proof.
  induction answers as [|a answers IH]; intros st st' ts H Hs.
  - destruct ts; [injection Hs as <-; exact H | discriminate].
  - destruct ts as [|t ts]; [injection Hs as <-; exact H|].
    cbn [settle] in Hs.
    destruct (resume t a st) as [[st1 new]|] eqn:Hr; [|discriminate].
    cbn [flushed] in Hs. apply (IH _ _ _ (Inv_flush _ (resume_Inv _ _ _ _ _ H Hr)) Hs).
Qed.

Lemma act_Inv (o : Op) (answers : list Answer) (st st' : State) :
  admissible o -> Inv st -> act o answers st = Some st' -> Inv st'.
Proof.
  intros Ha H Hact. unfold act in Hact.
  destruct (begin o st) as [[st1 ts]|] eqn:Hb; [|discriminate].
  cbn [flushed] in Hact.
  apply (settle_Inv _ _ _ _ (Inv_flush _ (begin_Inv _ _ _ _ Ha H Hb)) Hact).
Qed.

(** *** Reading back what was stored *)

Ltac state_simpl :=
  cbn [currentView writingWindow advancedForm sections activeSectionId
       isGeneratingGlobal globalError isAutoSelecting savedDocuments isLoadingDocs
       localStorage effectPending calls
       set_currentView set_writingWindow set_advancedForm set_sections
       set_activeSectionId set_isGeneratingGlobal set_globalError set_isAutoSelecting
       set_savedDocuments set_isLoadingDocs set_localStorage set_effectPending send
       initialState fst snd].

Lemma form_of_to_members (f : Form) :
  form_of_members (map (fun kv => (fst kv, value_to_json (snd kv))) f) = Some f.
Proof.
  induction f as [|[k v] f IH]; [reflexivity|].
  cbn [map form_of_members fst snd]. rewrite IH. now destruct v.
Qed.

Lemma form_json_wf (f : Form) :
  form_canonical f = true -> json_wf (form_to_json f) = true.
Proof.
  unfold form_to_json, form_canonical. cbn [json_wf].
  induction f as [|[k v] f IH]; [reflexivity|].
  cbn [map forallb fst snd]. intros H. apply andb_prop in H as [Hv Hf].
  rewrite (IH Hf), andb_true_r. now destruct v.
Qed.

Lemma snapshot_wf (l : list BookSection) (f : Form) :
  form_canonical f = true -> json_wf (snapshot_json l f) = true.
Proof.
  intros Hf. unfold snapshot_json. cbn [json_wf forallb snd].
  change (json_wf (sections_to_json l) && (json_wf (form_to_json f) && true) = true).
  now rewrite sections_json_wf, form_json_wf.
Qed.

Lemma stringify_object_nonempty (m : list (string * json)) :
  nonempty (JSON_stringify (JObj m)) = true.
Proof. reflexivity. Qed.

Lemma ngOnInit_snapshot (x : BookSection) (l : list BookSection) (f : Form) :
  form_canonical f = true ->
  let stored := initialState (Some (JSON_stringify (snapshot_json (x :: l) f))) in
  ngOnInit stored =
  Some (set_currentView Writing
          (set_writingWindow 2
             (set_activeSectionId (Some (id x))
                (set_advancedForm (patchValue f initialForm)
                   (set_sections (x :: l) (set_currentView Landing stored)))))).
Proof.
  intros Hf stored. unfold stored, ngOnInit.
  cbn [localStorage set_currentView initialState].
  rewrite (JSON_parse_stringify _ (snapshot_wf (x :: l) f Hf)).
  unfold snapshot_json at 1. rewrite stringify_object_nonempty.
  unfold snapshot_json.
  change (json_get [("sections", sections_to_json (x :: l)); ("form", form_to_json f)]
                   "sections") with (Some (sections_to_json (x :: l))).
  change (json_get [("sections", sections_to_json (x :: l)); ("form", form_to_json f)]
                   "form") with (Some (form_to_json f)).
  unfold restore, sections_to_json. cbn [map].
  change (section_to_json x :: map section_to_json l) with (map section_to_json (x :: l)).
  rewrite sections_of_to_list. unfold form_to_json. rewrite form_of_to_members.
  reflexivity.
Qed.

Lemma ngOnInit_snapshot_empty (f : Form) :
  form_canonical f = true ->
  let stored := initialState (Some (JSON_stringify (snapshot_json [] f))) in
  ngOnInit stored = Some (set_currentView Landing stored).
Proof.
  intros Hf stored. unfold stored, ngOnInit.
  cbn [localStorage set_currentView initialState].
  rewrite (JSON_parse_stringify _ (snapshot_wf [] f Hf)).
  unfold snapshot_json at 1. rewrite stringify_object_nonempty.
  unfold snapshot_json.
  change (json_get [("sections", sections_to_json []); ("form", form_to_json f)]
                   "sections") with (Some (sections_to_json [])).
  reflexivity.
Qed.

Lemma ngOnInit_no_storage :
  ngOnInit (initialState None) = Some (set_currentView Landing (initialState None)).
Proof. reflexivity. Qed.

Lemma initialState_Inv (storage : option string) :
  storage_ok storage -> Inv (initialState storage).
Proof.
  intros H. split; [cbn; constructor | split; [exact initialForm_canonical | exact H]].
Qed.

Lemma reload_Inv (st st' : State) : Inv st -> reload st = Some st' -> Inv st'.
Proof.
  intros (H1 & H2 & H3) Hr. unfold reload in Hr.
  destruct (ngOnInit _) as [st1|] eqn:E; [|discriminate]. injection Hr as <-.
  apply Inv_flush.
  destruct (localStorage st) as [text|] eqn:Hs.
  - destruct H3 as (l & f & -> & Hl & Hf).
    destruct l as [|x l].
    + rewrite (ngOnInit_snapshot_empty f Hf) in E. injection E as <-.
      unfold Inv. state_simpl.
      split; [constructor | split; [exact initialForm_canonical|]].
      exists [], f. split; [reflexivity | split; [constructor | exact Hf]].
    + rewrite (ngOnInit_snapshot x l f Hf) in E. injection E as <-.
      unfold Inv. state_simpl. split; [exact Hl | split].
      * exact (patchValue_canonical f initialForm Hf initialForm_canonical).
      * exists (x :: l), f. split; [reflexivity | split; assumption].
  - rewrite ngOnInit_no_storage in E. injection E as <-.
    unfold Inv. state_simpl.
    split; [constructor | split; [exact initialForm_canonical | exact I]].
Qed.

Lemma read_Inv (doc : SavedDocument) (st0 st st' : State) :
  Inv st -> Inv st0 ->
  doc_content doc = JSON_stringify (sections_to_json (sections st0)) ->
  act (OpReadDocument doc) [] st = Some st' -> Inv st'.
Proof.
  intros (H1 & H2 & H3) (H0 & _ & _) Hd Hact.
  unfold act, begin, readDocument in Hact.
  rewrite Hd, parse_sections in Hact. unfold sections_to_json in Hact.
  rewrite sections_of_to_list in Hact. cbn [flushed settle] in Hact.
  injection Hact as <-. apply Inv_flush.
  unfold Inv, setView. state_simpl.
  split; [exact H0 | split; [|exact H3]].
  apply patchValue_canonical; [reflexivity | exact H2].
Qed.

Lemma reachable_Inv (st : State) : reachable st -> Inv st.
Proof.
  induction 1 as [|o answers st st' _ IH Ha Hact|doc st0 st st' _ IH _ IH0 Hd Hact
                  |st st' _ IH Hr].
  - now apply initialState_Inv.
  - exact (act_Inv o answers st st' Ha IH Hact).
  - exact (read_Inv doc st0 st st' IH IH0 Hd Hact).
  - exact (reload_Inv st st' IH Hr).
Qed.

(** C3.  In every state the component reaches, the ids of the sections are
    pairwise distinct; [addNewSection] appends one section, whose id is 1
    on an empty list and the greatest id plus one otherwise, an id that no
    section of the list has; [removeSection] leaves a sublist of the
    sections, each as it was, and [updateSectionTitle] leaves every id as
    it was. *)
Theorem section_ids_unique_and_stable (st : State) :
  reachable st ->
  NoDup (map id (sections st)) /\
  (exists s : BookSection,
      sections (addNewSection st) = (sections st ++ [s])%list /\
      id s = match sections st with
             | [] => 1%Z
             | _ :: _ => (Math_max (map id (sections st)) + 1)%Z
             end /\
      ~ In (id s) (map id (sections st)) /\
      NoDup (map id (sections (addNewSection st)))) /\
  (forall a confirmed,
      sublist (sections (removeSection a confirmed st)) (sections st) /\
      NoDup (map id (sections (removeSection a confirmed st)))) /\
  (forall a newTitle,
      map id (sections (updateSectionTitle a newTitle st)) = map id (sections st)).
Proof.
  intros Hr. pose proof (reachable_Inv st Hr) as (Hnd & _ & _).
  split; [exact Hnd|]. split; [|split].
  - destruct (addNewSection_fresh st) as (s & E & Hid & Hs).
    exists s. repeat split; try assumption. rewrite E. now apply NoDup_ids_app.
  - intros a confirmed.
    assert (sublist (sections (removeSection a confirmed st)) (sections st)) as Hsub.
    { unfold removeSection. destruct confirmed; [|reflexivity].
      split_cases; cbn; apply filter_sublist. }
    split; [exact Hsub|].
    apply (sublist_NoDup _ (map id (sections st))); [exact Hnd|].
    now apply (fmap_sublist id).
  - intros a t. apply updateSectionTitle_ids.
Qed.

Lemma after_first_add_reachable : reachable after_first_add.
Proof.
  apply (reach_act OpAddNewSection [] (initialState None));
    [apply reach_start | exact I | reflexivity].
Qed.

Lemma section_ids_unique_and_stable_witness :
  NoDup (map id (sections after_first_add)) /\
  (exists s : BookSection,
      sections (addNewSection after_first_add) = (sections after_first_add ++ [s])%list /\
      id s = match sections after_first_add with
             | [] => 1%Z
             | _ :: _ => (Math_max (map id (sections after_first_add)) + 1)%Z
             end /\
      ~ In (id s) (map id (sections after_first_add)) /\
      NoDup (map id (sections (addNewSection after_first_add)))) /\
  (forall a confirmed,
      sublist (sections (removeSection a confirmed after_first_add))
              (sections after_first_add) /\
      NoDup (map id (sections (removeSection a confirmed after_first_add)))) /\
  (forall a newTitle,
      map id (sections (updateSectionTitle a newTitle after_first_add)) =
      map id (sections after_first_add)).
Proof.
  apply (section_ids_unique_and_stable after_first_add).
  apply (reach_act OpAddNewSection [] (initialState None));
    [apply reach_start | exact I | reflexivity].
Defined.

(* ------------------------------------------------------------------ *)
(** ** The local cache *)

Ltac settles_now :=
  unfold settles_cache; state_simpl;
  first [ left; reflexivity
        | right; repeat split; first [reflexivity | assumption] ].

Lemma settles_refl (st : State) : effectPending st = false -> settles_cache st st.
Proof. intros H. right. now repeat split. Qed.

Lemma autoWrite_next_settles form sources i ctx st :
  effectPending st = false ->
  settles_cache st (fst (autoWrite_next form sources i ctx st)).
Proof. intros H. unfold autoWrite_next. split_cases; settles_now. Qed.

Lemma autoHumanize_next_settles sources fuel i st :
  effectPending st = false ->
  settles_cache st (fst (autoHumanize_next sources fuel i st)).
Proof.
  intros H. destruct (autoHumanize_next_spec sources fuel i st)
    as [-> | (i' & x & _ & _ & _ & ->)]; settles_now.
Qed.

Lemma settles_pending (st st1 : State) : effectPending st1 = true -> settles_cache st st1.
Proof. now left. Qed.

Lemma autoWrite_next_pending form sources i ctx st :
  effectPending st = true ->
  effectPending (fst (autoWrite_next form sources i ctx st)) = true.
Proof. intros H. unfold autoWrite_next. split_cases; state_simpl; auto. Qed.

Lemma autoHumanize_next_pending sources fuel i st :
  effectPending st = true ->
  effectPending (fst (autoHumanize_next sources fuel i st)) = true.
Proof.
  intros H. destruct (autoHumanize_next_spec sources fuel i st)
    as [-> | (i' & x & _ & _ & _ & ->)]; state_simpl; auto.
Qed.

Lemma begin_settles (o : Op) (st st1 : State) (ts : list Task) :
  (forall k v, o <> OpInput k v) -> (forall n c, o <> OpFileChange n c) ->
  effectPending st = false -> begin o st = Some (st1, ts) -> settles_cache st st1.
Proof.
  intros Hin Hfile H Hb. apply (f_equal (option_map fst)) in Hb.
  destruct o; cbn [begin option_map fst] in Hb;
    try (now elim (Hin k v)); try (now elim (Hfile file_name controlName)).
  - injection Hb as <-. unfold autoSelectFeatures_begin. split_cases; settles_now.
  - injection Hb as <-. settles_now.
  - injection Hb as <-. destruct view; settles_now.
  - injection Hb as <-. settles_now.
  - destruct (readDocument doc st) as [s|] eqn:E; [|discriminate].
    injection Hb as <-. unfold readDocument in E. revert E.
    split_cases; intros [= <-]; unfold setView; settles_now.
  - injection Hb as <-. destruct confirmed; settles_now.
  - injection Hb as <-. unfold sendToWindow2_begin.
    destruct (form_invalid _); [settles_now|].
    match goal with |- context [match ?c with [] => _ | _ :: _ => _ end] =>
      destruct c end; settles_now.
  - injection Hb as <-. settles_now.
  - injection Hb as <-. settles_now.
  - injection Hb as <-. unfold removeSection. split_cases; settles_now.
  - injection Hb as <-. settles_now.
  - injection Hb as <-. unfold autoWrite_begin.
    destruct (isGeneratingGlobal st); [now apply settles_refl|].
    destruct (autoWrite_next_settles
                (advancedForm (set_globalError "" (set_isGeneratingGlobal true st)))
                (sourcesInstruction autoWrite_sources
                   (advancedForm (set_globalError "" (set_isGeneratingGlobal true st))))
                0 "" (set_globalError "" (set_isGeneratingGlobal true st)) H)
      as [Hp | (Hp & Hs & Hf & Hl)]; [now left | right].
    now rewrite Hp, Hs, Hf, Hl.
  - injection Hb as <-. unfold autoHumanize_begin.
    destruct (isGeneratingGlobal st); [now apply settles_refl|].
    destruct (autoHumanize_next_settles
                (sourcesInstruction autoHumanize_sources
                   (advancedForm (set_isGeneratingGlobal true st)))
                (length (sections (set_isGeneratingGlobal true st))) 0
                (set_isGeneratingGlobal true st) H)
      as [Hp | (Hp & Hs & Hf & Hl)]; [now left | right].
    now rewrite Hp, Hs, Hf, Hl.
  - injection Hb as <-. unfold academicReview_begin. split_cases; settles_now.
  - injection Hb as <-. unfold saveToSupabase_begin. split_cases; settles_now.
Qed.

Lemma stream_into_pending i cs full st :
  effectPending st = true -> effectPending (snd (stream_into i cs full st)) = true.
Proof. intros H. rewrite stream_into_spec. cbn [snd]. now destruct cs. Qed.

Lemma stream_into_settles i cs full st :
  effectPending st = false -> settles_cache st (snd (stream_into i cs full st)).
Proof.
  intros H. rewrite stream_into_spec. cbn [snd]. destruct cs; [now apply settles_refl|].
  now left.
Qed.

Lemma resume_settles (t : Task) (a : Answer) (st st1 : State) (ts : list Task) :
  form_safe t = true -> effectPending st = false ->
  resume t a st = Some (st1, ts) -> settles_cache st st1.
Proof.
  intros Ht H Hr. apply (f_equal (option_map fst)) in Hr.
  destruct t, a; cbn [resume option_map fst form_safe] in *; try discriminate;
    injection Hr as <-.
  - destruct a; settles_now.
  - destruct ok; settles_now.
  - unfold sendToWindow2_resume. destruct a as [text|]; [|settles_now].
    match goal with |- context [set_sections ?c _] => destruct c end; settles_now.
  - unfold autoWrite_resume. destruct (sections st !! i); [|settles_now].
    destruct (stream_into i (chunks a) "" st) as [full s1].
    destruct (throws a); [settles_now|].
    left. apply autoWrite_next_pending. reflexivity.
  - unfold autoHumanize_resume. destruct (sections st !! i); [|settles_now].
    pose proof (stream_into_settles i (chunks a) "" st H) as K.
    destruct (stream_into i (chunks a) "" st) as [full s1]. cbn [snd] in K.
    destruct (throws a).
    + destruct K as [Hp | (Hp & Hs & Hf & Hl)]; [left | right]; state_simpl;
        [exact Hp | now repeat split].
    + left. apply autoHumanize_next_pending. reflexivity.
  - unfold academicReview_resume. destruct (sections st !! sectionIndex); [|settles_now].
    pose proof (stream_into_settles sectionIndex (chunks a) "" st H) as K.
    destruct (stream_into sectionIndex (chunks a) "" st) as [full s1]. cbn [snd] in K.
    destruct (throws a); [|settles_now].
    destruct K as [Hp | (Hp & Hs & Hf & Hl)]; [left | right]; state_simpl;
      [exact Hp | now repeat split].
  - unfold saveToSupabase_resume. destruct a as [e|]; [settles_now|].
    destruct (currentView st); settles_now.
Qed.

Lemma flush_snapshot (st : State) :
  effectPending st = true -> sections st <> [] ->
  localStorage (flush st) = Some (snapshot_text (flush st)).
Proof.
  intros Hp Hs. unfold snapshot_text. rewrite flush_sections, flush_advancedForm.
  unfold flush, autosave_effect. rewrite Hp.
  destruct (sections st) as [|x l] eqn:E; [contradiction|]. reflexivity.
Qed.

Lemma flush_unchanged (st : State) : effectPending st = false -> flush st = st.
Proof. intros H. unfold flush. now rewrite H. Qed.

Lemma in_step_next (st0 st st1 : State) :
  in_step st0 st -> settles_cache st st1 -> in_step st0 (flush st1).
Proof.
  intros (Hp & H) [Hq | (Hq & Hs & Hf & Hl)].
  - split; [apply flush_effectPending|].
    destruct (sections st1) as [|x l] eqn:E.
    + right; left. now rewrite flush_sections.
    + right; right. apply flush_snapshot; [exact Hq | now rewrite E].
  - rewrite flush_unchanged by exact Hq. split; [exact Hq|].
    destruct H as [H | [H | H]]; [left | right; left | right; right]; try congruence.
    unfold snapshot_text in *. now rewrite Hl, Hs, Hf.
Qed.

Lemma begin_form_safe (o : Op) (st st1 : State) (ts : list Task) :
  (forall g ks, o <> OpAutoSelectFeatures g ks) ->
  begin o st = Some (st1, ts) -> forallb form_safe ts = true.
Proof.
  intros Ho Hb. apply (f_equal (option_map snd)) in Hb.
  destruct o; cbn [begin option_map snd] in Hb; try (now elim (Ho groupName groupKeys));
    try (injection Hb as <-; reflexivity).
  - injection Hb as <-. now destruct view.
  - destruct (readDocument doc st); [injection Hb as <-; reflexivity | discriminate].
  - injection Hb as <-. now destruct confirmed.
  - injection Hb as <-. unfold sendToWindow2_begin. destruct (form_invalid _); [reflexivity|].
    match goal with |- context [match ?c with [] => _ | _ :: _ => _ end] =>
      destruct c end; reflexivity.
  - injection Hb as <-. unfold autoWrite_begin, autoWrite_next. now split_cases.
  - injection Hb as <-. unfold autoHumanize_begin.
    destruct (isGeneratingGlobal st); [reflexivity|].
    match goal with |- context [autoHumanize_next ?s ?f ?i ?x] =>
      destruct (autoHumanize_next_spec s f i x) as [-> | (? & ? & _ & _ & _ & ->)] end;
      reflexivity.
  - injection Hb as <-. unfold academicReview_begin. now split_cases.
  - injection Hb as <-. unfold saveToSupabase_begin. now split_cases.
Qed.

Lemma resume_form_safe (t : Task) (a : Answer) (st st1 : State) (ts : list Task) :
  resume t a st = Some (st1, ts) -> forallb form_safe ts = true.
Proof.
  intros Hr. apply (f_equal (option_map snd)) in Hr.
  destruct t, a; cbn [resume option_map snd] in Hr; try discriminate;
    injection Hr as <-; try reflexivity.
  - now destruct ok.
  - unfold sendToWindow2_resume. destruct a; [|reflexivity].
    match goal with |- context [set_sections ?c _] => destruct c end; reflexivity.
  - unfold autoWrite_resume. destruct (sections st !! i); [|reflexivity].
    destruct (stream_into _ _ _ _). destruct (throws a); [reflexivity|].
    unfold autoWrite_next. now split_cases.
  - unfold autoHumanize_resume. destruct (sections st !! i); [|reflexivity].
    destruct (stream_into _ _ _ _). destruct (throws a); [reflexivity|].
    match goal with |- context [autoHumanize_next ?s ?f ?i ?x] =>
      destruct (autoHumanize_next_spec s f i x) as [-> | (? & ? & _ & _ & _ & ->)] end;
      reflexivity.
  - unfold saveToSupabase_resume. destruct a; [reflexivity|].
    now destruct (currentView st).
Qed.

Lemma settle_in_step (st0 : State) (answers : list Answer) :
  forall (st st' : State) (ts : list Task),
    forallb form_safe ts = true -> in_step st0 st ->
    settle answers st ts = Some st' -> in_step st0 st'.
Proof.
  induction answers as [|a answers IH]; intros st st' ts Hts H Hs.
  - destruct ts; [injection Hs as <-; exact H | discriminate].
  - destruct ts as [|t ts]; [injection Hs as <-; exact H|].
    cbn [settle] in Hs. cbn [forallb] in Hts. apply andb_prop in Hts as [Ht Hts].
    destruct (resume t a st) as [[st1 new]|] eqn:Hr; [|discriminate].
    cbn [flushed] in Hs. apply (IH (flush st1) st' (ts ++ new)%list).
    + rewrite forallb_app, Hts. exact (resume_form_safe t a st st1 new Hr).
    + apply (in_step_next st0 st st1 H).
      exact (resume_settles t a st st1 new Ht (proj1 H) Hr).
    + exact Hs.
Qed.

Lemma settle_auto_select (answers : list Answer) (st st' : State) (ts : list Task) :
  (ts = [] \/ exists ks, ts = [AwaitAutoSelect ks]) ->
  settle answers st ts = Some st' -> sections st' = sections st.
Proof.
  intros [-> | [ks ->]] Hs.
  - rewrite settle_nil in Hs. now injection Hs as <-.
  - destruct answers as [|a answers]; [discriminate|].
    cbn [settle resume] in Hs. destruct a; try discriminate.
    unfold autoSelectFeatures_resume in Hs. cbn [flushed app] in Hs.
    rewrite settle_nil in Hs. injection Hs as <-.
    rewrite flush_sections. split_cases; reflexivity.
Qed.

(** After a method that changed the section list and left it not empty,
    the cache holds the snapshot of the sections and of the form. *)
Lemma act_snapshot (o : Op) (answers : list Answer) (st st' : State) :
  effectPending st = false -> act o answers st = Some st' ->
  sections st' <> sections st -> sections st' <> [] ->
  localStorage st' = Some (snapshot_text st').
Proof.
  intros Hp Hact Hne Hnil. unfold act in Hact.
  destruct (begin o st) as [[st1 ts]|] eqn:Hb; [|discriminate].
  cbn [flushed] in Hact.
  assert ((forall k v, o <> OpInput k v) /\ (forall n c, o <> OpFileChange n c) /\
          (forall g ks, o <> OpAutoSelectFeatures g ks)) as (Hin & Hfile & Hsel).
  { repeat split; intros ? ? ->; cbn [begin] in Hb; exfalso; apply Hne.
    - injection Hb as <- <-. rewrite settle_nil in Hact. injection Hact as <-.
      now rewrite flush_sections.
    - injection Hb as <- <-. rewrite settle_nil in Hact. injection Hact as <-.
      now rewrite flush_sections.
    - rewrite (settle_auto_select answers (flush st1) st' ts) by
        (try exact Hact; unfold autoSelectFeatures_begin in Hb; revert Hb;
         split_cases; intros [= <- <-]; eauto).
      rewrite flush_sections. unfold autoSelectFeatures_begin in Hb. revert Hb.
      split_cases; now intros [= <- <-]. }
  assert (in_step st (flush st1)) as H1.
  { apply (in_step_next st st st1); [split; [exact Hp | now left]|].
    exact (begin_settles o st st1 ts Hin Hfile Hp Hb). }
  destruct (settle_in_step st answers (flush st1) st' ts
              (begin_form_safe o st st1 ts Hsel Hb) H1 Hact) as (_ & [H | [H | H]]);
    [contradiction | contradiction | exact H].
Qed.

Lemma reload_snapshot (st : State) (x : BookSection) (l : list BookSection) :
  sections st = x :: l -> localStorage st = Some (snapshot_text st) ->
  form_canonical (advancedForm st) = true ->
  exists st', reload st = Some st' /\ sections st' = sections st /\
              advancedForm st' = patchValue (advancedForm st) initialForm /\
              activeSectionId st' = Some (id x).
Proof.
  intros Hs Hl Hf. unfold reload. rewrite Hl. unfold snapshot_text. rewrite Hs.
  rewrite (ngOnInit_snapshot x l (advancedForm st) Hf).
  eexists. split; [reflexivity|].
  rewrite flush_sections, flush_advancedForm, flush_activeSectionId.
  repeat split.
Qed.

Lemma clearSections_storage (answers : list Answer) (st st' : State) :
  act OpClearSections answers st = Some st' -> localStorage st' = None.
Proof.
  unfold act. cbn [begin flushed]. rewrite settle_nil. intros [= <-].
  unfold flush, clearSections. state_simpl. reflexivity.
Qed.

Lemma removeSection_last (a : Z) (answers : list Answer) (st st' : State) :
  act (OpRemoveSection a true) answers st = Some st' ->
  sections st' = [] -> localStorage st' = localStorage st.
Proof.
  unfold act. cbn [begin flushed]. rewrite settle_nil. intros [= <-].
  rewrite flush_sections. intros Hs. unfold flush, autosave_effect.
  destruct (effectPending _); [|unfold removeSection; split_cases; reflexivity].
  rewrite Hs. state_simpl. unfold removeSection. split_cases; reflexivity.
Qed.

(** C7 (amended).  When a method has changed the section list and left it
    not empty, the cache holds the snapshot of the current sections and form,
    and loading the page again restores these sections, lays the stored form
    values over the initial form and makes the first section the active one.
    A removal that empties the list leaves the cache as it was, and
    [clearSections] removes the snapshot. *)
Theorem autosave_snapshot (o : Op) (answers : list Answer) (st st' : State) :
  effectPending st = false -> act o answers st = Some st' ->
  (sections st' <> sections st -> sections st' <> [] ->
   localStorage st' = Some (snapshot_text st') /\
   (form_canonical (advancedForm st') = true ->
    exists st'' x l,
      sections st' = x :: l /\ reload st' = Some st'' /\
      sections st'' = sections st' /\
      advancedForm st'' = patchValue (advancedForm st') initialForm /\
      activeSectionId st'' = Some (id x))) /\
  (forall a, o = OpRemoveSection a true -> sections st' = [] ->
             localStorage st' = localStorage st) /\
  (o = OpClearSections -> localStorage st' = None).
Proof.
  intros Hp Hact. split; [|split].
  - intros Hne Hnil.
    pose proof (act_snapshot o answers st st' Hp Hact Hne Hnil) as Hl.
    split; [exact Hl|]. intros Hf.
    destruct (sections st') as [|x l] eqn:Hs; [contradiction|].
    destruct (reload_snapshot st' x l Hs Hl Hf) as (st'' & Hr & H1 & H2 & H3).
    exists st'', x, l. rewrite <- Hs. now repeat split.
  - intros a -> Hs. exact (removeSection_last a answers st st' Hact Hs).
  - intros ->. exact (clearSections_storage answers st st' Hact).
Qed.

Lemma autosave_snapshot_witness :
  localStorage after_first_add = Some (snapshot_text after_first_add).
Proof.
  apply (autosave_snapshot OpAddNewSection [] (initialState None) after_first_add
           eq_refl eq_refl); vm_compute; discriminate.
Defined.

(** C7 as stated fails: after the only section is removed the cache still
    holds the snapshot with that section, and after [clearSections] it holds
    nothing, so in neither case is it the snapshot of the current state. *)
Lemma cache_stale_when_emptied :
  exists st1 st2,
    act (OpRemoveSection 1 true) [] after_first_add = Some st1 /\
    act OpClearSections [] after_first_add = Some st2 /\
    sections st1 = [] /\ sections after_first_add <> [] /\
    localStorage st1 = localStorage after_first_add /\
    localStorage st1 <> Some (snapshot_text st1) /\
    sections st2 = [] /\ localStorage st2 = None /\
    localStorage st2 <> Some (snapshot_text st2).
Proof.
  eexists. eexists. split; [vm_compute; reflexivity|]. split; [vm_compute; reflexivity|].
  repeat split; try (vm_compute; reflexivity); vm_compute; discriminate.
Qed.

(* ------------------------------------------------------------------ *)
(** ** Calls in flight *)

Lemma stream_into_flag i cs full st :
  isGeneratingGlobal (snd (stream_into i cs full st)) = isGeneratingGlobal st.
Proof. rewrite stream_into_spec. cbn [snd]. now destruct cs. Qed.

Lemma holding_delete (n : nat) (l : list Task) (t : Task) :
  l !! n = Some t ->
  length (List.filter holding l) =
  (if holding t then 1 else 0) + length (List.filter holding (delete n l)).
Proof.
  revert n. induction l as [|x l IH]; intros [|n] H; try discriminate.
  - injection H as ->. change (delete 0 (t :: l)) with l. cbn [List.filter].
    now destruct (holding t).
  - change (delete (S n) (x :: l)) with (x :: delete n l). cbn [List.filter].
    specialize (IH n H). destruct (holding x); cbn [length]; lia.
Qed.

Lemma outline_delete (n : nat) (l : list Task) :
  existsb is_outline l = false -> existsb is_outline (delete n l) = false.
Proof.
  revert n. induction l as [|x l IH]; intros [|n] H; try exact H;
    cbn [existsb] in H; apply orb_false_elim in H as [Hx Hl]; [exact Hl|].
  change (delete (S n) (x :: l)) with (x :: delete n l). cbn [existsb].
  rewrite Hx. exact (IH n Hl).
Qed.

Lemma outline_lookup (n : nat) (l : list Task) (t : Task) :
  existsb is_outline l = false -> l !! n = Some t -> is_outline t = false.
Proof.
  revert n. induction l as [|x l IH]; intros [|n] H Hn; try discriminate;
    cbn [existsb] in H; apply orb_false_elim in H as [Hx Hl].
  - now injection Hn as <-.
  - exact (IH n Hl Hn).
Qed.

(** A guarded method returns at once, without a call, when the flag is set. *)
Lemma guarded_returns (o : Op) (st : State) :
  guarded o = true -> isGeneratingGlobal st = true -> begin o st = Some (st, []).
Proof.
  intros Ho Hg. destruct o; try discriminate; cbn [begin];
    unfold autoWrite_begin, autoHumanize_begin, academicReview_begin,
           saveToSupabase_begin; now rewrite Hg.
Qed.

Ltac flight_now :=
  state_simpl; cbn [existsb is_outline List.filter holding length orb];
  first [ split; [reflexivity | left; split; first [reflexivity | assumption]]
        | split; [reflexivity | right; repeat split; first [reflexivity | assumption]]
        | repeat split; reflexivity ].

Lemma begin_flight (o : Op) (st : State) (r : State * list Task) :
  o <> OpSendToWindow2 -> begin o st = Some r ->
  existsb is_outline (snd r) = false /\
  ((List.filter holding (snd r) = [] /\
    isGeneratingGlobal (fst r) = isGeneratingGlobal st) \/
   (isGeneratingGlobal st = false /\ length (List.filter holding (snd r)) = 1 /\
    isGeneratingGlobal (fst r) = true)).
Proof.
  intros Ho Hb.
  destruct o; cbn [begin] in Hb; try (now elim Ho).
  - injection Hb as <-. unfold autoSelectFeatures_begin. split_cases; flight_now.
  - injection Hb as <-. flight_now.
  - injection Hb as <-. destruct view; flight_now.
  - injection Hb as <-. flight_now.
  - destruct (readDocument doc st) as [s|] eqn:E; [|discriminate].
    injection Hb as <-. unfold readDocument in E. revert E.
    split_cases; intros [= <-]; unfold setView; flight_now.
  - injection Hb as <-. destruct confirmed; flight_now.
  - injection Hb as <-. flight_now.
  - injection Hb as <-. flight_now.
  - injection Hb as <-. unfold removeSection. split_cases; flight_now.
  - injection Hb as <-. flight_now.
  - injection Hb as <-. unfold autoWrite_begin, autoWrite_next.
    destruct (isGeneratingGlobal st) eqn:Hg; [flight_now|].
    state_simpl. destruct (sections st !! 0); flight_now.
  - injection Hb as <-. unfold autoHumanize_begin.
    destruct (isGeneratingGlobal st) eqn:Hg; [flight_now|].
    match goal with |- context [autoHumanize_next ?s ?f ?i ?x] =>
      destruct (autoHumanize_next_spec s f i x) as [-> | (? & ? & _ & _ & _ & ->)] end;
      flight_now.
  - injection Hb as <-. unfold academicReview_begin.
    destruct (isGeneratingGlobal st) eqn:Hg; [flight_now|].
    split_cases; flight_now.
  - injection Hb as <-. unfold saveToSupabase_begin.
    destruct (isGeneratingGlobal st) eqn:Hg; flight_now.
  - injection Hb as <-. flight_now.
  - injection Hb as <-. flight_now.
Qed.

Lemma resume_flight (t : Task) (a : Answer) (st : State) (r : State * list Task) :
  is_outline t = false -> resume t a st = Some r ->
  existsb is_outline (snd r) = false /\
  (if holding t
   then List.filter holding (snd r) = [] \/
        (length (List.filter holding (snd r)) = 1 /\
         isGeneratingGlobal (fst r) = isGeneratingGlobal st)
   else List.filter holding (snd r) = [] /\
        isGeneratingGlobal (fst r) = isGeneratingGlobal st).
Proof.
  intros Ht Hr.
  destruct t, a; cbn [resume is_outline holding] in *; try discriminate;
    injection Hr as <-.
  - unfold autoSelectFeatures_resume. split_cases; flight_now.
  - unfold loadDocuments_resume. destruct a; flight_now.
  - unfold deleteDocument_resume. destruct ok; flight_now.
  - unfold autoWrite_resume.
    destruct (sections st !! i); [|flight_now].
    pose proof (stream_into_flag i (chunks a) "" st) as Hf.
    destruct (stream_into i (chunks a) "" st) as [full s1]. cbn [snd] in Hf.
    destruct (throws a); [flight_now|].
    unfold autoWrite_next. state_simpl. destruct (_ !! S i); flight_now.
  - unfold autoHumanize_resume.
    destruct (sections st !! i); [|flight_now].
    pose proof (stream_into_flag i (chunks a) "" st) as Hf.
    destruct (stream_into i (chunks a) "" st) as [full s1]. cbn [snd] in Hf.
    destruct (throws a); [flight_now|].
    match goal with |- context [autoHumanize_next ?s ?f ?i ?x] =>
      destruct (autoHumanize_next_spec s f i x) as [-> | (? & ? & _ & _ & _ & ->)] end;
      flight_now.
  - unfold academicReview_resume. flight_now.
  - unfold saveToSupabase_resume.
    destruct a; [flight_now|]. destruct (currentView st); flight_now.
Qed.

Lemma sys_step_one_in_flight (e : Event) (s : Sys) :
  outline_free e = true -> one_in_flight s -> one_in_flight (sys_step e s).
Proof.
  intros He (Hout & Hfl). destruct e as [o | n a]; cbn [sys_step].
  - destruct (begin o (component s)) as [[st1 ts]|] eqn:Hb; [|now split].
    cbn [flushed].
    assert (o <> OpSendToWindow2) as Ho by (intros ->; discriminate).
    destruct (begin_flight o (component s) (st1, ts) Ho Hb) as (Hts & Hcase).
    cbn [fst snd] in Hts, Hcase.
    unfold one_in_flight, in_flight in *. cbn [waiting component].
    rewrite existsb_app, Hout, Hts, List.filter_app, length_app, flush_isGeneratingGlobal.
    split; [reflexivity|].
    destruct Hcase as [(-> & ->) | (Hg & -> & ->)].
    + cbn [length]. rewrite Nat.add_0_r. exact Hfl.
    + destruct Hfl as [-> | (_ & Hg')]; [now right | congruence].
  - destruct (waiting s !! n) as [t|] eqn:Hn; [|now split].
    destruct (resume t a (component s)) as [[st1 ts]|] eqn:Hr; [|now split].
    cbn [flushed].
    destruct (resume_flight t a (component s) (st1, ts)
                (outline_lookup n (waiting s) t Hout Hn) Hr) as (Hts & Hcase).
    cbn [fst snd] in Hts, Hcase.
    pose proof (holding_delete n (waiting s) t Hn) as Hd.
    unfold one_in_flight, in_flight in *. cbn [waiting component].
    rewrite existsb_app, (outline_delete n _ Hout), Hts, List.filter_app, length_app,
      flush_isGeneratingGlobal.
    split; [reflexivity|].
    destruct (holding t).
    + destruct Hfl as [H0 | (H1 & Hg)]; [lia|].
      destruct Hcase as [-> | (-> & ->)]; [left; cbn [length]; lia|].
      right. split; [lia | exact Hg].
    + destruct Hcase as (-> & ->). cbn [length]. rewrite Nat.add_0_r.
      cbn [Nat.add] in Hd. rewrite <- Hd. exact Hfl.
Qed.

Lemma sys_run_one_in_flight (es : list Event) :
  forall s, forallb outline_free es = true -> one_in_flight s ->
            one_in_flight (sys_run es s).
Proof.
  induction es as [|e es IH]; intros s Hes Hs; [exact Hs|].
  cbn [forallb] in Hes. apply andb_prop in Hes as [He Hes].
  cbn [sys_run fold_left]. apply (IH (sys_step e s) Hes).
  exact (sys_step_one_in_flight e s He Hs).
Qed.

(** C8 (amended).  While [sendToWindow2] is not called, at most one call of
    [autoWrite], [autoHumanize], [academicReview] and [saveToSupabase] waits
    for its answer at any time, whatever else is invoked and in whatever
    order the answers arrive; the flag is set while it waits, and each of
    these four methods returns at once without a call when the flag is set. *)
Theorem guarded_calls_exclusive (es : list Event) (st : State) :
  forallb outline_free es = true ->
  let s := sys_run es (mkSys st []) in
  in_flight s <= 1 /\
  (in_flight s = 1 -> isGeneratingGlobal (component s) = true) /\
  (forall o, guarded o = true -> isGeneratingGlobal (component s) = true ->
             begin o (component s) = Some (component s, []) /\
             sys_step (Invoke o) s =
               mkSys (flush (component s)) (waiting s ++ [])%list).
Proof.
  intros Hes s.
  destruct (sys_run_one_in_flight es (mkSys st []) Hes) as (_ & H).
  { split; [reflexivity | now left]. }
  fold s in H. split; [destruct H as [-> | [-> _]]; lia|].
  split; [intros H1; destruct H as [H0 | [_ Hg]]; [lia | exact Hg]|].
  intros o Ho Hg. pose proof (guarded_returns o (component s) Ho Hg) as Hb.
  split; [exact Hb|]. cbn [sys_step]. now rewrite Hb.
Qed.

Lemma guarded_calls_exclusive_witness :
  in_flight (sys_run [Invoke OpAddNewSection; Invoke OpAutoWrite;
                      Invoke OpLoadDocuments; Invoke OpAutoWrite]
                     (mkSys (initialState None) [])) <= 1.
Proof.
  apply (guarded_calls_exclusive
           [Invoke OpAddNewSection; Invoke OpAutoWrite;
            Invoke OpLoadDocuments; Invoke OpAutoWrite]
           (initialState None) eq_refl).
Defined.

(** C8 as stated fails: with the stream of [autoWrite] in flight,
    [loadDocuments], [autoSelectFeatures] and [sendToWindow2] each start a
    call of their own; and [sendToWindow2] clears the flag when it ends, after
    which a second [autoWrite] runs beside the first. *)
Lemma calls_overlap :
  let s1 := sys_run [Invoke OpAutoWrite; Invoke OpLoadDocuments;
                     Invoke (OpAutoSelectFeatures "g" ["superRole"]);
                     Invoke OpSendToWindow2] drafting in
  let s2 := sys_run [Invoke OpAutoWrite; Invoke OpSendToWindow2;
                     Arrive 1 (Content None); Invoke OpAutoWrite] drafting in
  waiting drafting = [] /\ calls (component drafting) = [] /\
  length (waiting s1) = 4 /\ length (calls (component s1)) = 4 /\
  in_flight s2 = 2 /\ length (calls (component s2)) = 3.
Proof. vm_compute. repeat split. Qed.

(* ------------------------------------------------------------------ *)
(** ** The controls of the form *)

Lemma form_set_keys (k : string) (v : JsValue) (f : Form) :
  map fst (form_set k v f) = map fst f.
Proof.
  induction f as [|[k' v'] f IH]; [reflexivity|]. cbn [form_set].
  destruct (String.eqb k' k); cbn [map fst]; [reflexivity | now rewrite IH].
Qed.

Lemma form_get_set (k k' : string) (v : JsValue) (f : Form) :
  form_get (form_set k v f) k' =
  if String.eqb k k' then option_map (fun _ => v) (form_get f k') else form_get f k'.
Proof.
  induction f as [|[k0 v0] f IH]; [now destruct (String.eqb k k')|].
  cbn [form_set form_get]. destruct (String.eqb k0 k) eqn:E0.
  - apply String.eqb_eq in E0 as ->. cbn [form_get].
    destruct (String.eqb k k') eqn:E; reflexivity.
  - cbn [form_get]. destruct (String.eqb k0 k') eqn:E1; [|exact IH].
    apply String.eqb_eq in E1 as ->. now rewrite String.eqb_sym, E0.
Qed.

Lemma form_set_missing (k : string) (v : JsValue) (f : Form) :
  form_get f k = None -> form_set k v f = f.
Proof.
  induction f as [|[k0 v0] f IH]; [reflexivity|]. cbn [form_set form_get].
  destruct (String.eqb k0 k); [discriminate|]. intros H. now rewrite IH.
Qed.

Lemma fold_form_set_keys (v : JsValue) (ks : list string) :
  forall f, map fst (fold_left (fun f k => form_set k v f) ks f) = map fst f.
Proof.
  induction ks as [|k ks IH]; intros f; [reflexivity|].
  cbn [fold_left]. now rewrite IH, form_set_keys.
Qed.

Lemma fold_form_set_get (v : JsValue) (ks : list string) (k' : string) :
  forall f,
    form_get (fold_left (fun f k => form_set k v f) ks f) k' =
    if existsb (String.eqb k') ks then option_map (fun _ => v) (form_get f k')
    else form_get f k'.
Proof.
  induction ks as [|k ks IH]; intros f; [reflexivity|].
  cbn [fold_left existsb]. rewrite IH, form_get_set, (String.eqb_sym k' k).
  destruct (String.eqb k k'), (existsb (String.eqb k') ks), (form_get f k');
    reflexivity.
Qed.

Lemma fold_select_key (sel : list string) :
  forall f, fold_left select_key (map JStr sel) f =
            fold_left (fun f k => form_set k (VBool true) f) sel f.
Proof. induction sel as [|k sel IH]; intros f; [reflexivity | apply IH]. Qed.

(** X1.  [onFileChange], for an input that holds a file, writes the note
    with the name of the file into the control named, when the form has
    such a control, and leaves everything as it was when it has none; no
    other control, no control name and no section changes. *)
Theorem onFileChange_sets_control (file_name controlName : string) (st : State) :
  let st' := onFileChange file_name controlName st in
  map fst (advancedForm st') = map fst (advancedForm st) /\
  (forall k, k <> controlName ->
             form_get (advancedForm st') k = form_get (advancedForm st) k) /\
  form_get (advancedForm st') controlName =
    option_map (fun _ => VStr ("[فایل هەڵبژێردرا: " ++ file_name ++ "]"))
               (form_get (advancedForm st) controlName) /\
  (form_get (advancedForm st) controlName = None -> advancedForm st' = advancedForm st) /\
  sections st' = sections st /\ calls st' = calls st /\
  effectPending st' = effectPending st.
Proof.
  unfold onFileChange, input. state_simpl. split; [apply form_set_keys|].
  split; [|split; [|split; [|now repeat split]]].
  - intros k Hk. rewrite form_get_set.
    destruct (String.eqb controlName k) eqn:E; [|reflexivity].
    apply String.eqb_eq in E. congruence.
  - rewrite form_get_set, String.eqb_refl. reflexivity.
  - intros H. now apply form_set_missing.
Qed.

(* ------------------------------------------------------------------ *)
(** ** [autoSelectFeatures] *)

Lemma flush_isAutoSelecting (st : State) : isAutoSelecting (flush st) = isAutoSelecting st.
Proof. destruct st as [? ? ? [|] ? ? ? ? ? ? ? [|] ?]; reflexivity. Qed.

Lemma flush_savedDocuments (st : State) : savedDocuments (flush st) = savedDocuments st.
Proof. destruct st as [? ? ? [|] ? ? ? ? ? ? ? [|] ?]; reflexivity. Qed.

Lemma flush_isLoadingDocs (st : State) : isLoadingDocs (flush st) = isLoadingDocs st.
Proof. destruct st as [? ? ? [|] ? ? ? ? ? ? ? [|] ?]; reflexivity. Qed.

Ltac state_simpl_in H :=
  cbn [currentView writingWindow advancedForm sections activeSectionId
       isGeneratingGlobal globalError isAutoSelecting savedDocuments isLoadingDocs
       localStorage effectPending calls
       set_currentView set_writingWindow set_advancedForm set_sections
       set_activeSectionId set_isGeneratingGlobal set_globalError set_isAutoSelecting
       set_savedDocuments set_isLoadingDocs set_localStorage set_effectPending send
       initialState fst snd] in H.

(** The fields of a state after the effect, except the cache. *)
Ltac flush_simpl :=
  repeat (progress (rewrite ?flush_sections, ?flush_advancedForm, ?flush_activeSectionId,
                      ?flush_isGeneratingGlobal, ?flush_writingWindow, ?flush_currentView,
                      ?flush_globalError, ?flush_calls, ?flush_isAutoSelecting,
                      ?flush_savedDocuments, ?flush_isLoadingDocs;
                    state_simpl)).

Lemma calls_since_send (st st' : State) (c : Call) :
  calls st' = (calls st ++ [c])%list -> calls_since st st' = [c].
Proof. intros H. unfold calls_since. now rewrite H, drop_app_length. Qed.

Lemma calls_since_none (st st' : State) :
  calls st' = calls st -> calls_since st st' = [].
Proof. intros H. unfold calls_since. rewrite H. apply drop_all. Qed.

Lemma JSON_parse_empty : JSON_parse "" = None.
Proof. reflexivity. Qed.


(** X2.  [autoSelectFeatures] on a form with a title, when the answer is the
    text of an array of names: one request is sent; every control the answer
    names is switched on, whether it is in the group or not, every other
    control of the group is switched off, and the remaining controls keep
    their values; names that are no control of the form are passed over.
    The sections are as they were and the indicator is cleared. *)
Theorem autoSelectFeatures_selects
    (groupName : string) (groupKeys sel : list string) (text : string) (st : State) :
  truthy (form_get (advancedForm st) "title") = true ->
  JSON_parse text = Some (JArr (map JStr sel)) ->
  exists st' : State,
    act (OpAutoSelectFeatures groupName groupKeys) [Content (Some (Some text))] st
      = Some st' /\
    map fst (advancedForm st') = map fst (advancedForm st) /\
    (forall k, form_get (advancedForm st') k =
               option_map (selected_value groupKeys sel k) (form_get (advancedForm st) k)) /\
    isAutoSelecting st' = None /\ globalError st' = "" /\
    sections st' = sections st /\
    calls_since st st' =
      [GenerateContent (render (advancedForm st) [join ", " groupKeys]
                               autoSelectFeatures_template)].
Proof.
  intros Ht Hp. unfold act. cbn [begin]. unfold autoSelectFeatures_begin.
  rewrite Ht. cbn [negb flushed settle resume].
  unfold autoSelectFeatures_resume.
  destruct text as [|c r]; [rewrite JSON_parse_empty in Hp; discriminate|].
  rewrite flush_advancedForm. state_simpl. rewrite Hp. cbn [flushed app settle].
  eexists. split; [reflexivity|]. flush_simpl. rewrite fold_select_key.
  split; [now rewrite !fold_form_set_keys|].
  split; [|split; [|split; [|split]]]; try reflexivity.
  - intros k. rewrite !fold_form_set_get. unfold selected_value.
    destruct (existsb (String.eqb k) sel), (existsb (String.eqb k) groupKeys),
      (form_get (advancedForm st) k); reflexivity.
  - now apply calls_since_send; flush_simpl.
Qed.

Lemma autoSelectFeatures_selects_witness :
  exists st' : State,
    act (OpAutoSelectFeatures "vip" ["superRole"; "dialectic"])
        [Content (Some (Some (JSON_stringify (JArr [JStr "superRole"]))))] titled
      = Some st' /\
    form_get (advancedForm st') "superRole" = Some (VBool true) /\
    form_get (advancedForm st') "dialectic" = Some (VBool false).
Proof.
  destruct (autoSelectFeatures_selects "vip" ["superRole"; "dialectic"] ["superRole"]
              (JSON_stringify (JArr [JStr "superRole"])) titled eq_refl eq_refl)
    as (st' & H & _ & Hk & _).
  exists st'. split; [exact H|]. rewrite !Hk. split; reflexivity.
Defined.

(** Texts that begin like no JSON value. *)
Lemma value_step_no_start elements members (s : string) (d : ascii) (r : string) :
  skip_ws s = String d r -> starts_value d = false ->
  value_step elements members s = None.
Proof.
  intros Hs Hd. unfold value_step. rewrite Hs. unfold starts_value in Hd.
  cbv zeta in Hd. repeat (apply orb_false_elim in Hd as [Hd ?]).
  cbv zeta.
  repeat match goal with H : (_ =? _)%nat = false |- _ => rewrite H; clear H end.
  unfold parse_number.
  destruct (Ascii.eqb_spec d "-"%char) as [->|_]; [discriminate|].
  unfold parse_unsigned. cbn [span_digits]. now rewrite Hd.
Qed.

Lemma parse_value_no_start (fuel : nat) (s : string) (d : ascii) (r : string) :
  skip_ws s = String d r -> starts_value d = false -> parse_value fuel s = None.
Proof.
  intros Hs Hd. destruct fuel; [reflexivity|]. cbn [parse_value].
  now apply (value_step_no_start _ _ s d r).
Qed.

(** [JSON.parse] throws on these texts. *)
Lemma not_json_parse (s : string) : not_json s = true -> JSON_parse s = None.
Proof.
  unfold not_json, JSON_parse. intros H.
  assert (parse_value (S (String.length s)) s = None) as ->; [|reflexivity].
  cbn [parse_value]. 
  destruct (skip_ws s) as [|c r] eqn:Hs.
  - unfold value_step. now rewrite Hs.
  - cbv zeta in H.
    destruct (Nat.eqb_spec (nat_of_ascii c) 91) as [E|_].
    + unfold value_step. rewrite Hs. cbv zeta. rewrite E. cbn [Nat.eqb].
      destruct (skip_ws r) as [|d r1] eqn:Hr; [reflexivity|].
      apply negb_true_iff, orb_false_elim in H as [H1 H2]. rewrite H2.
      destruct (String.length s) as [|f]; [reflexivity|]. cbn [parse_elements].
      unfold elements_step. now rewrite (parse_value_no_start f r d r1).
    + destruct (Nat.eqb_spec (nat_of_ascii c) 123) as [E|_].
      * unfold value_step. rewrite Hs. cbv zeta. rewrite E. cbn [Nat.eqb].
        destruct (skip_ws r) as [|d r1] eqn:Hr; [reflexivity|].
        apply negb_true_iff, orb_false_elim in H as [H1 H2]. rewrite H2.
        destruct (String.length s) as [|f]; [reflexivity|]. cbn [parse_members].
        unfold members_step. now rewrite Hr, H1.
      * apply negb_true_iff in H. now apply (value_step_no_start _ _ s c r).
Qed.

(** X3.  [autoSelectFeatures] on a form with a title, when the answer does
    not give an array: the message of the failure is shown, the indicator
    is cleared and the sections are as they were.  When the call fails, or
    the answer is a text that [JSON.parse] refuses at its first or second
    token, the form is as it was; when the answer is JSON text of something
    else than an array, the controls of the group have been switched off
    before the failure shows. *)
Theorem autoSelectFeatures_failure
    (groupName : string) (groupKeys : list string) (a : ContentAnswer) (st : State) :
  truthy (form_get (advancedForm st) "title") = true ->
  (unreadable a = true \/
   exists v, parsed_answer a = Some v /\ forall l, v <> JArr l) ->
  exists st' : State,
    act (OpAutoSelectFeatures groupName groupKeys) [Content a] st = Some st' /\
    globalError st' = msg_autoSelect /\ isAutoSelecting st' = None /\
    sections st' = sections st /\
    map fst (advancedForm st') = map fst (advancedForm st) /\
    (unreadable a = true -> advancedForm st' = advancedForm st) /\
    (unreadable a = false ->
     forall k, form_get (advancedForm st') k =
               if existsb (String.eqb k) groupKeys
               then option_map (fun _ => VBool false) (form_get (advancedForm st) k)
               else form_get (advancedForm st) k).
Proof.
  intros Ht Hp. unfold act. cbn [begin]. unfold autoSelectFeatures_begin.
  rewrite Ht. cbn [negb flushed settle resume].
  unfold autoSelectFeatures_resume. flush_simpl.
  destruct a as [r|]; cbn [parsed_answer unreadable] in *.
  - change (match r with Some (String c r0) => String c r0 | _ => "[]" end)
      with (answer_text r).
    destruct (not_json (answer_text r)) eqn:Hn.
    + rewrite (not_json_parse _ Hn).
      cbn [flushed app settle]. eexists. split; [reflexivity|]. flush_simpl.
      repeat split; try reflexivity. discriminate.
    + destruct Hp as [Hp|(v & Hv & Hl)]; [discriminate|]. rewrite Hv.
      destruct v; try (now elim (Hl l)); cbn [flushed app settle];
        (eexists; split; [reflexivity|]); flush_simpl;
        (repeat split; try reflexivity; try discriminate;
         [now rewrite fold_form_set_keys | intros _ k; apply fold_form_set_get]).
  - cbn [flushed app settle]. eexists. split; [reflexivity|]. flush_simpl.
    repeat split; try reflexivity. discriminate.
Qed.

Lemma autoSelectFeatures_failure_witness :
  exists st' : State,
    act (OpAutoSelectFeatures "vip" ["superRole"]) [Content (Some (Some "Sure: superRole"))]
        titled = Some st' /\
    globalError st' = msg_autoSelect /\ advancedForm st' = advancedForm titled.
Proof.
  destruct (autoSelectFeatures_failure "vip" ["superRole"] (Some (Some "Sure: superRole"))
              titled eq_refl)
    as (st' & H & He & _ & _ & _ & Hf & _); [left; reflexivity|].
  exists st'. repeat split; [exact H | exact He | now apply Hf].
Defined.

(** X4.  [autoSelectFeatures] on a form without a title sends no request:
    it shows the message that asks for the title and leaves the form, the
    sections and the indicator as they were. *)
Theorem autoSelectFeatures_needs_title
    (groupName : string) (groupKeys : list string) (answers : list Answer) (st : State) :
  truthy (form_get (advancedForm st) "title") = false ->
  exists st' : State,
    act (OpAutoSelectFeatures groupName groupKeys) answers st = Some st' /\
    calls_since st st' = [] /\ globalError st' = msg_autoSelect_title /\
    advancedForm st' = advancedForm st /\ sections st' = sections st /\
    isAutoSelecting st' = isAutoSelecting st.
Proof.
  intros Ht. unfold act. cbn [begin]. unfold autoSelectFeatures_begin.
  rewrite Ht. cbn [negb flushed]. rewrite settle_nil.
  eexists. split; [reflexivity|]. flush_simpl.
  repeat split. apply calls_since_none. now flush_simpl.
Qed.

Lemma autoSelectFeatures_needs_title_witness :
  exists st' : State,
    act (OpAutoSelectFeatures "vip" ["superRole"]) [] (initialState None) = Some st' /\
    calls_since (initialState None) st' = [].
Proof.
  destruct (autoSelectFeatures_needs_title "vip" ["superRole"] [] (initialState None)
              eq_refl) as (st' & H & Hc & _).
  exists st'. split; [exact H | exact Hc].
Defined.

(* ------------------------------------------------------------------ *)
(** ** Startup *)

(** X5.  A cache that is absent, empty, or holds a text that [JSON.parse]
    refuses at its first or second token, never keeps the component from
    starting: [ngOnInit] shows the landing view and changes nothing else. *)
Theorem ngOnInit_unreadable_cache (st : State) :
  (forall saved, localStorage st = Some saved -> not_json saved = true) ->
  ngOnInit st = Some (set_currentView Landing st).
Proof.
  intros H. unfold ngOnInit. state_simpl.
  destruct (localStorage st) as [saved|]; [|reflexivity].
  rewrite (not_json_parse saved (H saved eq_refl)). now destruct (nonempty saved).
Qed.

Lemma ngOnInit_unreadable_cache_witness :
  ngOnInit (initialState (Some "{")) = Some (set_currentView Landing (initialState (Some "{"))).
Proof.
  apply ngOnInit_unreadable_cache. intros saved [= <-]. reflexivity.
Defined.

(** X6.  Whenever [ngOnInit] goes through (the cache holds nothing
    readable, or values of the declared types), it either only shows the
    landing view, or restores a list of sections that is not empty, makes
    its first section the active one (also when its id is 0) and shows the
    second writing window; it never writes the cache, sends no request and
    leaves the list of the library alone. *)
Theorem ngOnInit_outcome (st st' : State) :
  ngOnInit st = Some st' ->
  (st' = set_currentView Landing st \/
   (exists x l, sections st' = x :: l /\ activeSectionId st' = Some (id x)) /\
   currentView st' = Writing /\ writingWindow st' = 2) /\
  localStorage st' = localStorage st /\ calls st' = calls st /\
  savedDocuments st' = savedDocuments st.
Proof.
  assert (forall a b s s', restore a b s = Some s' ->
            (s' = s \/
             (exists x l, sections s' = x :: l /\ activeSectionId s' = Some (id x)) /\
             currentView s' = Writing /\ writingWindow s' = 2) /\
            localStorage s' = localStorage s /\ calls s' = calls s /\
            savedDocuments s' = savedDocuments s) as Hrestore.
  { intros a b s s'. unfold restore.
    split_cases; intros [= <-];
      try match goal with
          | H : match ?x with _ => _ end = Some _ |- _ =>
              revert H; split_cases; intros [= <-]
          end; state_simpl;
      first [ now (split; [left|])
            | split; [right; split; [eexists; eexists; split; reflexivity | now split]
                     | now repeat split] ]. }
  unfold ngOnInit. state_simpl.
  destruct (localStorage st) as [saved|] eqn:Hs; [|intros [= <-]; now (split; [left|])].
  destruct (nonempty saved); [|intros [= <-]; now (split; [left|])].
  destruct (JSON_parse saved) as [[]|]; try (intros [= <-]; now (split; [left|]));
    intros H; apply Hrestore in H; cbn [localStorage calls savedDocuments set_currentView] in H; rewrite Hs in H;
    exact H.
Qed.

Lemma ngOnInit_outcome_witness :
  exists st' : State,
    ngOnInit (initialState (localStorage after_first_add)) = Some st' /\
    localStorage st' = localStorage after_first_add /\ calls st' = [].
Proof.
  destruct (ngOnInit (initialState (localStorage after_first_add))) as [st'|] eqn:E;
    [|vm_compute in E; discriminate].
  exists st'. split; [reflexivity|].
  destruct (ngOnInit_outcome _ _ E) as (_ & Hl & Hc & _). now split.
Defined.

Lemma stringify_array_nonempty (l : list json) : nonempty (JSON_stringify (JArr l)) = true.
Proof. reflexivity. Qed.

(** X7.  A cache in the older format, the bare array of the sections, is
    restored as well: the sections come back, the first one is active, the
    second writing window shows, and the form keeps its values. *)
Theorem ngOnInit_bare_array (st : State) (x : BookSection) (l : list BookSection) :
  localStorage st = Some (JSON_stringify (sections_to_json (x :: l))) ->
  ngOnInit st =
  Some (set_currentView Writing
          (set_writingWindow 2
             (set_activeSectionId (Some (id x))
                (set_sections (x :: l) (set_currentView Landing st))))).
Proof.
  intros H. unfold ngOnInit. state_simpl. rewrite H.
  unfold sections_to_json at 1. rewrite stringify_array_nonempty.
  rewrite (JSON_parse_stringify _ (sections_json_wf (x :: l))).
  unfold sections_to_json, restore. cbn [map].
  change (section_to_json x :: map section_to_json l) with (map section_to_json (x :: l)).
  now rewrite sections_of_to_list.
Qed.

Lemma ngOnInit_bare_array_witness :
  option_map sections
    (ngOnInit (initialState (Some (JSON_stringify (sections_to_json (sections after_first_add))))))
  = Some (sections after_first_add).
Proof.
  change (sections after_first_add) with [mkSection 1 new_section_title "" Pending].
  rewrite (ngOnInit_bare_array
             (initialState (Some (JSON_stringify
                (sections_to_json [mkSection 1 new_section_title "" Pending]))))
             (mkSection 1 new_section_title "" Pending) [] eq_refl).
  reflexivity.
Defined.

(** X8.  After [clearSections], loading the page again starts from
    scratch: no section, the initial form, the landing view. *)
Theorem clearSections_then_reload (answers : list Answer) (st st' : State) :
  act OpClearSections answers st = Some st' ->
  sections st' = [] /\ activeSectionId st' = None /\
  reload st' = Some (initialState None).
Proof.
  intros H. unfold act in H. cbn [begin flushed] in H. rewrite settle_nil in H.
  injection H as <-. flush_simpl. unfold clearSections. state_simpl.
  repeat split.
Qed.

Lemma clearSections_then_reload_witness :
  exists st' : State,
    act OpClearSections [] after_first_add = Some st' /\
    reload st' = Some (initialState None).
Proof.
  eexists. split; [reflexivity|].
  apply (clearSections_then_reload [] after_first_add _ eq_refl).
Defined.

(** X9.  A document whose only section is removed comes back when the page
    is loaded again: the removal empties the list, the effect then writes
    nothing, and the cache still holds that section. *)
Theorem removed_section_returns (st : State) (x : BookSection) :
  sections st = [x] -> effectPending st = false ->
  localStorage st = Some (snapshot_text st) ->
  form_canonical (advancedForm st) = true ->
  exists st' st'' : State,
    act (OpRemoveSection (id x) true) [] st = Some st' /\ sections st' = [] /\
    reload st' = Some st'' /\ sections st'' = [x] /\
    activeSectionId st'' = Some (id x) /\ currentView st'' = Writing.
Proof.
  intros Hs Hp Hl Hf. unfold act. cbn [begin flushed settle].
  eexists. eexists. split; [reflexivity|].
  assert (sections (flush (removeSection (id x) true st)) = []) as He.
  { rewrite flush_sections. unfold removeSection.
    split_cases; state_simpl; rewrite Hs; cbn [List.filter]; now rewrite Z.eqb_refl. }
  split; [exact He|].
  pose proof (removeSection_last (id x) [] st _ eq_refl He) as Hk.
  unfold reload. rewrite Hk, Hl. unfold snapshot_text. rewrite Hs.
  rewrite (ngOnInit_snapshot x [] (advancedForm st) Hf).
  split; [reflexivity|]. flush_simpl. now repeat split.
Qed.

Lemma removed_section_returns_witness :
  exists st' st'' : State,
    act (OpRemoveSection 1 true) [] after_first_add = Some st' /\ sections st' = [] /\
    reload st' = Some st'' /\ sections st'' = sections after_first_add.
Proof.
  destruct (removed_section_returns after_first_add
              (mkSection 1 new_section_title "" Pending) eq_refl eq_refl eq_refl eq_refl)
    as (st' & st'' & H1 & H2 & H3 & H4 & _).
  exists st', st''. repeat split; assumption.
Defined.

Lemma distinct_NoDup (l : list string) : distinct l = true -> NoDup l.
Proof.
  induction l as [|x r IH]; [constructor|]. cbn [distinct].
  intros H. apply andb_prop in H as [Hx Hr]. constructor; [|now apply IH].
  intros Hin. apply negb_true_iff in Hx.
  assert (existsb (String.eqb x) r = true) as E; [|congruence].
  apply existsb_exists. exists x. split; [now apply list_elem_of_In | apply String.eqb_refl].
Qed.

Lemma initialForm_keys : NoDup (map fst initialForm).
Proof. apply distinct_NoDup. vm_compute. reflexivity. Qed.

Lemma patchValue_keys (obj f : Form) : map fst (patchValue obj f) = map fst f.
Proof.
  unfold patchValue. rewrite map_map. apply map_ext. intros [k v]. cbn [fst].
  now destruct (form_get obj k).
Qed.

Lemma form_get_patchValue (obj f : Form) (k : string) :
  form_get (patchValue obj f) k =
  match form_get f k with
  | Some v0 => Some (match form_get obj k with Some v => v | None => v0 end)
  | None => None
  end.
Proof.
  induction f as [|[k1 v1] r IH]; [reflexivity|].
  cbn [patchValue map fst form_get].
  destruct (String.eqb k1 k) eqn:E.
  - apply String.eqb_eq in E as ->.
    destruct (form_get obj k); cbn [form_get fst]; now rewrite String.eqb_refl.
  - destruct (form_get obj k1); cbn [form_get fst]; rewrite E; exact IH.
Qed.

Lemma patchValue_twice (obj f : Form) :
  NoDup (map fst f) -> patchValue (patchValue obj f) f = patchValue obj f.
Proof.
  intros Hnd. unfold patchValue at 1 3. apply map_ext_in. intros [k v0] Hin.
  cbn [fst]. rewrite form_get_patchValue.
  assert (form_get f k = Some v0) as ->.
  { clear obj. induction f as [|[k1 v1] r IH]; [destruct Hin|].
    cbn [map fst] in Hnd. apply NoDup_cons in Hnd as [Hk Hr]. cbn [form_get].
    destruct Hin as [[= -> ->] | Hin]; [now rewrite String.eqb_refl|].
    destruct (String.eqb k1 k) eqn:E; [|now apply IH].
    apply String.eqb_eq in E as ->. elim Hk. apply list_elem_of_In.
    now apply (in_map fst r (k, v0)). }
  now destruct (form_get obj k).
Qed.

(** X10.  Loading the page twice is the same as loading it once: on a
    cache that is empty or holds a snapshot the component wrote, the page
    loads, and the state it reaches, cache included, is the state reached
    by loading the page again from there. *)
Theorem reload_idempotent (st : State) :
  storage_ok (localStorage st) ->
  exists st' : State, reload st = Some st' /\ reload st' = Some st'.
Proof.
  unfold reload. destruct (localStorage st) as [text|]; cbn [storage_ok].
  - intros (l & f & -> & _ & Hf). destruct l as [|x l].
    + rewrite (ngOnInit_snapshot_empty f Hf). eexists. split; [reflexivity|].
      unfold flush at 1. state_simpl.
      rewrite (ngOnInit_snapshot_empty f Hf). reflexivity.
    + rewrite (ngOnInit_snapshot x l f Hf). eexists. split; [reflexivity|].
      unfold flush at 1. state_simpl. unfold autosave_effect. state_simpl.
      rewrite (ngOnInit_snapshot x l (patchValue f initialForm)
                 (patchValue_canonical _ _ Hf initialForm_canonical)).
      unfold flush, autosave_effect. state_simpl.
      now rewrite (patchValue_twice f initialForm initialForm_keys).
  - intros _. eexists. split; reflexivity.
Qed.

Lemma reload_idempotent_witness :
  exists st' : State, reload after_first_add = Some st' /\ reload st' = Some st'.
Proof.
  apply reload_idempotent. cbn [storage_ok].
  exists (sections after_first_add), (advancedForm after_first_add).
  split; [reflexivity|]. split; [|reflexivity].
  vm_compute. repeat constructor. intros H. inversion H.
Defined.

(* ------------------------------------------------------------------ *)
(** ** The library *)



(** X12.  [deleteDocument], once confirmed, sends one request; when it
    succeeds the rows with that id, and only those, leave the list of the
    library, the others staying in their order; when it fails the list is
    as it was and the message shows.  The sections and the form are not
    touched.  Declined, it sends nothing and changes nothing. *)
Theorem deleteDocument_removes_row (row : Z) (ok : bool) (answers : list Answer) (st : State) :
  (exists st' : State,
      act (OpDeleteDocument row true) [Deleted ok] st = Some st' /\
      calls_since st st' = [Delete row] /\
      sections st' = sections st /\ advancedForm st' = advancedForm st /\
      savedDocuments st' =
        (if ok then List.filter (fun d => negb (doc_id d =? row)%Z) (savedDocuments st)
         else savedDocuments st) /\
      globalError st' = (if ok then "" else msg_delete) /\
      (ok = true -> ~ In row (map doc_id (savedDocuments st')))) /\
  (exists st' : State,
      act (OpDeleteDocument row false) answers st = Some st' /\
      calls_since st st' = [] /\ savedDocuments st' = savedDocuments st /\
      globalError st' = globalError st).
Proof.
  split.
  - unfold act. cbn [begin]. unfold deleteDocument_begin. cbn [flushed settle resume].
    unfold deleteDocument_resume. destruct ok; cbn [flushed app settle];
      (eexists; split; [reflexivity|]); flush_simpl;
      (split; [apply calls_since_send; now flush_simpl|]); repeat split;
      try discriminate.
    intros _ Hin. apply in_map_iff in Hin as (d & Hd & Hin).
    apply filter_In in Hin as [_ Hne]. rewrite Hd, Z.eqb_refl in Hne. discriminate.
  - unfold act. cbn [begin]. unfold deleteDocument_begin. cbn [flushed].
    rewrite settle_nil. eexists. split; [reflexivity|]. flush_simpl.
    split; [apply calls_since_none; now flush_simpl | now split].
Qed.

(** X13.  Showing the library loads it: [setView] with the library view
    sends one request for the rows; when they arrive they become the list of
    the library, when the request fails the list is as it was and the
    message shows, and in both cases the loading indicator is cleared.  The
    sections and the form are not touched. *)
Theorem setView_library_loads (rows : option (list SavedDocument)) (st : State) :
  exists st' : State,
    act (OpSetView Library) [Rows rows] st = Some st' /\
    currentView st' = Library /\ isLoadingDocs st' = false /\
    calls_since st st' = [Select] /\
    savedDocuments st' = default (savedDocuments st) rows /\
    globalError st' = match rows with Some _ => "" | None => msg_load end /\
    sections st' = sections st /\ advancedForm st' = advancedForm st /\
    writingWindow st' = writingWindow st.
Proof.
  unfold act. cbn [begin]. unfold setView, loadDocuments_begin.
  cbn [flushed settle resume]. unfold loadDocuments_resume.
  cbn [flushed app settle]. eexists. split; [reflexivity|].
  destruct rows; flush_simpl;
    (repeat split; apply calls_since_send; now flush_simpl).
Qed.

Lemma stream_into_calls i cs full st : calls (snd (stream_into i cs full st)) = calls st.
Proof. rewrite stream_into_spec. cbn [snd]. now destruct cs. Qed.

Ltac calls_now :=
  state_simpl;
  first [ exists []; split; [now rewrite app_nil_r | reflexivity]
        | eexists [_]; split; [reflexivity | reflexivity] ].

Lemma resume_calls (t : Task) (a : Answer) (st : State) (r : State * list Task) :
  resume t a st = Some r ->
  exists cs, calls (fst r) = (calls st ++ cs)%list /\ existsb remote_write cs = false.
Proof.
  intros Hr. destruct t, a; cbn [resume] in Hr; try discriminate; injection Hr as <-.
  - unfold autoSelectFeatures_resume. split_cases; calls_now.
  - unfold loadDocuments_resume. destruct a; calls_now.
  - unfold deleteDocument_resume. destruct ok; calls_now.
  - unfold sendToWindow2_resume. destruct a; [|calls_now].
    match goal with |- context [set_sections ?c _] => destruct c end; calls_now.
  - unfold autoWrite_resume. destruct (sections st !! i); [|calls_now].
    pose proof (stream_into_calls i (chunks a) "" st) as Hc.
    destruct (stream_into i (chunks a) "" st) as [full s1]. cbn [snd] in Hc.
    destruct (throws a); [state_simpl; rewrite Hc; calls_now|].
    unfold autoWrite_next. state_simpl.
    destruct (_ !! S i); state_simpl; rewrite Hc; calls_now.
  - unfold autoHumanize_resume. destruct (sections st !! i); [|calls_now].
    pose proof (stream_into_calls i (chunks a) "" st) as Hc.
    destruct (stream_into i (chunks a) "" st) as [full s1]. cbn [snd] in Hc.
    destruct (throws a); [state_simpl; rewrite Hc; calls_now|].
    match goal with |- context [autoHumanize_next ?s ?f ?i ?x] =>
      destruct (autoHumanize_next_spec s f i x) as [-> | (? & ? & _ & _ & _ & ->)] end;
      state_simpl; rewrite Hc; calls_now.
  - unfold academicReview_resume. destruct (sections st !! sectionIndex); [|calls_now].
    pose proof (stream_into_calls sectionIndex (chunks a) "" st) as Hc.
    destruct (stream_into sectionIndex (chunks a) "" st) as [full s1]. cbn [snd] in Hc.
    destruct (throws a); state_simpl; rewrite Hc; calls_now.
  - unfold saveToSupabase_resume. destruct a; [calls_now|].
    destruct (currentView st); calls_now.
Qed.

Lemma settle_calls (answers : list Answer) :
  forall (st st' : State) (ts : list Task),
    settle answers st ts = Some st' ->
    exists cs, calls st' = (calls st ++ cs)%list /\ existsb remote_write cs = false.
Proof.
  induction answers as [|a answers IH]; intros st st' ts Hs.
  - destruct ts; [|discriminate]. injection Hs as <-. exists []. now rewrite app_nil_r.
  - destruct ts as [|t ts]; [injection Hs as <-; exists []; now rewrite app_nil_r|].
    cbn [settle] in Hs. destruct (resume t a st) as [[st1 new]|] eqn:Hr; [|discriminate].
    cbn [flushed] in Hs. destruct (resume_calls t a st _ Hr) as (cs1 & H1 & Hw1).
    destruct (IH _ _ _ Hs) as (cs2 & H2 & Hw2). rewrite flush_calls in H2.
    cbn [fst] in H1. exists (cs1 ++ cs2)%list.
    rewrite H2, H1, <- app_assoc, existsb_app, Hw1, Hw2. now split.
Qed.

Ltac begin_calls_now :=
  state_simpl;
  first [ exists []; split; [now rewrite app_nil_r | intros ? []]
        | eexists [_]; split;
          [reflexivity
          | intros ? [<- | []] ?;
            first [ discriminate
                  | left; split; reflexivity
                  | right; eexists; split; reflexivity ] ] ].

Lemma begin_calls (o : Op) (st : State) (r : State * list Task) :
  begin o st = Some r ->
  exists cs, calls (fst r) = (calls st ++ cs)%list /\
    forall c, In c cs -> remote_write c = true ->
      (o = OpSaveToSupabase /\
       c = Insert (form_get (advancedForm st) "title") (form_get (advancedForm st) "topic")
                  (form_get (advancedForm st) "type") (form_get (advancedForm st) "level")
                  (JSON_stringify (sections_to_json (sections st)))) \/
      (exists row, o = OpDeleteDocument row true /\ c = Delete row).
Proof.
  intros Hb. destruct o; cbn [begin] in Hb.
  - injection Hb as <-. unfold autoSelectFeatures_begin. split_cases; begin_calls_now.
  - injection Hb as <-. begin_calls_now.
  - injection Hb as <-. unfold setView, loadDocuments_begin. destruct view; begin_calls_now.
  - injection Hb as <-. unfold loadDocuments_begin. begin_calls_now.
  - destruct (readDocument doc st) as [s|] eqn:E; [|discriminate].
    injection Hb as <-. unfold readDocument in E. revert E.
    split_cases; intros [= <-]; unfold setView; begin_calls_now.
  - injection Hb as <-. unfold deleteDocument_begin. destruct confirmed; begin_calls_now.
  - injection Hb as <-. unfold sendToWindow2_begin.
    destruct (form_invalid _); [begin_calls_now|].
    match goal with |- context [match ?c with [] => _ | _ :: _ => _ end] =>
      destruct c end; begin_calls_now.
  - injection Hb as <-. begin_calls_now.
  - injection Hb as <-. begin_calls_now.
  - injection Hb as <-. unfold removeSection. split_cases; begin_calls_now.
  - injection Hb as <-. begin_calls_now.
  - injection Hb as <-. unfold autoWrite_begin, autoWrite_next.
    split_cases; begin_calls_now.
  - injection Hb as <-. unfold autoHumanize_begin.
    destruct (isGeneratingGlobal st); [begin_calls_now|].
    match goal with |- context [autoHumanize_next ?s ?f ?i ?x] =>
      destruct (autoHumanize_next_spec s f i x) as [-> | (? & ? & _ & _ & _ & ->)] end;
      begin_calls_now.
  - injection Hb as <-. unfold academicReview_begin. split_cases; begin_calls_now.
  - injection Hb as <-. unfold saveToSupabase_begin. split_cases; begin_calls_now.
  - injection Hb as <-. begin_calls_now.
  - injection Hb as <-. begin_calls_now.
Qed.

(** X14.  The remote table is written only on request: among the requests
    of a method run to its end, with whatever answers, an insertion occurs
    only for [saveToSupabase], and it carries the title, topic, type and
    level of the form and the text of the sections; a deletion occurs only
    for a confirmed [deleteDocument], for the row that was named. *)
Theorem remote_writes_only_on_request
    (o : Op) (answers : list Answer) (st st' : State) (c : Call) :
  act o answers st = Some st' ->
  In c (calls_since st st') -> remote_write c = true ->
  (o = OpSaveToSupabase /\
   c = Insert (form_get (advancedForm st) "title") (form_get (advancedForm st) "topic")
              (form_get (advancedForm st) "type") (form_get (advancedForm st) "level")
              (JSON_stringify (sections_to_json (sections st)))) \/
  (exists row, o = OpDeleteDocument row true /\ c = Delete row).
Proof.
  intros Hact Hin Hw. unfold act in Hact.
  destruct (begin o st) as [[st1 ts]|] eqn:Hb; [|discriminate]. cbn [flushed] in Hact.
  destruct (settle_calls answers _ _ _ Hact) as (cs & Hc & Hcs).
  destruct (begin_calls o st _ Hb) as (cs0 & Hc0 & H0). cbn [fst] in Hc0.
  rewrite flush_calls in Hc. unfold calls_since in Hin.
  rewrite Hc, Hc0, <- app_assoc, drop_app_length in Hin.
  apply in_app_or in Hin as [Hin | Hin]; [exact (H0 c Hin Hw)|].
  exfalso. assert (existsb remote_write cs = true) as E; [|congruence].
  apply existsb_exists. now exists c.
Qed.

Lemma remote_writes_only_on_request_witness :
  let c := Insert (form_get (advancedForm after_first_add) "title")
                  (form_get (advancedForm after_first_add) "topic")
                  (form_get (advancedForm after_first_add) "type")
                  (form_get (advancedForm after_first_add) "level")
                  (JSON_stringify (sections_to_json (sections after_first_add))) in
  (OpSaveToSupabase = OpSaveToSupabase /\ c = c) \/
  (exists row, OpSaveToSupabase = OpDeleteDocument row true /\ c = Delete row).
Proof.
  intros c.
  apply (remote_writes_only_on_request OpSaveToSupabase [Inserted None] after_first_add
           (default after_first_add (act OpSaveToSupabase [Inserted None] after_first_add))
           c eq_refl).
  - vm_compute. left. reflexivity.
  - reflexivity.
Defined.

(* ------------------------------------------------------------------ *)
(** ** The outline of [sendToWindow2] *)

Lemma imap_nonempty {A B : Type} (f : nat -> A -> B) (x : A) (l : list A) :
  imap f (x :: l) = f 0 x :: imap (f ∘ S) l.
Proof. reflexivity. Qed.





(** X17.  When the form is not valid, [sendToWindow2] sends no request and
    only shows the message that asks for the missing values.  When the
    form is valid and the call for the outline fails, the sections, the
    active section and the window are as they were, the message of the
    failure shows and the flag is cleared. *)
Theorem sendToWindow2_failure (st : State) (answers : list Answer) :
  (form_invalid (advancedForm st) = true ->
   exists st' : State,
     act OpSendToWindow2 answers st = Some st' /\
     calls_since st st' = [] /\ globalError st' = msg_invalid /\
     sections st' = sections st /\ writingWindow st' = writingWindow st /\
     isGeneratingGlobal st' = isGeneratingGlobal st) /\
  (form_invalid (advancedForm st) = false ->
   flag (advancedForm st) "useCustomOutline" &&
     nonempty (trimmed (advancedForm st) "customOutline") = false ->
   exists st' : State,
     act OpSendToWindow2 [Content None] st = Some st' /\
     globalError st' = msg_outline /\ isGeneratingGlobal st' = false /\
     sections st' = sections st /\ activeSectionId st' = activeSectionId st /\
     writingWindow st' = writingWindow st /\ localStorage st' = localStorage (flush st)).
Proof.
  split.
  - intros Hinv. unfold act. cbn [begin]. unfold sendToWindow2_begin. rewrite Hinv.
    cbn [flushed]. rewrite settle_nil. eexists. split; [reflexivity|]. flush_simpl.
    split; [apply calls_since_none; now flush_simpl | now repeat split].
  - intros Hvalid Hcustom. unfold act. cbn [begin]. unfold sendToWindow2_begin.
    rewrite Hvalid. state_simpl. rewrite Hcustom.
    cbn [flushed settle resume]. unfold sendToWindow2_resume.
    cbn [flushed app settle]. eexists. split; [reflexivity|]. flush_simpl.
    repeat split.
    destruct st as [? ? ? [|] ? ? ? ? ? ? ? [|] ?]; reflexivity.
Qed.

Lemma sendToWindow2_failure_witness :
  (exists st' : State,
      act OpSendToWindow2 [] (initialState None) = Some st' /\
      globalError st' = msg_invalid) /\
  (exists st' : State,
      act OpSendToWindow2 [Content None] titled = Some st' /\
      globalError st' = msg_outline).
Proof.
  destruct (sendToWindow2_failure (initialState None) []) as [H1 _].
  destruct (sendToWindow2_failure titled []) as [_ H2].
  destruct (H1 eq_refl) as (s1 & A1 & _ & B1 & _).
  destruct (H2 eq_refl eq_refl) as (s2 & A2 & B2 & _).
  split; [exists s1 | exists s2]; now split.
Defined.

Lemma span_digits_not_digit (c : ascii) (rest : string) :
  is_digit c = false -> span_digits (String c rest) = ("", String c rest).
Proof. intros H. cbn [span_digits]. now rewrite H. Qed.

Lemma is_digit_separator : is_digit "."%char = false /\ is_digit "-"%char = false.
Proof. split; reflexivity. Qed.

(** X18.  The title of a line of the outline, [line.replace(/^\d+[.-]/, '')]:
    a decimal numeral at the start of the line goes with the full stop or
    the hyphen that follows it, and only this first one; a line that does
    not start with a digit, or whose leading digits are followed by
    anything else, or by nothing, is kept whole. *)
Theorem strip_numbering_spec :
  (forall (d : Decimal.uint) (c : ascii) (rest : string),
      d <> Decimal.Nil -> c = "."%char \/ c = "-"%char ->
      strip_numbering (NilEmpty.string_of_uint d ++ String c rest) = rest) /\
  (forall (c : ascii) (rest : string),
      is_digit c = false -> strip_numbering (String c rest) = String c rest) /\
  (forall (d : Decimal.uint) (c : ascii) (rest : string),
      is_digit c = false -> c <> "."%char -> c <> "-"%char ->
      strip_numbering (NilEmpty.string_of_uint d ++ String c rest) =
      NilEmpty.string_of_uint d ++ String c rest) /\
  (forall d : Decimal.uint,
      strip_numbering (NilEmpty.string_of_uint d) = NilEmpty.string_of_uint d).
Proof.
  split; [|split; [|split]].
  - intros d c rest Hd Hc. unfold strip_numbering.
    rewrite span_digits_uint
      by (cbn [not_digit_head]; destruct Hc as [-> | ->]; reflexivity).
    destruct (uint_string_head d Hd) as (c0 & cr & -> & _).
    destruct Hc as [-> | ->]; reflexivity.
  - intros c rest Hc. unfold strip_numbering. now rewrite span_digits_not_digit.
  - intros d c rest Hc Hdot Hhyp. unfold strip_numbering.
    rewrite span_digits_uint by (cbn [not_digit_head]; exact Hc).
    destruct (NilEmpty.string_of_uint d) as [|c0 cr]; [reflexivity|].
    apply Ascii.eqb_neq in Hdot, Hhyp. now rewrite Hdot, Hhyp.
  - intros d. unfold strip_numbering.
    rewrite <- (str_app_nil_r (NilEmpty.string_of_uint d)) at 1.
    rewrite span_digits_uint by exact I.
    now destruct (NilEmpty.string_of_uint d).
Qed.

(* ------------------------------------------------------------------ *)
(** ** Runs that end well *)

Lemma written_lookup (a : StreamAnswer) (i : nat) (l : list BookSection) (x : BookSection) :
  l !! i = Some x ->
  alter (set_status Done) i (streamed i a l) !! i = Some (written a x).
Proof.
  intros H. rewrite list_lookup_alter_eq. unfold streamed, written.
  destruct (chunks a); [now rewrite H|].
  rewrite list_lookup_alter_eq, H. reflexivity.
Qed.

Lemma written_status (a : StreamAnswer) (s : Status) (x : BookSection) :
  written a (set_status s x) = written a x.
Proof. reflexivity. Qed.

(** The run of [autoWrite] from the moment the request for the section of
    index [i] is out, when the streams for it and for all the sections
    after it end well. *)
Lemma autoWrite_settle_success (later : list Answer) :
  forall (oks : list StreamAnswer) (form : Form) (sources : string) (i : nat)
         (t : string) (stA : State),
    Forall (fun a => throws a = false) oks -> oks <> [] ->
    i + length oks = length (sections stA) ->
    exists (st' : State) (new : list Call),
      settle (map Stream oks ++ later)%list stA [AwaitWrite form sources i t] = Some st' /\
      length (sections st') = length (sections stA) /\
      (forall j, j < i -> sections st' !! j = sections stA !! j) /\
      (forall j a x, oks !! j = Some a -> sections stA !! (i + j) = Some x ->
                     sections st' !! (i + j) = Some (written a x)) /\
      calls st' = (calls stA ++ new)%list /\
      map call_section new = map Some (seq (S i) (length oks - 1)) /\
      isGeneratingGlobal st' = false /\ globalError st' = globalError stA.
Proof.
  induction oks as [|a oks IH]; intros form sources i t stA Hok Hne Hlen;
    [contradiction|].
  cbn [length] in Hlen. apply Forall_cons in Hok as [Ha Hok].
  cbn [map app settle resume].
  rewrite autoWrite_resume_ok by (assumption || lia).
  set (stB := set_sections (alter (set_status Done) i (streamed i a (sections stA))) stA).
  assert (length (sections stB) = length (sections stA)) as HlB
    by (unfold stB; cbn [sections set_sections]; now rewrite length_alter, streamed_length).
  destruct oks as [|b oks].
  - cbn [length] in *. unfold autoWrite_next.
    rewrite (lookup_ge_None_2 (sections stB) (S i)) by lia.
    cbn [flushed app map]. rewrite settle_nil.
    eexists. exists []. split; [reflexivity|]. flush_simpl. unfold stB in *. state_simpl.
    split; [now rewrite length_alter, streamed_length|].
    split; [intros j Hj; now rewrite list_lookup_alter_ne, streamed_lookup_ne by lia|].
    split; [|now rewrite app_nil_r].
    intros [|j] a0 x Ha0 Hx; [|destruct j; discriminate].
    injection Ha0 as <-. rewrite Nat.add_0_r in *. now apply written_lookup.
  - assert (S i < length (sections stB)) as HSi by (cbn [length] in Hlen; lia).
    destruct (lookup_lt_is_Some_2 _ _ HSi) as [y Hy].
    rewrite (autoWrite_next_some _ _ _ _ _ _ Hy). cbn [flushed app].
    set (stC := flush _).
    assert (sections stC = alter (set_status Generating) (S i)
                             (alter (set_status Done) i (streamed i a (sections stA))))
      as HC by (unfold stC; rewrite flush_sections; reflexivity).
    assert (calls stC = (calls stA ++ [GenerateContentStream (S i)
              (render form [sources; title y; slice_last 500 (stream_text a)]
                      autoWrite_template)])%list)
      as HcC by (unfold stC; rewrite flush_calls; reflexivity).
    assert (globalError stC = globalError stA) as HeC
      by (unfold stC; rewrite flush_globalError; reflexivity).
    destruct (IH form sources (S i) (title y) stC Hok ltac:(discriminate))
      as (st' & new & Hs & Hl & Hlt & Hw & Hcalls & Hsec & Hflag & Herr).
    { rewrite HC, !length_alter, streamed_length. cbn [length] in *. lia. }
    exists st', (GenerateContentStream (S i)
                   (render form [sources; title y; slice_last 500 (stream_text a)]
                           autoWrite_template) :: new).
    split; [exact Hs|].
    rewrite HC in *. rewrite !length_alter, streamed_length in Hl.
    split; [exact Hl|].
    split; [intros j Hj; rewrite Hlt by lia;
            now rewrite !list_lookup_alter_ne, streamed_lookup_ne by lia|].
    split; [|split; [now rewrite Hcalls, HcC, <- app_assoc|
             split; [|split; [exact Hflag | congruence]]]].
    + intros [|j] a0 x Ha0 Hx.
      * injection Ha0 as <-. rewrite Nat.add_0_r in *. rewrite Hlt by lia.
        rewrite list_lookup_alter_ne by lia. now apply written_lookup.
      * cbn [lookup list_lookup] in Ha0.
        replace (i + S j) with (S i + j) in * by lia.
        destruct j as [|j].
        -- rewrite <- (written_status a0 Generating x). apply (Hw 0 a0); [exact Ha0|].
           rewrite Nat.add_0_r in *. rewrite list_lookup_alter_eq,
             list_lookup_alter_ne, streamed_lookup_ne, Hx by lia. reflexivity.
        -- apply (Hw (S j) a0); [exact Ha0|].
           now rewrite !list_lookup_alter_ne, streamed_lookup_ne by lia.
    + cbn [length Nat.sub map call_section seq] in *. rewrite Nat.sub_0_r in Hsec.
      now rewrite Hsec.
Qed.

(** X19.  [autoWrite] is started when no generation runs, on a form whose
    test of the custom sources does not throw.  When the stream of every
    section ends well, it returns with every section done, its id and
    title as they were and the text of its stream as its content (a stream
    without a chunk leaves the content there was); one request was sent
    for each section, in the order of the list; the flag is cleared and no
    message shows.  On an empty list it sends nothing. *)
Theorem autoWrite_writes_all
    (st : State) (oks : list StreamAnswer) (later : list Answer) :
  isGeneratingGlobal st = false ->
  sources_throw (advancedForm st) = false ->
  Forall (fun a => throws a = false) oks ->
  length oks = length (sections st) ->
  exists st' : State,
    act OpAutoWrite (map Stream oks ++ later)%list st = Some st' /\
    length (sections st') = length (sections st) /\
    (forall j a x, oks !! j = Some a -> sections st !! j = Some x ->
                   sections st' !! j = Some (written a x)) /\
    map call_section (calls_since st st') = map Some (seq 0 (length oks)) /\
    isGeneratingGlobal st' = false /\ globalError st' = "".
Proof.
  intros Hflag _ Hok Hlen. unfold act. cbn [begin]. unfold autoWrite_begin. rewrite Hflag.
  destruct oks as [|a oks].
  - cbn [length] in Hlen. unfold autoWrite_next. state_simpl.
    rewrite (lookup_ge_None_2 (sections st) 0) by lia.
    cbn [flushed map app]. rewrite settle_nil. eexists. split; [reflexivity|].
    flush_simpl. split; [reflexivity|]. split; [intros j a x Ha; discriminate|].
    split; [|now split]. rewrite calls_since_none; [reflexivity | now flush_simpl].
  - assert (0 < length (sections st)) as H0 by (cbn [length] in Hlen; lia).
    destruct (lookup_lt_is_Some_2 _ _ H0) as [x0 Hx0].
    rewrite (autoWrite_next_some _ _ _ _ _ x0) by exact Hx0.
    cbn [flushed].
    set (stC := flush _).
    assert (sections stC = alter (set_status Generating) 0 (sections st)) as HC
      by (unfold stC; rewrite flush_sections; reflexivity).
    assert (exists c, calls stC = (calls st ++ [c])%list /\ call_section c = Some 0)
      as (c0 & HcC & Hc0)
      by (eexists; split; [unfold stC; rewrite flush_calls; reflexivity | reflexivity]).
    assert (globalError stC = "") as HeC
      by (unfold stC; rewrite flush_globalError; reflexivity).
    destruct (autoWrite_settle_success later (a :: oks)
                (advancedForm (set_globalError "" (set_isGeneratingGlobal true st)))
                (sourcesInstruction autoWrite_sources
                   (advancedForm (set_globalError "" (set_isGeneratingGlobal true st))))
                0 (title x0) stC Hok ltac:(discriminate))
      as (st' & new & Hs & Hl & _ & Hw & Hcalls & Hsec & Hfl & Herr).
    { rewrite HC, length_alter. cbn [Nat.add]. exact Hlen. }
    exists st'. split; [exact Hs|].
    rewrite HC, length_alter in Hl. split; [exact Hl|].
    split; [|split; [|split; [exact Hfl | congruence]]].
    + intros j a0 x Ha0 Hx. destruct j as [|j].
      * rewrite <- (written_status a0 Generating x). apply (Hw 0 a0); [exact Ha0|].
        rewrite HC, list_lookup_alter_eq. cbn [Nat.add]. now rewrite Hx.
      * apply (Hw (S j) a0); [exact Ha0|].
        rewrite HC. cbn [Nat.add]. now rewrite list_lookup_alter_ne by lia.
    + unfold calls_since. rewrite Hcalls, HcC, <- app_assoc, drop_app_length.
      cbn [app map seq length Nat.sub] in *. rewrite Nat.sub_0_r in Hsec.
      now rewrite Hc0, Hsec.
Qed.

Lemma autoWrite_writes_all_witness :
  exists st' : State,
    act OpAutoWrite (map Stream run_one ++ [])%list two_new_sections = Some st' /\
    map content (sections st') = ["ab"; ""] /\ map status (sections st') = [Done; Done].
Proof.
  destruct (autoWrite_writes_all two_new_sections run_one [] eq_refl eq_refl)
    as (st' & H & _).
  - repeat constructor.
  - reflexivity.
  - exists st'. split; [exact H|]. vm_compute in H. now injection H as <-.
Defined.

Lemma broken_off_lookup (s : Status) (a : StreamAnswer) (i : nat) (l : list BookSection)
    (x : BookSection) :
  l !! i = Some x ->
  streamed i a (alter (set_status s) i l) !! i = Some (broken_off s a x).
Proof.
  intros H. unfold streamed, broken_off.
  destruct (chunks a); rewrite ?list_lookup_alter_eq, H; reflexivity.
Qed.

(** The head of the loop of [autoHumanize] stops at the first section, from
    index [k] on, that has content. *)
Lemma autoHumanize_next_first (sources : string) (st : State) (i : nat) (x : BookSection) :
  sections st !! i = Some x -> content x <> "" ->
  forall (fuel k : nat),
    k <= i < k + fuel ->
    (forall j y, k <= j < i -> sections st !! j = Some y -> content y = "") ->
    autoHumanize_next sources fuel k st =
    (send (GenerateContentStream i
             (render (advancedForm st) [sources; content x] autoHumanize_template))
          (set_activeSectionId (Some (id x))
             (set_sections (alter (set_status Humanizing) i (sections st)) st)),
     [AwaitHumanize sources i (title x)]).
Proof.
  intros Hx Hc. induction fuel as [|fuel IH]; intros k Hk Hempty; [lia|].
  cbn [autoHumanize_next]. destruct (decide (k = i)) as [-> | Hne].
  - rewrite Hx. destruct (content x); [contradiction | reflexivity].
  - assert (k < length (sections st)) as Hlt
      by (apply lookup_lt_Some in Hx; lia).
    destruct (lookup_lt_is_Some_2 _ _ Hlt) as [y Hy]. rewrite Hy.
    rewrite (Hempty k y ltac:(lia) Hy). cbn [nonempty].
    apply IH; [lia|]. intros j z Hj. apply Hempty. lia.
Qed.

(** X20.  [autoHumanize] is started when no generation runs, on a form
    whose test of the custom sources does not throw.  When the stream for
    the first section with content breaks off, it stops there: the message
    names the section, the flag is cleared, one request was sent, and the
    section keeps what had come of the stream and stays in the state
    humanizing, which [autoHumanize], unlike [autoWrite], does not take
    back; no other section changes. *)
Theorem autoHumanize_failure_halts
    (st : State) (i : nat) (x : BookSection) (bad : StreamAnswer) (later : list Answer) :
  isGeneratingGlobal st = false ->
  sources_throw (advancedForm st) = false ->
  sections st !! i = Some x -> content x <> "" ->
  (forall j y, j < i -> sections st !! j = Some y -> content y = "") ->
  throws bad = true ->
  exists st' : State,
    act OpAutoHumanize (Stream bad :: later) st = Some st' /\
    sections st' !! i = Some (broken_off Humanizing bad x) /\
    (forall j, j <> i -> sections st' !! j = sections st !! j) /\
    globalError st' = "هەڵە لە هیومانیزکردنی بەشی " ++ title x /\
    isGeneratingGlobal st' = false /\
    map call_section (calls_since st st') = [Some i].
Proof.
  intros Hflag _ Hx Hc Hempty Hbad.
  assert (i < length (sections st)) as Hlt by (now apply lookup_lt_Some in Hx).
  unfold act. cbn [begin]. unfold autoHumanize_begin. rewrite Hflag. state_simpl.
  rewrite (autoHumanize_next_first _ (set_isGeneratingGlobal true st) i x Hx Hc)
    by (state_simpl; first [lia | intros j y Hj; apply Hempty; lia]).
  cbn [flushed settle resume]. unfold autoHumanize_resume. flush_simpl.
  rewrite list_lookup_alter_eq, Hx. cbn [fmap option_fmap option_map].
  match goal with |- context [stream_into i (chunks bad) "" ?s] =>
    pose proof (stream_into_sections i bad s) as E2;
    pose proof (stream_into_calls i (chunks bad) "" s) as E3;
    pose proof (stream_into_spec i (chunks bad) "" s) as E4;
    destruct (stream_into i (chunks bad) "" s) as [full s1] end.
  cbn [snd] in E2, E3. rewrite Hbad. cbn [flushed app]. rewrite settle_nil.
  rewrite flush_sections in E2. rewrite flush_calls in E3. state_simpl_in E2.
  eexists. split; [reflexivity|]. flush_simpl. rewrite E2.
  split; [now apply broken_off_lookup|].
  split; [intros j Hj; now rewrite streamed_lookup_ne, list_lookup_alter_ne by congruence|].
  split; [cbn [render render_piece msg_autoHumanize arg nth]; now rewrite str_app_nil_r|].
  split; [reflexivity|].
  unfold calls_since. flush_simpl. rewrite E3. state_simpl.
  now rewrite drop_app_length.
Qed.

Lemma autoHumanize_failure_halts_witness :
  exists st' : State,
    act OpAutoHumanize [Stream (mkStream [Some "x"] true)] half_written = Some st' /\
    sections st' = [mkSection 1 "A" "x" Humanizing; mkSection 2 "B" "" Pending].
Proof.
  destruct (autoHumanize_failure_halts half_written 0 (mkSection 1 "A" "text" Done)
              (mkStream [Some "x"] true) [] eq_refl eq_refl eq_refl)
    as (st' & H & _); [discriminate | intros j y Hj; lia | reflexivity |].
  exists st'. split; [exact H|]. vm_compute in H. now injection H as <-.
Defined.


(* ------------------------------------------------------------------ *)
(** ** The active section *)

Lemma findIndex_find (a : option Z) (l : list BookSection) :
  find_section a l = match findIndex a l with Some i => l !! i | None => None end.
Proof.
  destruct a as [z|]; [|now destruct l]. cbn [find_section].
  induction l as [|x l IH]; [reflexivity|]. cbn [find findIndex].
  destruct (id x =? z)%Z; [reflexivity|]. rewrite IH.
  now destruct (findIndex (Some z) l).
Qed.

Lemma find_section_index (a : option Z) (l : list BookSection) (x : BookSection) :
  find_section a l = Some x ->
  exists i, findIndex a l = Some i /\ l !! i = Some x /\ a = Some (id x).
Proof.
  rewrite findIndex_find. destruct (findIndex a l) as [i|] eqn:E; [|discriminate].
  intros Hx. exists i. split; [reflexivity|]. split; [exact Hx|].
  destruct a as [z|]; [|destruct l; discriminate].
  revert i E Hx. induction l as [|y l IH]; intros i E Hx; [discriminate|].
  cbn [findIndex] in E. destruct (id y =? z)%Z eqn:Ey.
  - injection E as <-. injection Hx as <-. apply Z.eqb_eq in Ey. now rewrite Ey.
  - destruct (findIndex (Some z) l) as [k|]; [|discriminate]. injection E as <-.
    now apply (IH k).
Qed.

Lemma stream_into_activeSectionId i cs full st :
  activeSectionId (snd (stream_into i cs full st)) = activeSectionId st.
Proof. rewrite stream_into_spec. cbn [snd]. now destruct cs. Qed.

Lemma stream_into_globalError i cs full st :
  globalError (snd (stream_into i cs full st)) = globalError st.
Proof. rewrite stream_into_spec. cbn [snd]. now destruct cs. Qed.

(** X21.  [academicReview] is started when no generation runs, on a form
    whose test of the custom sources does not throw.  It rewrites the
    section that [getActiveSectionContent] shows, the first one with the
    active id, and no other: one request is sent for it; when the stream
    ends well the section is done with the text of the stream as its
    content; when it breaks off the message shows and the section keeps
    what had come and stays in the state humanizing.  The flag is cleared
    in both cases. *)
Theorem academicReview_rewrites_active
    (st : State) (x : BookSection) (a : StreamAnswer) (later : list Answer) :
  isGeneratingGlobal st = false ->
  sources_throw (advancedForm st) = false ->
  find_section (activeSectionId st) (sections st) = Some x ->
  content x <> "" ->
  exists (i : nat) (st' : State),
    sections st !! i = Some x /\ activeSectionId st = Some (id x) /\
    act OpAcademicReview (Stream a :: later) st = Some st' /\
    sections st' !! i =
      Some (if throws a then broken_off Humanizing a x else written a x) /\
    (forall j, j <> i -> sections st' !! j = sections st !! j) /\
    globalError st' = (if throws a then msg_review else "") /\
    isGeneratingGlobal st' = false /\ activeSectionId st' = activeSectionId st /\
    map call_section (calls_since st st') = [Some i].
Proof.
  intros Hflag _ Hfind Hc.
  destruct (find_section_index _ _ _ Hfind) as (i & Hi & Hx & Ha).
  exists i. unfold act. cbn [begin]. unfold academicReview_begin.
  rewrite Hflag, Hi, Hx.
  destruct (content x) as [|c0 cr] eqn:Ec; [contradiction|]. cbn [nonempty].
  cbn [flushed settle resume]. unfold academicReview_resume. flush_simpl.
  rewrite list_lookup_alter_eq, Hx. cbn [fmap option_fmap option_map].
  match goal with |- context [stream_into i (chunks a) "" ?s] =>
    pose proof (stream_into_sections i a s) as E2;
    pose proof (stream_into_calls i (chunks a) "" s) as E3;
    pose proof (stream_into_activeSectionId i (chunks a) "" s) as E5;
    pose proof (stream_into_globalError i (chunks a) "" s) as E6;
    destruct (stream_into i (chunks a) "" s) as [full s1] end.
  cbn [snd] in E2, E3, E5, E6. rewrite flush_sections in E2. rewrite flush_calls in E3.
  rewrite flush_activeSectionId in E5. rewrite flush_globalError in E6.
  state_simpl_in E2. state_simpl_in E3. state_simpl_in E5. state_simpl_in E6.
  cbn [flushed app]. rewrite settle_nil.
  eexists. split; [reflexivity|]. split; [exact Ha|]. split; [reflexivity|].
  destruct (throws a); flush_simpl; rewrite ?E2, ?E5, ?E6.
  - split; [now apply broken_off_lookup|].
    split; [intros j Hj;
            now rewrite streamed_lookup_ne, list_lookup_alter_ne by congruence|].
    repeat split. unfold calls_since. flush_simpl. rewrite E3.
    now rewrite drop_app_length.
  - split.
    { rewrite list_lookup_alter_eq, (broken_off_lookup Humanizing a i _ x Hx).
      reflexivity. }
    split; [intros j Hj;
            now rewrite list_lookup_alter_ne, streamed_lookup_ne, list_lookup_alter_ne
              by congruence|].
    repeat split. unfold calls_since. flush_simpl. rewrite E3.
    now rewrite drop_app_length.
Qed.

Lemma academicReview_rewrites_active_witness :
  exists st' : State,
    act OpAcademicReview [Stream (mkStream [Some "x"; Some "y"] false)]
        (viewSection 1 half_written) = Some st' /\
    sections st' = [mkSection 1 "A" "xy" Done; mkSection 2 "B" "" Pending].
Proof.
  destruct (academicReview_rewrites_active (viewSection 1 half_written)
              (mkSection 1 "A" "text" Done) (mkStream [Some "x"; Some "y"] false) []
              eq_refl eq_refl eq_refl)
    as (i & st' & _ & _ & H & _); [discriminate|].
  exists st'. split; [exact H|]. vm_compute in H. now injection H as <-.
Defined.

(** X22.  When [getActiveSectionContent] shows nothing (no section is
    active, no section has the active id, or the first section that has it
    is without content), [academicReview] does nothing: no request, no
    change of the sections, of the flag or of the message. *)
Theorem academicReview_needs_shown_content
    (marked_parse sanitize : string -> option string) (st : State) (answers : list Answer) :
  getActiveSectionContent marked_parse sanitize st = Plain "" ->
  exists st' : State,
    act OpAcademicReview answers st = Some st' /\
    calls_since st st' = [] /\ sections st' = sections st /\
    isGeneratingGlobal st' = isGeneratingGlobal st /\
    globalError st' = globalError st /\ activeSectionId st' = activeSectionId st.
Proof.
  intros Hshown.
  assert (fst (academicReview_begin st) = st /\ snd (academicReview_begin st) = [])
    as [E1 E2].
  { unfold academicReview_begin. destruct (isGeneratingGlobal st); [now split|].
    unfold getActiveSectionContent in Hshown. rewrite findIndex_find in Hshown.
    destruct (findIndex (activeSectionId st) (sections st)) as [i|]; [|now split].
    destruct (sections st !! i) as [x|]; [|now split].
    destruct (nonempty (content x)) eqn:Ec; [|now split].
    exfalso. destruct (marked_parse (content x)) as [raw|];
      [destruct (sanitize raw)|]; try discriminate;
      injection Hshown as E; rewrite E in Ec; discriminate. }
  unfold act. cbn [begin].
  destruct (academicReview_begin st) as [s ts]. cbn [fst snd] in E1, E2. subst s ts.
  cbn [flushed]. rewrite settle_nil. eexists. split; [reflexivity|]. flush_simpl.
  split; [apply calls_since_none; now flush_simpl | now repeat split].
Qed.

Lemma academicReview_needs_shown_content_witness :
  exists st' : State,
    act OpAcademicReview [] (viewSection 2 half_written) = Some st' /\
    calls_since (viewSection 2 half_written) st' = [].
Proof.
  destruct (academicReview_needs_shown_content (fun s => Some s) (fun s => Some s)
              (viewSection 2 half_written) [] eq_refl) as (st' & H & Hc & _).
  exists st'. now split.
Defined.

(* ------------------------------------------------------------------ *)
(** ** States after the effect, kept abstract *)

Lemma flush_settled (st : State) : settled_from (flush st) st.
Proof.
  unfold settled_from.
  rewrite flush_sections, flush_advancedForm, flush_activeSectionId,
    flush_isGeneratingGlobal, flush_writingWindow, flush_currentView, flush_globalError,
    flush_calls, flush_isAutoSelecting, flush_savedDocuments, flush_isLoadingDocs,
    flush_effectPending.
  now repeat split.
Qed.

Lemma settled_currentView (s s0 : State) : settled_from s s0 -> currentView s = currentView s0.
Proof. intros H. apply H. Qed.

Lemma settled_writingWindow (s s0 : State) : settled_from s s0 -> writingWindow s = writingWindow s0.
Proof. intros H. apply H. Qed.

Lemma settled_advancedForm (s s0 : State) : settled_from s s0 -> advancedForm s = advancedForm s0.
Proof. intros H. apply H. Qed.

Lemma settled_sections (s s0 : State) : settled_from s s0 -> sections s = sections s0.
Proof. intros H. apply H. Qed.

Lemma settled_activeSectionId (s s0 : State) : settled_from s s0 -> activeSectionId s = activeSectionId s0.
Proof. intros H. apply H. Qed.

Lemma settled_isGeneratingGlobal (s s0 : State) : settled_from s s0 -> isGeneratingGlobal s = isGeneratingGlobal s0.
Proof. intros H. apply H. Qed.

Lemma settled_globalError (s s0 : State) : settled_from s s0 -> globalError s = globalError s0.
Proof. intros H. apply H. Qed.

Lemma settled_isAutoSelecting (s s0 : State) : settled_from s s0 -> isAutoSelecting s = isAutoSelecting s0.
Proof. intros H. apply H. Qed.

Lemma settled_savedDocuments (s s0 : State) : settled_from s s0 -> savedDocuments s = savedDocuments s0.
Proof. intros H. apply H. Qed.

Lemma settled_isLoadingDocs (s s0 : State) : settled_from s s0 -> isLoadingDocs s = isLoadingDocs s0.
Proof. intros H. apply H. Qed.

Lemma settled_calls (s s0 : State) : settled_from s s0 -> calls s = calls s0.
Proof. intros H. apply H. Qed.

Lemma settled_effectPending (s s0 : State) : settled_from s s0 -> effectPending s = false.
Proof. intros H. apply H. Qed.

(** Names the innermost state after the effect [s], keeping only what
    [settled_from] says of it. *)
Ltac hide_flush s H :=
  match goal with
  | |- context [flush ?X] =>
      lazymatch X with context [flush _] => fail | _ => idtac end;
      pose proof (flush_settled X) as H;
      set (s := flush X) in *; clearbody s
  end.

Ltac use_settled H :=
  repeat (progress (rewrite ?(settled_currentView _ _ H), ?(settled_writingWindow _ _ H),
                      ?(settled_advancedForm _ _ H), ?(settled_sections _ _ H),
                      ?(settled_activeSectionId _ _ H),
                      ?(settled_isGeneratingGlobal _ _ H), ?(settled_globalError _ _ H),
                      ?(settled_isAutoSelecting _ _ H), ?(settled_savedDocuments _ _ H),
                      ?(settled_isLoadingDocs _ _ H), ?(settled_calls _ _ H),
                      ?(settled_effectPending _ _ H);
                    state_simpl)).

(* ------------------------------------------------------------------ *)
(** ** [saveToSupabase] *)

(** X23.  [saveToSupabase] sends one insertion and, whatever the answer,
    leaves the sections and the form as they were and clears the flag.  On
    failure the message shows with the text of the error, or with the word
    for unknown when what was thrown is no [Error].  On success, when the
    library shows, the rows are asked for again and the list of the
    library becomes what comes back. *)
Theorem saveToSupabase_outcome
    (st : State) (a : InsertAnswer) (rows : list SavedDocument) :
  isGeneratingGlobal st = false ->
  exists st' : State,
    act OpSaveToSupabase [Inserted a; Rows (Some rows)] st = Some st' /\
    sections st' = sections st /\ advancedForm st' = advancedForm st /\
    isGeneratingGlobal st' = false /\
    globalError st' =
      match a with
      | None => ""
      | Some error => msg_save ++ default msg_unknown error
      end /\
    match a, currentView st with
    | None, Library =>
        savedDocuments st' = rows /\ isLoadingDocs st' = false /\
        map remote_write (calls_since st st') = [true; false]
    | _, _ =>
        savedDocuments st' = savedDocuments st /\
        map remote_write (calls_since st st') = [true]
    end.
Proof.
  intros Hflag. unfold act. cbn [begin]. unfold saveToSupabase_begin. rewrite Hflag.
  cbn [flushed]. hide_flush s1 H1.
  assert (calls s1 =
          (calls st ++
           [Insert (form_get (advancedForm st) "title") (form_get (advancedForm st) "topic")
                   (form_get (advancedForm st) "type") (form_get (advancedForm st) "level")
                   (JSON_stringify (sections_to_json (sections st)))])%list) as Hc1
    by now use_settled H1.
  assert (forall s, calls s = calls s1 -> map remote_write (calls_since st s) = [true])
    as Hone by (intros s E; unfold calls_since; now rewrite E, Hc1, drop_app_length).
  assert (forall s, calls s = (calls s1 ++ [Select])%list ->
                    map remote_write (calls_since st s) = [true; false]) as Htwo
    by (intros s E; unfold calls_since; now rewrite E, Hc1, <- app_assoc, drop_app_length).
  cbn [settle resume]. unfold saveToSupabase_resume.
  destruct a as [error|].
  - cbn [flushed app settle]. hide_flush s2 H2. eexists. split; [reflexivity|].
    use_settled H2. use_settled H1.
    repeat split; try (now destruct error). apply Hone. now use_settled H2.
  - rewrite (settled_currentView _ _ H1). state_simpl.
    destruct (currentView st) eqn:Hv; unfold loadDocuments_begin;
      cbn [flushed app settle resume]; unfold loadDocuments_resume;
      cbn [flushed app settle]; hide_flush s2 H2; try hide_flush s3 H3;
      (eexists; split; [reflexivity|]).
    all: try use_settled H3; use_settled H2; use_settled H1.
    all: repeat split; first [apply Hone | apply Htwo];
      try use_settled H3; now use_settled H2.
Qed.



Lemma saveToSupabase_outcome_witness :
  exists st' : State,
    act OpSaveToSupabase [Inserted (Some None); Rows (Some [])] after_first_add = Some st' /\
    globalError st' = msg_save ++ msg_unknown.
Proof.
  destruct (saveToSupabase_outcome after_first_add (Some None) [] eq_refl)
    as (st' & H & _ & _ & _ & He & _).
  exists st'. now split.
Defined.

(* ------------------------------------------------------------------ *)
(** ** Removing sections *)


(* ------------------------------------------------------------------ *)
(** ** A section removed while it is written *)

(** X25.  [autoWrite] is started when no generation runs, on a form whose
    test of the custom sources does not throw.  When the only section is
    removed while it waits for the stream, the writes to the section throw
    when the answer comes, the second of them out of the method: the
    message shows, nothing waits any more, and the flag stays set, so that
    from then on [autoWrite], [autoHumanize], [academicReview] and
    [saveToSupabase] return at once. *)
Theorem autoWrite_locked_by_removal (st : State) (x : BookSection) (a : StreamAnswer) :
  sections st = [x] -> isGeneratingGlobal st = false ->
  sources_throw (advancedForm st) = false ->
  let s := sys_run [Invoke OpAutoWrite; Invoke (OpRemoveSection (id x) true);
                    Arrive 0 (Stream a)] (mkSys st []) in
  waiting s = [] /\ sections (component s) = [] /\
  isGeneratingGlobal (component s) = true /\
  globalError (component s) = "هەڵە لە نووسینی بەشی " ++ title x /\
  (forall o, guarded o = true -> begin o (component s) = Some (component s, [])).
Proof.
  intros Hs Hflag _ s.
  assert (waiting s = [] /\ sections (component s) = [] /\
          isGeneratingGlobal (component s) = true /\
          globalError (component s) = "هەڵە لە نووسینی بەشی " ++ title x) as H.
  { unfold s, sys_run. cbn [fold_left sys_step component waiting begin].
    unfold autoWrite_begin. rewrite Hflag.
    rewrite (autoWrite_next_some _ _ _ _ _ x) by (state_simpl; now rewrite Hs).
    cbn [flushed app component waiting].
    assert (forall s0, sections s0 = alter (set_status Generating) 0 [x] ->
              sections (flush (removeSection (id x) true s0)) = []) as Hrm.
    { intros s0 E. rewrite flush_sections. unfold removeSection.
      split_cases; state_simpl; rewrite E; cbn; now rewrite Z.eqb_refl. }
    match goal with |- context [removeSection (id x) true ?s0] =>
      specialize (Hrm s0); set (stR := flush (removeSection (id x) true s0)) in * end.
    rewrite flush_sections in Hrm. state_simpl_in Hrm. rewrite Hs in Hrm.
    specialize (Hrm eq_refl).
    assert (isGeneratingGlobal stR = true) as HgR.
    { unfold stR. rewrite flush_isGeneratingGlobal. unfold removeSection.
      split_cases; now flush_simpl. }
    cbn [lookup list_lookup resume]. unfold autoWrite_resume. rewrite Hrm.
    cbn [lookup list_lookup flushed app delete list_delete component waiting].
    flush_simpl. split; [reflexivity|]. split; [exact Hrm|]. split; [exact HgR|].
    cbn [render render_piece msg_autoWrite arg nth]. now rewrite str_app_nil_r. }
  destruct H as (H1 & H2 & H3 & H4). repeat split; try assumption.
  intros o Ho. now apply guarded_returns.
Qed.

Lemma autoWrite_locked_by_removal_witness :
  isGeneratingGlobal
    (component (sys_run [Invoke OpAutoWrite; Invoke (OpRemoveSection 1 true);
                         Arrive 0 (Stream (mkStream [Some "x"] false))]
                        (mkSys after_first_add []))) = true.
Proof.
  apply (autoWrite_locked_by_removal after_first_add
           (mkSection 1 new_section_title "" Pending)
           (mkStream [Some "x"] false) eq_refl eq_refl eq_refl).
Defined.

(** X26.  [autoWrite] writes by position.  It is started when no
    generation runs, on a form whose test of the custom sources does not
    throw.  When, of two sections, the first is removed while [autoWrite]
    waits for its stream, the text that comes for it is written into the
    second, which has moved to its place and is then done; the run ends
    there, the flag is cleared, and no request is ever sent for the second
    section. *)
Theorem autoWrite_writes_by_position
    (st : State) (x y : BookSection) (a : StreamAnswer) :
  sections st = [x; y] -> id y <> id x -> isGeneratingGlobal st = false ->
  sources_throw (advancedForm st) = false ->
  throws a = false ->
  let s := sys_run [Invoke OpAutoWrite; Invoke (OpRemoveSection (id x) true);
                    Arrive 0 (Stream a)] (mkSys st []) in
  waiting s = [] /\ sections (component s) = [written a y] /\
  isGeneratingGlobal (component s) = false /\
  map call_section (calls_since st (component s)) = [Some 0].
Proof.
  intros Hs Hid Hflag _ Ha s.
  unfold s, sys_run. cbn [fold_left sys_step component waiting begin].
  unfold autoWrite_begin. rewrite Hflag.
  rewrite (autoWrite_next_some _ _ _ _ _ x) by (state_simpl; now rewrite Hs).
  cbn [flushed app component waiting].
  match goal with |- context [removeSection (id x) true ?s0] =>
    set (stG := s0) end.
  assert (sections stG = [set_status Generating x; y]) as HG
    by (unfold stG; rewrite flush_sections; state_simpl; now rewrite Hs).
  assert (calls stG = (calls st ++ [GenerateContentStream 0
            (render (advancedForm st)
                    [sourcesInstruction autoWrite_sources (advancedForm st); title x; ""]
                    autoWrite_template)])%list) as HcG
    by (unfold stG; rewrite flush_calls; reflexivity).
  assert (isGeneratingGlobal stG = true) as HgG
    by (unfold stG; rewrite flush_isGeneratingGlobal; reflexivity).
  clearbody stG.
  set (stR := flush (removeSection (id x) true stG)).
  assert (sections stR = [y] /\ calls stR = calls stG /\ isGeneratingGlobal stR = true)
    as (HR & HcR & HgR).
  { unfold stR. rewrite flush_sections, flush_calls, flush_isGeneratingGlobal.
    apply Z.eqb_neq in Hid. unfold removeSection.
    split_cases; state_simpl; rewrite HG; cbn [List.filter set_status id];
      rewrite Z.eqb_refl, Hid; now repeat split. }
  clearbody stR.
  cbn [lookup list_lookup resume].
  rewrite autoWrite_resume_ok by (rewrite ?HR; cbn [length]; first [lia | assumption]).
  unfold autoWrite_next. state_simpl. rewrite HR.
  rewrite (lookup_ge_None_2 _ 1)
    by (rewrite length_alter, streamed_length; cbn [length]; lia).
  cbn [flushed app delete list_delete component waiting]. flush_simpl.
  split; [reflexivity|]. split; [|split; [reflexivity|]].
  - pose proof (written_lookup a 0 [y] y eq_refl) as Hw.
    destruct (alter (set_status Done) 0 (streamed 0 a [y])) as [|z [|z' l]] eqn:E;
      try discriminate.
    + now injection Hw as ->.
    + apply (f_equal length) in E. rewrite length_alter, streamed_length in E.
      discriminate.
  - unfold calls_since. flush_simpl. rewrite HcR, HcG, drop_app_length. reflexivity.
Qed.

Lemma autoWrite_writes_by_position_witness :
  sections
    (component (sys_run [Invoke OpAutoWrite; Invoke (OpRemoveSection 1 true);
                         Arrive 0 (Stream (mkStream [Some "x"] false))]
                        (mkSys half_written []))) =
  [mkSection 2 "B" "x" Done].
Proof.
  apply (autoWrite_writes_by_position half_written (mkSection 1 "A" "text" Done)
           (mkSection 2 "B" "" Pending) (mkStream [Some "x"] false) eq_refl).
  - discriminate.
  - reflexivity.
  - reflexivity.
  - reflexivity.
Defined.

(* ------------------------------------------------------------------ *)
(** ** What the cache holds *)

Lemma stream_into_localStorage i cs full st :
  localStorage (snd (stream_into i cs full st)) = localStorage st.
Proof. rewrite stream_into_spec. cbn [snd]. now destruct cs. Qed.

Lemma begin_storage (o : Op) (st : State) (r : State * list Task) :
  begin o st = Some r ->
  localStorage (fst r) = localStorage st \/ localStorage (fst r) = None.
Proof.
  intros Hb. destruct o; cbn [begin] in Hb;
    try (injection Hb as <-; now left).
  - injection Hb as <-. unfold autoSelectFeatures_begin. split_cases; now left.
  - injection Hb as <-. now right.
  - injection Hb as <-. destruct view; now left.
  - destruct (readDocument doc st) as [s|] eqn:E; [|discriminate].
    injection Hb as <-. unfold readDocument in E. revert E.
    split_cases; intros [= <-]; now left.
  - injection Hb as <-. destruct confirmed; now left.
  - injection Hb as <-. unfold sendToWindow2_begin.
    destruct (form_invalid _); [now left|].
    match goal with |- context [match ?c with [] => _ | _ :: _ => _ end] =>
      destruct c end; now left.
  - injection Hb as <-. unfold removeSection. split_cases; now left.
  - injection Hb as <-. unfold autoWrite_begin, autoWrite_next. split_cases; now left.
  - injection Hb as <-. unfold autoHumanize_begin.
    destruct (isGeneratingGlobal st); [now left|].
    match goal with |- context [autoHumanize_next ?s ?f ?i ?x] =>
      destruct (autoHumanize_next_spec s f i x) as [-> | (? & ? & _ & _ & _ & ->)] end;
      now left.
  - injection Hb as <-. unfold academicReview_begin. split_cases; now left.
  - injection Hb as <-. unfold saveToSupabase_begin. split_cases; now left.
Qed.

Lemma resume_storage (t : Task) (a : Answer) (st : State) (r : State * list Task) :
  resume t a st = Some r -> localStorage (fst r) = localStorage st.
Proof.
  intros Hr. destruct t, a; cbn [resume] in Hr; try discriminate; injection Hr as <-.
  - unfold autoSelectFeatures_resume. split_cases; reflexivity.
  - unfold loadDocuments_resume. now destruct a.
  - unfold deleteDocument_resume. now destruct ok.
  - unfold sendToWindow2_resume. destruct a; [|reflexivity].
    match goal with |- context [set_sections ?c _] => destruct c end; reflexivity.
  - unfold autoWrite_resume. destruct (sections st !! i); [|reflexivity].
    pose proof (stream_into_localStorage i (chunks a) "" st) as Hc.
    destruct (stream_into i (chunks a) "" st) as [full s1]. cbn [snd] in Hc.
    destruct (throws a); [state_simpl; exact Hc|].
    unfold autoWrite_next. state_simpl. destruct (_ !! S i); state_simpl; exact Hc.
  - unfold autoHumanize_resume. destruct (sections st !! i); [|reflexivity].
    pose proof (stream_into_localStorage i (chunks a) "" st) as Hc.
    destruct (stream_into i (chunks a) "" st) as [full s1]. cbn [snd] in Hc.
    destruct (throws a); [state_simpl; exact Hc|].
    match goal with |- context [autoHumanize_next ?s ?f ?i ?x] =>
      destruct (autoHumanize_next_spec s f i x) as [-> | (? & ? & _ & _ & _ & ->)] end;
      state_simpl; exact Hc.
  - unfold academicReview_resume. destruct (sections st !! sectionIndex); [|reflexivity].
    pose proof (stream_into_localStorage sectionIndex (chunks a) "" st) as Hc.
    destruct (stream_into sectionIndex (chunks a) "" st) as [full s1]. cbn [snd] in Hc.
    destruct (throws a); state_simpl; exact Hc.
  - unfold saveToSupabase_resume. destruct a; [reflexivity|].
    now destruct (currentView st).
Qed.

Lemma flush_draft (st : State) :
  form_canonical (advancedForm st) = true ->
  draft_cached (localStorage st) -> draft_cached (localStorage (flush st)).
Proof.
  intros Hf Hd. unfold flush. destruct (effectPending st); [|exact Hd].
  unfold autosave_effect. destruct (sections st) as [|x l]; [exact Hd|].
  state_simpl. exists x, l, (advancedForm st). now split.
Qed.

Lemma settle_draft (answers : list Answer) :
  forall (st st' : State) (ts : list Task),
    Inv st -> draft_cached (localStorage st) ->
    settle answers st ts = Some st' -> draft_cached (localStorage st').
Proof.
  induction answers as [|a answers IH]; intros st st' ts Hinv Hd Hs.
  - destruct ts; [now injection Hs as <- | discriminate].
  - destruct ts as [|t ts]; [now injection Hs as <-|].
    cbn [settle] in Hs. destruct (resume t a st) as [[st1 new]|] eqn:Hr; [|discriminate].
    cbn [flushed] in Hs. pose proof (resume_Inv t a st st1 new Hinv Hr) as Hinv1.
    apply (IH (flush st1) st' (ts ++ new)%list); [now apply Inv_flush | | exact Hs].
    apply flush_draft; [apply Hinv1|].
    pose proof (resume_storage t a st _ Hr) as E. cbn [fst] in E. now rewrite E.
Qed.

Lemma act_draft (o : Op) (answers : list Answer) (st st' : State) :
  (forall st1 ts, begin o st = Some (st1, ts) -> Inv st1) ->
  draft_cached (localStorage st) ->
  act o answers st = Some st' -> draft_cached (localStorage st').
Proof.
  intros Hinv Hd Hact. unfold act in Hact.
  destruct (begin o st) as [[st1 ts]|] eqn:Hb; [|discriminate]. cbn [flushed] in Hact.
  specialize (Hinv st1 ts eq_refl).
  apply (settle_draft answers (flush st1) st' ts); [now apply Inv_flush | | exact Hact].
  apply flush_draft; [apply Hinv|].
  destruct (begin_storage o st _ Hb) as [E | E]; cbn [fst] in E; rewrite E;
    [exact Hd | exact I].
Qed.

Lemma reachable_draft (st : State) : reachable st -> draft_cached (localStorage st).
Proof.
  induction 1 as [|o answers st st' Hr IH Ha Hact
                  |doc st0 st st' Hr IH Hr0 IH0 Hd Hact
                  |st st' Hr IH Hrl].
  - exact I.
  - apply (act_draft o answers st st'); try assumption.
    intros st1 ts Hb. exact (begin_Inv o st st1 ts Ha (reachable_Inv st Hr) Hb).
  - pose proof (read_Inv doc st0 st st' (reachable_Inv st Hr) (reachable_Inv st0 Hr0)
                  Hd Hact) as Hinv'.
    apply (act_draft (OpReadDocument doc) [] st st'); try assumption.
    intros st1 ts Hb. unfold act in Hact. rewrite Hb in Hact. cbn [flushed] in Hact.
    destruct ts; [|discriminate]. injection Hact as <-.
    destruct Hinv' as (H1 & H2 & _). rewrite flush_sections in H1.
    rewrite flush_advancedForm in H2. split; [exact H1 | split; [exact H2|]].
    destruct (begin_storage _ st _ Hb) as [E | E]; cbn [fst] in E; rewrite E;
      [apply (reachable_Inv st Hr) | exact I].
  - pose proof (reload_Inv st st' (reachable_Inv st Hr) Hrl) as Hinv'.
    unfold reload in Hrl.
    destruct (ngOnInit (initialState (localStorage st))) as [s|] eqn:E; [|discriminate].
    injection Hrl as <-. apply flush_draft.
    + destruct Hinv' as (_ & H2 & _). now rewrite flush_advancedForm in H2.
    + destruct (ngOnInit_outcome _ _ E) as (_ & -> & _). exact IH.
Qed.

(** X27.  A draft in the cache is always resumed.  In every state the
    component reaches, the cache holds nothing or a snapshot with at least
    one section, never an empty list; so loading the page again either
    starts from scratch or opens the writing view on its second window with
    the sections of the cache, the first of them active. *)
Theorem cached_draft_resumes (st : State) :
  reachable st ->
  match localStorage st with
  | None => reload st = Some (initialState None)
  | Some text =>
      exists x l f st',
        text = JSON_stringify (snapshot_json (x :: l) f) /\
        reload st = Some st' /\ sections st' = x :: l /\
        activeSectionId st' = Some (id x) /\
        currentView st' = Writing /\ writingWindow st' = 2
  end.
Proof.
  intros Hr. pose proof (reachable_draft st Hr) as Hd. unfold reload.
  destruct (localStorage st) as [text|]; [|reflexivity].
  destruct Hd as (x & l & f & -> & Hf). exists x, l, f.
  rewrite (ngOnInit_snapshot x l f Hf). eexists. split; [reflexivity|].
  split; [reflexivity|]. flush_simpl. now repeat split.
Qed.

Lemma cached_draft_resumes_witness :
  exists st' : State,
    reload after_first_add = Some st' /\ currentView st' = Writing /\
    writingWindow st' = 2.
Proof.
  generalize (cached_draft_resumes after_first_add after_first_add_reachable).
  replace (localStorage after_first_add)
    with (Some (snapshot_text after_first_add)) by (vm_compute; reflexivity).
  intros (x & l & f & st' & _ & Hr & _ & _ & Hv & Hw).
  exists st'. now repeat split.
Defined.

(* ------------------------------------------------------------------ *)
(** ** The flag after a method has run to its end *)

Lemma stream_into_length i cs full st :
  length (sections (snd (stream_into i cs full st))) = length (sections st).
Proof.
  rewrite stream_into_spec. cbn [snd]. destruct cs; [reflexivity|].
  state_simpl. apply length_alter.
Qed.

Ltac idle_now :=
  unfold idle_when_done; state_simpl;
  cbn [List.filter busy holding is_outline orb length];
  repeat split; intros;
  first [ lia | easy
        | repeat constructor; cbn [task_ok]; state_simpl;
          rewrite ?length_alter, ?streamed_length; first [assumption | lia] ].

Lemma begin_idle (o : Op) (st : State) (r : State * list Task) :
  isGeneratingGlobal st = false -> begin o st = Some r ->
  idle_when_done (fst r) (snd r).
Proof.
  intros Hg Hb. destruct o; cbn [begin] in Hb.
  - injection Hb as <-. unfold autoSelectFeatures_begin. split_cases; idle_now.
  - injection Hb as <-. idle_now.
  - injection Hb as <-. unfold setView, loadDocuments_begin. destruct view; idle_now.
  - injection Hb as <-. unfold loadDocuments_begin. idle_now.
  - destruct (readDocument doc st) as [s|] eqn:E; [|discriminate].
    injection Hb as <-. unfold readDocument in E. revert E.
    split_cases; intros [= <-]; unfold setView; idle_now.
  - injection Hb as <-. unfold deleteDocument_begin. destruct confirmed; idle_now.
  - injection Hb as <-. unfold sendToWindow2_begin.
    destruct (form_invalid _); [idle_now|].
    match goal with |- context [match ?c with [] => _ | _ :: _ => _ end] =>
      destruct c end; idle_now.
  - injection Hb as <-. idle_now.
  - injection Hb as <-. idle_now.
  - injection Hb as <-. unfold removeSection. split_cases; idle_now.
  - injection Hb as <-. idle_now.
  - injection Hb as <-. unfold autoWrite_begin, autoWrite_next. rewrite Hg. state_simpl.
    destruct (sections st !! 0) eqn:E; [apply lookup_lt_Some in E|]; idle_now.
  - injection Hb as <-. unfold autoHumanize_begin. rewrite Hg.
    match goal with |- context [autoHumanize_next ?s ?f ?i ?x] =>
      destruct (autoHumanize_next_spec s f i x) as [-> | (? & ? & _ & E & _ & ->)] end;
      [|apply lookup_lt_Some in E; state_simpl_in E]; idle_now.
  - injection Hb as <-. unfold academicReview_begin. rewrite Hg. split_cases; idle_now.
  - injection Hb as <-. unfold saveToSupabase_begin. rewrite Hg. idle_now.
  - injection Hb as <-. idle_now.
  - injection Hb as <-. idle_now.
Qed.

Lemma task_ok_length (s s' : State) (t : Task) :
  length (sections s') = length (sections s) -> task_ok s t -> task_ok s' t.
Proof. intros E. destruct t; cbn [task_ok]; now rewrite ?E. Qed.

Lemma task_ok_idle (s : State) (ts : list Task) :
  List.filter busy ts = [] -> Forall (task_ok s) ts.
Proof.
  induction ts as [|t ts IH]; [constructor|]. cbn [List.filter].
  destruct (busy t) eqn:E; [discriminate|]. intros H. constructor; [|now apply IH].
  now destruct t.
Qed.

Lemma resume_idle (t : Task) (a : Answer) (st : State) (r : State * list Task) :
  resume t a st = Some r -> task_ok st t ->
  if busy t then idle_when_done (fst r) (snd r)
  else snd r = [] /\ isGeneratingGlobal (fst r) = isGeneratingGlobal st /\
       length (sections (fst r)) = length (sections st).
Proof.
  intros Hr Hok.
  destruct t, a; cbn [resume busy holding is_outline orb task_ok] in *; try discriminate;
    injection Hr as <-.
  - unfold autoSelectFeatures_resume. split_cases; now repeat split.
  - unfold loadDocuments_resume. destruct a; now repeat split.
  - unfold deleteDocument_resume. destruct ok; now repeat split.
  - unfold sendToWindow2_resume. destruct a; [|idle_now].
    match goal with |- context [set_sections ?c _] => destruct c end; idle_now.
  - destruct (throws a) eqn:Ha.
    + rewrite autoWrite_resume_throws by assumption. idle_now.
    + rewrite autoWrite_resume_ok by assumption. unfold autoWrite_next. state_simpl.
      destruct (_ !! S i) eqn:E;
        [apply lookup_lt_Some in E; rewrite ?length_alter, ?streamed_length in E|];
        idle_now.
  - destruct (throws a) eqn:Ha.
    + destruct (autoHumanize_resume_throws sources i section_title a st Hok Ha)
        as (st1 & -> & _ & _ & Hfl). idle_now.
    + rewrite autoHumanize_resume_ok by assumption.
      match goal with |- context [autoHumanize_next ?s ?f ?i ?x] =>
        destruct (autoHumanize_next_spec s f i x) as [-> | (? & ? & _ & E & _ & ->)] end;
        [|apply lookup_lt_Some in E; state_simpl_in E;
          rewrite ?length_alter, ?streamed_length in E]; idle_now.
  - unfold academicReview_resume. idle_now.
  - unfold saveToSupabase_resume. unfold loadDocuments_begin.
    destruct a; [|destruct (currentView st)]; idle_now.
Qed.

Lemma settle_idle (answers : list Answer) :
  forall (st st' : State) (ts : list Task),
    idle_when_done st ts -> settle answers st ts = Some st' ->
    isGeneratingGlobal st' = false.
Proof.
  induction answers as [|a answers IH]; intros st st' ts (Hone & Hok & Hidle) Hs.
  - destruct ts; [|discriminate]. injection Hs as <-. now apply Hidle.
  - destruct ts as [|t ts]; [injection Hs as <-; now apply Hidle|].
    cbn [settle] in Hs. destruct (resume t a st) as [[st1 new]|] eqn:Hr; [|discriminate].
    cbn [flushed] in Hs. apply Forall_cons in Hok as [Ht Hts].
    pose proof (resume_idle t a st _ Hr Ht) as H. cbn [fst snd] in H.
    apply (IH (flush st1) st' (ts ++ new)%list); [|exact Hs].
    cbn [List.filter] in Hone, Hidle. destruct (busy t).
    + assert (List.filter busy ts = []) as Hnone
        by (destruct (List.filter busy ts); [reflexivity | cbn [length] in Hone; lia]).
      destruct H as (H1 & H2 & H3).
      unfold idle_when_done. rewrite List.filter_app, Hnone, flush_isGeneratingGlobal.
      cbn [app]. split; [exact H1|]. split; [|exact H3].
      apply Forall_app. split; [now apply task_ok_idle|].
      eapply Forall_impl; [exact H2|]. intros t0. apply task_ok_length.
      now rewrite flush_sections.
    + destruct H as (-> & Hg & Hl).
      unfold idle_when_done. rewrite app_nil_r, flush_isGeneratingGlobal, Hg.
      split; [exact Hone|]. split; [|exact Hidle].
      eapply Forall_impl; [exact Hts|]. intros t0. apply task_ok_length.
      now rewrite flush_sections.
Qed.

(** X28.  Run to its end from a component that is idle and whose test of
    the custom sources does not throw, every method leaves the component
    idle: whatever the method and whatever the answers,
    [isGeneratingGlobal] is clear again when nothing waits any more. *)
Theorem act_leaves_idle (o : Op) (answers : list Answer) (st st' : State) :
  isGeneratingGlobal st = false -> sources_throw (advancedForm st) = false ->
  act o answers st = Some st' ->
  isGeneratingGlobal st' = false.
Proof.
  intros Hg _ Hact. unfold act in Hact.
  destruct (begin o st) as [[st1 ts]|] eqn:Hb; [|discriminate]. cbn [flushed] in Hact.
  apply (settle_idle answers (flush st1) st' ts); [|exact Hact].
  destruct (begin_idle o st _ Hg Hb) as (H1 & H2 & H3). cbn [fst snd] in *.
  unfold idle_when_done. rewrite flush_isGeneratingGlobal.
  split; [exact H1|]. split; [|exact H3].
  eapply Forall_impl; [exact H2|]. intros t0. apply task_ok_length.
  now rewrite flush_sections.
Qed.

Lemma act_leaves_idle_witness :
  isGeneratingGlobal (run_end run_two two_new_sections) = false.
Proof.
  apply (act_leaves_idle OpAutoWrite (map Stream run_two) two_new_sections
           (run_end run_two two_new_sections) eq_refl eq_refl).
  vm_compute. reflexivity.
Defined.

(* ------------------------------------------------------------------ *)
(** ** The active section in a session *)

Lemma session_inv_keep (st st' : State) :
  map id (sections st') = map id (sections st) ->
  activeSectionId st' = activeSectionId st ->
  advancedForm st' = advancedForm st ->
  session_inv st -> session_inv st'.
Proof.
  intros Hi Ha Hf [H1 H2]. unfold session_inv, active_exists. now rewrite Ha, Hi, Hf.
Qed.

Lemma session_inv_active (st st' : State) (x : BookSection) :
  In x (sections st') -> activeSectionId st' = Some (id x) ->
  advancedForm st' = advancedForm st ->
  session_inv st -> session_inv st'.
Proof.
  intros Hin Ha Hf [_ H2]. unfold session_inv, active_exists. rewrite Ha, Hf.
  split; [now apply in_map | exact H2].
Qed.

Lemma session_inv_none (st st' : State) :
  activeSectionId st' = None -> advancedForm st' = advancedForm st ->
  session_inv st -> session_inv st'.
Proof.
  intros Ha Hf [_ H2]. unfold session_inv, active_exists. now rewrite Ha, Hf.
Qed.

Lemma first_id_in (l : list BookSection) (a : Z) :
  first_id_or_null l = Some a -> In a (map id l).
Proof.
  destruct l as [|x l]; [discriminate|]. cbn [first_id_or_null map].
  destruct (id x =? 0)%Z; [discriminate|]. intros [= <-]. now left.
Qed.

Lemma numeric_form_set (k : string) (v : JsValue) (f : Form) :
  (k = "pages" -> match v with VStr _ => False | _ => True end) ->
  numeric_pages f -> numeric_pages (form_set k v f).
Proof.
  unfold numeric_pages. intros Hv Hf. rewrite form_get_set.
  destruct (String.eqb k "pages") eqn:E; [|exact Hf].
  apply String.eqb_eq in E. specialize (Hv E).
  destruct (form_get f "pages"); [|exact Hf]. now destruct v.
Qed.

Lemma numeric_fold_set (b : bool) (ks : list string) :
  forall f, numeric_pages f ->
            numeric_pages (fold_left (fun f k => form_set k (VBool b) f) ks f).
Proof.
  induction ks as [|k ks IH]; intros f Hf; [exact Hf|].
  cbn [fold_left]. apply IH. now apply numeric_form_set.
Qed.

Lemma numeric_fold_select (l : list json) :
  forall f, numeric_pages f -> numeric_pages (fold_left select_key l f).
Proof.
  induction l as [|j l IH]; intros f Hf; [exact Hf|].
  cbn [fold_left]. apply IH. destruct j; try exact Hf.
  now apply numeric_form_set.
Qed.

Lemma numeric_patch_document (doc : SavedDocument) (f : Form) :
  numeric_pages f -> numeric_pages (patchValue (document_fields doc) f).
Proof.
  unfold numeric_pages. rewrite form_get_patchValue.
  now destruct (form_get f "pages").
Qed.

Ltac keep_now H :=
  cbn [fst snd];
  first [ exact H
        | match type of H with
          | session_inv ?s =>
              first [ apply (session_inv_keep s);
                      [ first [reflexivity | apply alter_keeps; reflexivity]
                      | reflexivity | reflexivity | exact H ]
                    | apply (session_inv_none s); [reflexivity | reflexivity | exact H] ]
          end ].

Lemma lookup_in_alter (f : BookSection -> BookSection) (i : nat)
    (l : list BookSection) (x : BookSection) :
  (forall y, id (f y) = id y) -> l !! i = Some x ->
  exists y, In y (alter f i l) /\ id y = id x.
Proof.
  intros Hf Hx. exists (f x). split; [|apply Hf].
  apply list_elem_of_In, (list_elem_of_lookup_2 _ i).
  now rewrite list_lookup_alter_eq, Hx.
Qed.

Lemma session_inv_alter (f : BookSection -> BookSection) (i : nat) (st st' : State)
    (x : BookSection) :
  (forall y, id (f y) = id y) -> sections st !! i = Some x ->
  sections st' = alter f i (sections st) -> activeSectionId st' = Some (id x) ->
  advancedForm st' = advancedForm st ->
  session_inv st -> session_inv st'.
Proof.
  intros Hf Hx Hs Ha Hform [_ H2]. unfold session_inv, active_exists.
  rewrite Ha, Hs, Hform. split; [|exact H2].
  destruct (lookup_in_alter f i _ x Hf Hx) as (y & Hy & <-). now apply in_map.
Qed.

Lemma autoWrite_next_session form sources i ctx st :
  session_inv st -> session_inv (fst (autoWrite_next form sources i ctx st)).
Proof.
  intros H. unfold autoWrite_next. destruct (sections st !! i) as [x|] eqn:Hx; [|keep_now H].
  cbn [fst]. now apply (session_inv_alter (set_status Generating) i st _ x).
Qed.

Lemma autoHumanize_next_session sources fuel i st :
  session_inv st -> session_inv (fst (autoHumanize_next sources fuel i st)).
Proof.
  intros H. destruct (autoHumanize_next_spec sources fuel i st)
    as [-> | (i' & x & _ & Hx & _ & ->)]; [keep_now H|].
  cbn [fst]. now apply (session_inv_alter (set_status Humanizing) i' st _ x).
Qed.

Lemma outline_sections_active (titles : list string) (s : BookSection)
    (l : list BookSection) (st st' : State) :
  activeSectionId st' = Some (id s) -> sections st' = s :: l ->
  advancedForm st' = advancedForm st -> session_inv st -> session_inv st'.
Proof.
  intros Ha Hs Hf H. apply (session_inv_active st st' s); try assumption.
  rewrite Hs. now left.
Qed.

Lemma removeSection_session (a : Z) (confirmed : bool) (st : State) :
  session_inv st -> session_inv (removeSection a confirmed st).
Proof.
  intros [H1 H2]. unfold removeSection. destruct confirmed; [|now split].
  unfold session_inv, active_exists in *. state_simpl.
  destruct (activeSectionId st) as [b|] eqn:Hb;
    [|state_simpl; rewrite Hb; now split].
  destruct (b =? a)%Z eqn:Hba; state_simpl; (split; [|exact H2]).
  - destruct (first_id_or_null _) as [c|] eqn:Ec; [|exact I]. now apply first_id_in.
  - rewrite Hb. apply Z.eqb_neq in Hba.
    apply in_map_iff in H1 as (x & Hx & Hin). apply in_map_iff. exists x.
    split; [exact Hx|]. apply filter_In. split; [exact Hin|].
    apply negb_true_iff, Z.eqb_neq. congruence.
Qed.

Lemma begin_session (o : Op) (st : State) (r : State * list Task) :
  session_inv st -> allowed st o -> begin o st = Some r ->
  session_inv (fst r) /\ Forall outline_ok (snd r).
Proof.
  intros H Hal Hb. destruct o; cbn [begin allowed] in *.
  - injection Hb as <-. unfold autoSelectFeatures_begin.
    split_cases; (split; [keep_now H | repeat constructor]).
  - injection Hb as <-. split; [keep_now H | constructor].
  - injection Hb as <-. unfold setView, loadDocuments_begin.
    destruct view; (split; [keep_now H | repeat constructor]).
  - injection Hb as <-. split; [keep_now H | repeat constructor].
  - destruct (readDocument doc st) as [s|] eqn:E; [|discriminate].
    injection Hb as <-. split; [|constructor]. unfold readDocument in E. revert E.
    destruct (JSON_parse (doc_content doc)) as [[| | | |l|]|]; try discriminate;
      [|intros [= <-]; keep_now H].
    destruct (sections_of_list l) as [parsed|]; [|discriminate]. intros [= <-].
    unfold setView. unfold session_inv, active_exists. state_simpl.
    split; [|apply numeric_patch_document, H].
    destruct (first_id_or_null parsed) as [a|] eqn:Ea; [|exact I].
    now apply first_id_in.
  - injection Hb as <-. unfold deleteDocument_begin.
    destruct confirmed; (split; [keep_now H | repeat constructor]).
  - injection Hb as <-. unfold sendToWindow2_begin.
    destruct (form_invalid _); [split; [keep_now H | constructor]|].
    match goal with |- context [match ?c with [] => _ | _ :: _ => _ end] =>
      destruct c as [|s l] eqn:Ec end.
    + split; [keep_now H|]. repeat constructor. apply H.
    + split; [|constructor]. cbn [fst].
      apply (outline_sections_active [] s l st); try reflexivity. exact H.
  - injection Hb as <-. split; [|constructor].
    unfold session_inv, active_exists, viewSection. state_simpl.
    split; [exact Hal | apply H].
  - injection Hb as <-. split; [|constructor]. destruct H as [H1 H2].
    unfold session_inv, active_exists, addNewSection in *. state_simpl.
    split; [|exact H2]. destruct (activeSectionId st); [|exact I].
    rewrite map_app. apply in_or_app. now left.
  - injection Hb as <-. split; [now apply removeSection_session | constructor].
  - injection Hb as <-. split; [|constructor].
    apply (session_inv_keep st); try reflexivity; [|exact H].
    apply updateSectionTitle_ids.
  - injection Hb as <-. unfold autoWrite_begin.
    destruct (isGeneratingGlobal st); [split; [exact H | constructor]|].
    split; [apply autoWrite_next_session; keep_now H|].
    unfold autoWrite_next. split_cases; repeat constructor.
  - injection Hb as <-. unfold autoHumanize_begin.
    destruct (isGeneratingGlobal st); [split; [exact H | constructor]|].
    split; [apply autoHumanize_next_session; keep_now H|].
    match goal with |- context [autoHumanize_next ?s ?f ?i ?x] =>
      destruct (autoHumanize_next_spec s f i x) as [-> | (? & ? & _ & _ & _ & ->)] end;
      repeat constructor.
  - injection Hb as <-. unfold academicReview_begin.
    split_cases; (split; [keep_now H | repeat constructor]).
  - injection Hb as <-. unfold saveToSupabase_begin.
    split_cases; (split; [keep_now H | repeat constructor]).
  - injection Hb as <-. split; [|constructor]. destruct H as [H1 H2]. split; [exact H1|].
    unfold input. state_simpl. now apply numeric_form_set.
  - injection Hb as <-. split; [|constructor]. destruct H as [H1 H2]. split; [exact H1|].
    unfold onFileChange, input. state_simpl. apply numeric_form_set; [|exact H2].
    intros E. contradiction.
Qed.

Lemma stream_into_advancedForm i cs full st :
  advancedForm (snd (stream_into i cs full st)) = advancedForm st.
Proof. rewrite stream_into_spec. cbn [snd]. now destruct cs. Qed.

Lemma stream_into_session (i : nat) (a : StreamAnswer) (st : State) :
  session_inv st -> session_inv (snd (stream_into i (chunks a) "" st)).
Proof.
  apply session_inv_keep.
  - rewrite stream_into_sections. now apply streamed_keeps.
  - apply stream_into_activeSectionId.
  - apply stream_into_advancedForm.
Qed.

Lemma fallback_sections_nonempty (pages : option JsValue) :
  fallback_count pages <> None -> fallback_sections pages <> [].
Proof.
  unfold fallback_sections. destruct (fallback_count pages) as [n|] eqn:E; [|contradiction].
  intros _ Hnil. apply (f_equal length) in Hnil.
  rewrite length_map, length_seqZ in Hnil. cbn [length] in Hnil.
  assert (3 <= n)%Z; [|lia].
  unfold fallback_count in E. destruct pages as [[| |p|]|]; try discriminate;
    injection E as <-; lia.
Qed.

Lemma resume_session (t : Task) (a : Answer) (st : State) (r : State * list Task) :
  session_inv st -> outline_ok t -> resume t a st = Some r ->
  session_inv (fst r) /\ Forall outline_ok (snd r).
Proof.
  intros H Hok Hr.
  destruct t, a; cbn [resume outline_ok] in *; try discriminate; injection Hr as <-.
  - split; [|constructor]. destruct H as [H1 H2]. unfold autoSelectFeatures_resume.
    split_cases; (split; [exact H1|]); state_simpl;
      first [ exact H2
            | now apply numeric_fold_set
            | now apply numeric_fold_select, numeric_fold_set ].
  - unfold loadDocuments_resume. destruct a; (split; [keep_now H | constructor]).
  - unfold deleteDocument_resume. destruct ok; (split; [keep_now H | constructor]).
  - split; [|unfold sendToWindow2_resume; split_cases; constructor].
    unfold sendToWindow2_resume. destruct a as [response_text|]; [|keep_now H].
    match goal with |- context [set_sections ?c _] => destruct c as [|s l] eqn:Ec end.
    + exfalso. revert Ec. destruct (imap _ _); [|discriminate].
      now apply fallback_sections_nonempty.
    + cbn [fst]. apply (outline_sections_active [] s l st); try reflexivity. exact H.
  - unfold autoWrite_resume. destruct (sections st !! i); [|split; [keep_now H | constructor]].
    pose proof (stream_into_session i a st H) as H1.
    destruct (stream_into i (chunks a) "" st) as [full s1]. cbn [snd] in H1.
    destruct (throws a); [split; [keep_now H1 | constructor]|].
    split; [apply autoWrite_next_session; keep_now H1|].
    unfold autoWrite_next. split_cases; repeat constructor.
  - unfold autoHumanize_resume.
    destruct (sections st !! i); [|split; [keep_now H | constructor]].
    pose proof (stream_into_session i a st H) as H1.
    destruct (stream_into i (chunks a) "" st) as [full s1]. cbn [snd] in H1.
    destruct (throws a); [split; [keep_now H1 | constructor]|].
    split; [apply autoHumanize_next_session; keep_now H1|].
    match goal with |- context [autoHumanize_next ?s ?f ?i ?x] =>
      destruct (autoHumanize_next_spec s f i x) as [-> | (? & ? & _ & _ & _ & ->)] end;
      repeat constructor.
  - unfold academicReview_resume. split; [|constructor].
    destruct (sections st !! sectionIndex); [|keep_now H].
    pose proof (stream_into_session sectionIndex a st H) as H1.
    destruct (stream_into sectionIndex (chunks a) "" st) as [full s1]. cbn [snd] in H1.
    destruct (throws a); keep_now H1.
  - unfold saveToSupabase_resume, loadDocuments_begin.
    destruct a; [|destruct (currentView st)]; (split; [keep_now H | repeat constructor]).
Qed.

Lemma flush_session (st : State) : session_inv st -> session_inv (flush st).
Proof.
  apply session_inv_keep;
    [now rewrite flush_sections | apply flush_activeSectionId | apply flush_advancedForm].
Qed.

Lemma settle_session (answers : list Answer) :
  forall (st st' : State) (ts : list Task),
    session_inv st -> Forall outline_ok ts ->
    settle answers st ts = Some st' -> session_inv st'.
Proof.
  induction answers as [|a answers IH]; intros st st' ts H Hts Hs.
  - destruct ts; [now injection Hs as <- | discriminate].
  - destruct ts as [|t ts]; [now injection Hs as <-|].
    cbn [settle] in Hs. destruct (resume t a st) as [[st1 new]|] eqn:Hr; [|discriminate].
    cbn [flushed] in Hs. apply Forall_cons in Hts as [Ht Hts].
    destruct (resume_session t a st _ H Ht Hr) as [H1 Hnew]. cbn [fst snd] in *.
    apply (IH (flush st1) st' (ts ++ new)%list); [now apply flush_session | | exact Hs].
    apply Forall_app. now split.
Qed.

Lemma session_session_inv (st : State) : session st -> session_inv st.
Proof.
  induction 1 as [|o answers st st' Hs IH Hal Hact].
  - split; [exact I | discriminate].
  - unfold act in Hact. destruct (begin o st) as [[st1 ts]|] eqn:Hb; [|discriminate].
    cbn [flushed] in Hact.
    destruct (begin_session o st _ IH Hal Hb) as [H1 Hts]. cbn [fst snd] in *.
    exact (settle_session answers (flush st1) st' ts (flush_session st1 H1) Hts Hact).
Qed.

(** X29.  In a session the active section is always one of the sections:
    whatever methods ran to their end, in whatever order and with whatever
    answers, when a section is active [getActiveSectionContent] finds a
    section with its id. *)
Theorem active_section_exists (st : State) (a : Z) :
  session st -> activeSectionId st = Some a ->
  exists x, find_section (Some a) (sections st) = Some x /\ id x = a /\
            In x (sections st).
Proof.
  intros Hs Ha. destruct (session_session_inv st Hs) as [H _].
  unfold active_exists in H. rewrite Ha in H. cbn [find_section].
  apply in_map_iff in H as (y & Hy & Hin).
  destruct (find (fun s => (id s =? a)%Z) (sections st)) as [x|] eqn:E.
  - exists x. apply find_some in E as [Hx Hid]. apply Z.eqb_eq in Hid. now repeat split.
  - exfalso. apply (find_none _ _ E) in Hin. rewrite Hy, Z.eqb_refl in Hin. discriminate.
Qed.

Lemma active_section_exists_witness :
  exists x, find_section (Some 1%Z) (sections (run_end run_one after_first_add)) = Some x /\
            id x = 1%Z.
Proof.
  assert (session (run_end run_one after_first_add)) as Hs.
  { apply (session_act OpAutoWrite (map Stream run_one) after_first_add);
      [|exact I | vm_compute; reflexivity].
    apply (session_act OpAddNewSection [] (initialState None));
      [apply session_start | exact I | vm_compute; reflexivity]. }
  destruct (active_section_exists _ 1%Z Hs) as (x & Hx & Hid & _);
    [vm_compute; reflexivity|].
  exists x. now split.
Defined.
